(** * SPSSread: a shallow embedding of the SPSS system-file reader

    The module [SPSSread.py] (Python 2) reads an SPSS system file: a
    dictionary of records followed by a case-by-case data matrix.  This
    development embeds the reader as functions over an explicit object
    state with Python's exceptions, and settles the properties of the
    decoding engine against that embedding. *)

From Stdlib Require Import ZArith Lia Strings.Byte.
From stdpp Require Import base list gmap strings.

Open Scope Z_scope.

(** ** Python values *)

(** A Python 2 [str] is a byte string. *)
Abbreviation bytes := (list byte).

#[global] Instance byte_eq_decision : EqDecision byte := Byte.byte_eq_dec.

(** [ord(c)] for a one-character string. *)
Definition ord (c : byte) : Z := Z.of_N (Byte.to_N c).

(** String literals of the source, as byte strings. *)
Definition lit (s : string) : bytes := String.list_byte_of_string s.

(** The values the reader stores.  A float is identified with its native
    8-byte IEEE encoding: the module never computes with floats, it only
    unpacks, stores and compares them with values of other types. *)
#[warnings="-register-all"]
Inductive pyval :=
  | PyNone
  | PyInt (n : Z)
  | PyFloat (w : bytes)
  | PyStr (s : bytes)
  | PyList (l : list pyval)
  | PyTuple (l : list pyval).

(** The literal [0.0]. *)
Definition float_zero : bytes := replicate 8 x00.

(** [v == "False"]: only a [str] with these five characters is equal to the
    string; a value of any other type compares unequal. *)
Definition eq_False_str (v : pyval) : bool :=
  match v with
  | PyStr s => bool_decide (s = lit "False")
  | _ => false
  end.

(** Python's exceptions, as far as the module can raise them. *)
Inductive exn :=
  | TypeError
  | IndexError
  | AttributeError
  | SystemExit (code : Z).

(** Lines written by the [print] statements. *)
Inductive message :=
  | CannotOpenFile
  | InvalidSubtype (t : Z)
  | ErrorReading73
  | ErrorReading74
  | ErrorReturning (case var : Z).

(** ** Primitive decoders *)

(** What [struct.unpack] of one field returns is a 1-tuple; the [except]
    branch of [pkint] and [pkflt] returns a bare number instead. *)
Inductive unpacked (A : Type) :=
  | Tuple1 (a : A)
  | Scalar0.
Arguments Tuple1 {A} a.
Arguments Scalar0 {A}.

(** Native (little-endian) unsigned reading of a byte string. *)
Definition le_unsigned (bs : bytes) : Z :=
  foldr (fun c acc => ord c + 256 * acc) 0 bs.

(** A 32-bit two's complement integer from its unsigned reading. *)
Definition int32_of (bs : bytes) : Z :=
  let u := le_unsigned bs in
  if u <? 2 ^ 31 then u else u - 2 ^ 32.

(** [pkint]: [struct.unpack("i", vv)], or [0] when the window is not four
    bytes long. *)
Definition pkint (vv : bytes) : unpacked Z :=
  if bool_decide (length vv = 4%nat) then Tuple1 (int32_of vv) else Scalar0.

(** [pkflt]: [struct.unpack("d", vv)], or [0.0] when the window is not
    eight bytes long. *)
Definition pkflt (vv : bytes) : unpacked bytes :=
  if bool_decide (length vv = 8%nat) then Tuple1 vv else Scalar0.

(** [pkstr]: the characters of [vv], one by one, concatenated again. *)
Definition pkstr (vv : bytes) : bytes :=
  foldl (fun bstr i => bstr ++ [i]) [] vv.

(** Indexing of a Python list: negative indices count from the end. *)
Definition py_pos {A} (l : list A) (i : Z) : option nat :=
  let n := Z.of_nat (length l) in
  if bool_decide (0 <= i < n) then Some (Z.to_nat i)
  else if bool_decide (- n <= i < 0) then Some (Z.to_nat (n + i))
  else None.

Definition py_index {A} (l : list A) (i : Z) : option A :=
  match py_pos l i with
  | Some k => l !! k
  | None => None
  end.

(** ** Objects *)

(** A [variable] object as [GetRecordType2] completes it.  The attributes
    the module reads back are fields; the others (written and never read)
    are kept in the object's attribute dictionary [vattrs]. *)
Record variable := mkvariable {
  name : bytes;
  label : bytes;
  data : list pyval;
  typecode : Z;
  labelmarker : Z;
  missingmarker : Z;
  missingd : pyval;
  missingr : pyval;
  labelvalues : list pyval;
  labelfields : list pyval;
  vattrs : gmap string pyval
}.

Definition var_append_data (v : pyval) (x : variable) : variable :=
  mkvariable (name x) (label x) (data x ++ [v]) (typecode x) (labelmarker x)
    (missingmarker x) (missingd x) (missingr x) (labelvalues x)
    (labelfields x) (vattrs x).

Definition var_set_labels (vs fs : list pyval) (x : variable) : variable :=
  mkvariable (name x) (label x) (data x) (typecode x) (labelmarker x)
    (missingmarker x) (missingd x) (missingr x) vs fs (vattrs x).

Definition var_setattr (k : string) (v : pyval) (x : variable) : variable :=
  mkvariable (name x) (label x) (data x) (typecode x) (labelmarker x)
    (missingmarker x) (missingd x) (missingr x) (labelvalues x)
    (labelfields x) (<[k:=v]> (vattrs x)).

(** The [SPSSFile] object together with the two things it acts on: the
    open file [fin] (the bytes not read yet, [None] when there is no file
    object) and the standard output.  An attribute that is set outside
    [__init__] and read back is an [option], [None] while it is unset; the
    attributes that are only written are in the dictionary [attrs]. *)
Record SPSSFile := mkSPSSFile {
  fin : option bytes;
  documents : bytes;
  variablelist : list variable;
  rawvarlist : list (option Z);
  compressionswitch : option (unpacked Z);
  numcases : option (unpacked Z);
  SYSMIS : option pyval;
  cluster : option (list Z);
  datevars : list pyval;
  attrs : gmap string pyval;
  stdout : list message
}.

Definition set_fin (v : option bytes) (s : SPSSFile) : SPSSFile :=
  mkSPSSFile v (documents s) (variablelist s) (rawvarlist s)
    (compressionswitch s) (numcases s) (SYSMIS s) (cluster s) (datevars s)
    (attrs s) (stdout s).

Definition set_documents (v : bytes) (s : SPSSFile) : SPSSFile :=
  mkSPSSFile (fin s) v (variablelist s) (rawvarlist s)
    (compressionswitch s) (numcases s) (SYSMIS s) (cluster s) (datevars s)
    (attrs s) (stdout s).

Definition set_variablelist (v : list variable) (s : SPSSFile) : SPSSFile :=
  mkSPSSFile (fin s) (documents s) v (rawvarlist s)
    (compressionswitch s) (numcases s) (SYSMIS s) (cluster s) (datevars s)
    (attrs s) (stdout s).

Definition set_rawvarlist (v : list (option Z)) (s : SPSSFile) : SPSSFile :=
  mkSPSSFile (fin s) (documents s) (variablelist s) v
    (compressionswitch s) (numcases s) (SYSMIS s) (cluster s) (datevars s)
    (attrs s) (stdout s).

Definition set_compressionswitch (v : unpacked Z) (s : SPSSFile) : SPSSFile :=
  mkSPSSFile (fin s) (documents s) (variablelist s) (rawvarlist s)
    (Some v) (numcases s) (SYSMIS s) (cluster s) (datevars s) (attrs s)
    (stdout s).

Definition set_numcases (v : unpacked Z) (s : SPSSFile) : SPSSFile :=
  mkSPSSFile (fin s) (documents s) (variablelist s) (rawvarlist s)
    (compressionswitch s) (Some v) (SYSMIS s) (cluster s) (datevars s)
    (attrs s) (stdout s).

Definition set_SYSMIS (v : pyval) (s : SPSSFile) : SPSSFile :=
  mkSPSSFile (fin s) (documents s) (variablelist s) (rawvarlist s)
    (compressionswitch s) (numcases s) (Some v) (cluster s) (datevars s)
    (attrs s) (stdout s).

Definition set_cluster (v : list Z) (s : SPSSFile) : SPSSFile :=
  mkSPSSFile (fin s) (documents s) (variablelist s) (rawvarlist s)
    (compressionswitch s) (numcases s) (SYSMIS s) (Some v) (datevars s)
    (attrs s) (stdout s).

Definition set_attrs (v : gmap string pyval) (s : SPSSFile) : SPSSFile :=
  mkSPSSFile (fin s) (documents s) (variablelist s) (rawvarlist s)
    (compressionswitch s) (numcases s) (SYSMIS s) (cluster s) (datevars s) v
    (stdout s).

Definition set_stdout (v : list message) (s : SPSSFile) : SPSSFile :=
  mkSPSSFile (fin s) (documents s) (variablelist s) (rawvarlist s)
    (compressionswitch s) (numcases s) (SYSMIS s) (cluster s) (datevars s)
    (attrs s) v.

Definition set_datevars (v : list pyval) (s : SPSSFile) : SPSSFile :=
  mkSPSSFile (fin s) (documents s) (variablelist s) (rawvarlist s)
    (compressionswitch s) (numcases s) (SYSMIS s) (cluster s) v (attrs s)
    (stdout s).

(** ** The monad of methods *)

(** A method call ends by returning, by raising, or (for the two
    [while 1] loops, which are run on fuel) by exhausting its fuel. *)
Inductive outcome (A : Type) :=
  | Ret (a : A) (s : SPSSFile)
  | Raise (e : exn) (s : SPSSFile)
  | OutOfFuel.
Arguments Ret {A} a s.
Arguments Raise {A} e s.
Arguments OutOfFuel {A}.

Definition M (A : Type) : Type := SPSSFile -> outcome A.

Definition ret {A} (a : A) : M A := fun s => Ret a s.

Definition bind {A B} (m : M A) (k : A -> M B) : M B := fun s =>
  match m s with
  | Ret a s' => k a s'
  | Raise e s' => Raise e s'
  | OutOfFuel => OutOfFuel
  end.

Definition raise {A} (e : exn) : M A := fun s => Raise e s.

Notation "'do' x <- m ; k" := (bind m (fun x => k))
  (at level 10, x name, m at level 99, k at level 200,
   format "'[v' 'do'  x  <-  m ; '/' k ']'").
Notation "'run' m ; k" := (bind m (fun _ => k))
  (at level 10, m at level 99, k at level 200,
   format "'[v' 'run'  m ; '/' k ']'").

(** [self.fin.read(n)]: up to [n] bytes, all the rest for a negative [n]. *)
Definition read (n : Z) : M bytes := fun s =>
  match fin s with
  | None => Raise AttributeError s
  | Some rest =>
      let k := if n <? 0 then length rest else Z.to_nat n in
      Ret (take k rest) (set_fin (Some (drop k rest)) s)
  end.

(** Length of the first line of [l], newline included, at most [k]. *)
Fixpoint line_length (k : nat) (l : bytes) : nat :=
  match k, l with
  | S k', c :: l' =>
      if bool_decide (c = x0a) then 1%nat else S (line_length k' l')
  | _, _ => 0%nat
  end.

(** [self.fin.readline(n)]: up to [n] bytes, stopping after a newline. *)
Definition readline (n : Z) : M bytes := fun s =>
  match fin s with
  | None => Raise AttributeError s
  | Some rest =>
      let k := line_length (if n <? 0 then length rest else Z.to_nat n) rest in
      Ret (take k rest) (set_fin (Some (drop k rest)) s)
  end.

(** [t[0]] on the result of [pkint] or [pkflt]. *)
Definition item0 {A} (t : unpacked A) : M A :=
  match t with
  | Tuple1 a => ret a
  | Scalar0 => raise TypeError
  end.

(** [ord(IN[i])] for a string [IN]. *)
Definition ord_at (IN : bytes) (i : nat) : M Z :=
  match IN !! i with
  | Some c => ret (ord c)
  | None => raise IndexError
  end.

(** [self.k = v] for an attribute that is never read back. *)
Definition setattr (k : string) (v : pyval) : M unit := fun s =>
  Ret tt (set_attrs (<[k:=v]> (attrs s)) s).

(** [print msg]. *)
Definition print (msg : message) : M unit := fun s =>
  Ret tt (set_stdout (stdout s ++ [msg]) s).

Definition get {A} (f : SPSSFile -> A) : M A := fun s => Ret (f s) s.

Definition modify (f : SPSSFile -> SPSSFile) : M unit := fun s => Ret tt (f s).

(** Reading an attribute that may be unset. *)
Definition getattr {A} (f : SPSSFile -> option A) : M A := fun s =>
  match f s with
  | Some a => Ret a s
  | None => Raise AttributeError s
  end.

(** [pkint(self.fin.read(4))[0]], the most frequent phrase of the module. *)
Definition read_int : M Z :=
  do w <- read 4; item0 (pkint w).

(** ** The compressed-cell codec *)

(** [self.compressionswitch == 0].  The attribute holds what [pkint]
    returned, the tuple itself: a 1-tuple is never equal to an integer, so
    the test succeeds only on the bare [0] of [pkint]'s [except] branch. *)
Definition switch_is_zero (c : unpacked Z) : bool :=
  match c with
  | Scalar0 => true
  | Tuple1 _ => false
  end.

(** [if len(self.cluster) == 0:] read eight bytes and append the [ord] of
    each to the cluster. *)
Definition refill_cluster : M unit :=
  do c <- getattr cluster;
  if bool_decide (length c = 0%nat) then
    do IN <- read 8;
    modify (set_cluster (c ++ map ord IN))
  else ret tt.

(** [self.cluster.pop(0)]. *)
Definition pop_cluster : M Z :=
  do c <- getattr cluster;
  match c with
  | [] => raise IndexError
  | byte :: c' => run modify (set_cluster c'); ret byte
  end.

(** The control byte of the next cell: the cluster is filled again when
    it is empty, and its first byte is popped. *)
Definition next_byte : M Z :=
  run refill_cluster; pop_cluster.

Definition GetNumber : M pyval :=
  do sw <- getattr compressionswitch;
  if switch_is_zero sw then
    do IN <- read 8;
    if bool_decide (length IN < 1)%nat then ret (PyStr (lit "False"))
    else do f <- item0 (pkflt IN); ret (PyFloat f)
  else
    do byte <- next_byte;
    if bool_decide (byte > 1 ∧ byte < 252) then ret (PyInt (byte - 100))
    else if bool_decide (byte = 252) then ret (PyStr (lit "False"))
    else if bool_decide (byte = 253) then
      do IN <- read 8;
      if bool_decide (length IN < 1)%nat then ret (PyStr (lit "False"))
      else do f <- item0 (pkflt IN); ret (PyFloat f)
    else if bool_decide (byte = 254) then ret (PyFloat float_zero)
    else if bool_decide (byte = 255) then getattr SYSMIS
    else ret PyNone.

(** The [while 1] loop of [GetString], one iteration per unit of fuel.
    The source tests the byte with five [if]s in sequence; a branch that
    does not return leaves the byte as it is, and the tests exclude each
    other, so the iteration ends where the chain below ends it. *)
Fixpoint GetString_loop (fuel : nat) (width : Z) (ln : bytes) : M pyval :=
  match fuel with
  | O => fun _ => OutOfFuel
  | S fuel' =>
      do byte <- next_byte;
      if bool_decide (byte > 0 ∧ byte < 252) then ret (PyInt (byte - 100))
      else if bool_decide (byte = 252) then getattr SYSMIS
      else if bool_decide (byte = 253) then
        do IN <- read 8;
        if bool_decide (length IN < 1)%nat then getattr SYSMIS
        else
          let ln' := ln ++ pkstr IN in
          if bool_decide (Z.of_nat (length ln') > width) then ret (PyStr ln')
          else GetString_loop fuel' width ln'
      else if bool_decide (byte = 254) then
        if bool_decide (ln ≠ []) then ret (PyStr ln)
        else GetString_loop fuel' width ln
      else if bool_decide (byte = 255) then getattr SYSMIS
      else GetString_loop fuel' width ln
  end.

(** Control bytes still to come: those in the cluster and the unread file. *)
Definition pending (s : SPSSFile) : nat :=
  (length (default [] (cluster s)) + length (default [] (fin s)))%nat.

Definition GetString (var : variable) : M pyval :=
  do sw <- getattr compressionswitch;
  if switch_is_zero sw then
    do IN <- read 8;
    if bool_decide (length IN < 1)%nat then getattr SYSMIS
    else ret (PyStr (pkstr IN))
  else
    fun s => GetString_loop (S (pending s)) (typecode var) [] s.

(** ** The data matrix reader *)

(** [var.data.append(v)] for the [i]-th variable of the list. *)
Definition append_data (i : nat) (v : pyval) : M unit :=
  modify (fun s =>
    set_variablelist (alter (var_append_data v) i (variablelist s)) s).

(** The inner loop of [GetData], [for i, var in enumerate(...)], from
    index [i] on. *)
Fixpoint GetData_vars (case : Z) (i : nat) (vars : list variable) : M unit :=
  match vars with
  | [] => ret tt
  | var :: vars' =>
      run (if bool_decide (typecode var = 0) then
             do N <- GetNumber;
             if eq_False_str N then
               run print (ErrorReturning case (Z.of_nat i));
               raise (SystemExit 1)
             else append_data i N
           else if bool_decide (typecode var > 0 ∧ typecode var < 256) then
             do str <- GetString var;
             if eq_False_str str then
               run print (ErrorReturning case (Z.of_nat i));
               raise (SystemExit 1)
             else append_data i str
           else ret tt);
      GetData_vars case (S i) vars'
  end.

(** The outer loop, [for case in range(self.numcases[0])], with [n] cases
    to go. *)
Fixpoint GetData_cases (n : nat) (case : Z) : M unit :=
  match n with
  | O => ret tt
  | S n' =>
      do vl <- get variablelist;
      run GetData_vars case 0 vl;
      GetData_cases n' (case + 1)
  end.

Definition GetData : M unit :=
  run modify (set_cluster []);
  do nc <- getattr numcases;
  do n <- item0 nc;
  GetData_cases (Z.to_nat n) 0.

(** ** The dictionary record reader *)

(** A pair of strings, as [GetPrintWriteCode] returns it. *)
Definition pair_str (a b : string) : pyval :=
  PyTuple [PyStr (lit a); PyStr (lit b)].

(** The meaning of code 31 contains a percent sign between quote marks. *)
Definition pct_meaning : bytes :=
  lit "Percent - F followed by " ++ [x22; x25; x22].

Definition GetPrintWriteCode (code : Z) : pyval :=
  if bool_decide (code = 0) then pair_str "" "Continuation of string variable"
  else if bool_decide (code = 1) then pair_str "A" "Alphanumeric"
  else if bool_decide (code = 2) then pair_str "AHEX" "alphanumeric hexadecimal"
  else if bool_decide (code = 3) then pair_str "COMMA" "F format with commas"
  else if bool_decide (code = 4) then
    pair_str "DOLLAR" "Commas and floating point dollar sign"
  else if bool_decide (code = 5) then pair_str "F" "F (default numeric) format"
  else if bool_decide (code = 6) then pair_str "IB" "Integer binary"
  else if bool_decide (code = 7) then
    pair_str "PIBHEX" "Positive binary integer - hexadecimal"
  else if bool_decide (code = 8) then pair_str "P" "Packed decimal"
  else if bool_decide (code = 9) then
    pair_str "PIB" "Positive integer binary (Unsigned)"
  else if bool_decide (code = 10) then
    pair_str "PK" "Positive packed decimal (Unsigned)"
  else if bool_decide (code = 11) then pair_str "RB" "Floating point binary"
  else if bool_decide (code = 12) then
    pair_str "RBHEX" "Floating point binary - hexadecimal"
  else if bool_decide (code = 15) then pair_str "Z" "Zoned decimal"
  else if bool_decide (code = 16) then
    pair_str "N" "N format - unsigned with leading zeros"
  else if bool_decide (code = 17) then
    pair_str "E" "E format - with explicit power of ten"
  else if bool_decide (code = 20) then pair_str "DATE" "Date format dd-mmm-yyyy"
  else if bool_decide (code = 21) then pair_str "TIME" "Time format hh:mm:ss.s"
  else if bool_decide (code = 22) then pair_str "DATETIME" "Date and time"
  else if bool_decide (code = 23) then
    pair_str "ADATE" "Date in mm/dd/yyyy form"
  else if bool_decide (code = 24) then pair_str "JDATE" "Julian date - yyyyddd"
  else if bool_decide (code = 25) then
    pair_str "DTIME" "Date-time dd hh:mm:ss.s"
  else if bool_decide (code = 26) then pair_str "WKDAY" "Day of the week"
  else if bool_decide (code = 27) then pair_str "MONTH" "Month"
  else if bool_decide (code = 28) then pair_str "MOYR" "mmm yyyy"
  else if bool_decide (code = 29) then pair_str "QYR" "q Q yyyy"
  else if bool_decide (code = 30) then pair_str "WKYR" "ww WK yyyy"
  else if bool_decide (code = 31) then
    PyTuple [PyStr (lit "PCT"); PyStr pct_meaning]
  else if bool_decide (code = 32) then
    pair_str "DOT" "Like COMMA, switching dot for comma"
  else if bool_decide (code >= 33 ∧ code <= 37) then
    pair_str "CCA-CCE" "User-programmable currency format"
  else if bool_decide (code = 38) then
    pair_str "EDATE" "Date in dd.mm.yyyy style"
  else if bool_decide (code = 39) then
    pair_str "SDATE" "Date in yyyy/mm/dd style"
  else PyTuple [PyNone; PyNone].

(** What [pkint] returned, as the value an attribute holds. *)
Definition py_of_pkint (u : unpacked Z) : pyval :=
  match u with
  | Tuple1 n => PyTuple [PyInt n]
  | Scalar0 => PyInt 0
  end.

Definition GetRecordType1 : M unit :=
  do w <- read 4; run setattr "recordtype" (PyStr w);
  do w <- read 60; run setattr "eyecatcher" (PyStr w);
  do w <- read 4; run setattr "filelayoutcode" (py_of_pkint (pkint w));
  do w <- read 4; run setattr "numOBSelements" (py_of_pkint (pkint w));
  do w <- read 4; run modify (set_compressionswitch (pkint w));
  do w <- read 4; run setattr "caseweightvar" (py_of_pkint (pkint w));
  do w <- read 4; run modify (set_numcases (pkint w));
  do w <- read 8; run setattr "compressionbias" (PyStr w);
  do w <- read 84; setattr "metastr" (PyStr w).

(** [pkflt(self.fin.read(8))[0]]. *)
Definition read_flt : M bytes :=
  do w <- read 8; item0 (pkflt w).

(** [for i in range(n): self.fin.read(8)]. *)
Fixpoint skip_words (n : nat) : M unit :=
  match n with
  | O => ret tt
  | S n' => run read 8; skip_words n'
  end.

(** [for i in range(n): tmpmiss.append(pkflt(self.fin.read(8))[0])]. *)
Fixpoint read_missing (n : nat) (tmpmiss : list pyval) : M (list pyval) :=
  match n with
  | O => ret tmpmiss
  | S n' => do IN <- read_flt; read_missing n' (tmpmiss ++ [PyFloat IN])
  end.

Definition var_set_missingd (v : pyval) (x : variable) : variable :=
  mkvariable (name x) (label x) (data x) (typecode x) (labelmarker x)
    (missingmarker x) v (missingr x) (labelvalues x) (labelfields x)
    (vattrs x).

Definition var_set_missingr (v : pyval) (x : variable) : variable :=
  mkvariable (name x) (label x) (data x) (typecode x) (labelmarker x)
    (missingmarker x) (missingd x) v (labelvalues x) (labelfields x)
    (vattrs x).

(** The attributes [variable.__init__] sets and [GetRecordType2] leaves
    alone or never reads back; [x == 0] compares the object itself with 0
    and is false, so [type] is always ["String"]. *)
Definition variable_attrs0 : gmap string pyval :=
  <["type" := PyStr (lit "String")]>
  (<["namelabel" := PyNone]>
  (<["printformatcode" := PyList []]>
  (<["writeformatcode" := PyList []]> ∅))).

(** The part of [GetRecordType2] that decodes the missing values into the
    variable [x], by the marker. *)
Definition read_missing_values (x : variable) : M variable :=
  let mm := missingmarker x in
  if bool_decide (mm = 0) then
    ret (var_set_missingr (PyTuple [PyNone; PyNone])
           (var_set_missingd PyNone x))
  else if bool_decide (mm = -2 ∨ mm = -3) then
    do val1 <- read_flt;
    do val2 <- read_flt;
    let x := var_set_missingr (PyTuple [PyFloat val1; PyFloat val2]) x in
    if bool_decide (mm = -3) then
      do IN <- read_flt; ret (var_set_missingd (PyFloat IN) x)
    else ret (var_setattr "missings" PyNone x)
  else if bool_decide (mm > 0 ∧ mm < 4) then
    do tmpmiss <- read_missing (Z.to_nat mm) [];
    ret (var_set_missingr PyNone (var_set_missingd (PyList tmpmiss) x))
  else ret x.

Definition GetRecordType2 : M unit :=
  do IN <- read_int;
  let typecode := IN in
  if bool_decide (typecode ≠ -1) then
    do labelmarker <- read_int;
    do missingmarker <- read_int;
    do IN <- read 4;
    do decplaces <- ord_at IN 0;
    do colwidth <- ord_at IN 1;
    do code <- ord_at IN 2;
    let formattype := GetPrintWriteCode code in
    do IN <- read 4;
    do decplaces_wrt <- ord_at IN 0;
    do colwidth_wrt <- ord_at IN 1;
    do code <- ord_at IN 2;
    let formattype_wrt := GetPrintWriteCode code in
    do IN <- read 8;
    let name := pkstr IN in
    let nameblankflag := forallb (fun i => bool_decide (ord i = 32)) name in
    let va :=
      <["formattype_wrt" := formattype_wrt]>
      (<["colwidth_wrt" := PyInt colwidth_wrt]>
      (<["decplaces_wrt" := PyInt decplaces_wrt]>
      (<["formattype" := formattype]>
      (<["colwidth" := PyInt colwidth]>
      (<["decplaces" := PyInt decplaces]> variable_attrs0))))) in
    do lb <-
      (if bool_decide (labelmarker = 1) then
         do IN <- read_int;
         let labellength := IN in
         let IN := if bool_decide (IN `mod` 4 ≠ 0)
                   then IN + 4 - IN `mod` 4 else IN in
         do IN <- read IN;
         ret (pkstr IN, <["labellength" := PyInt labellength]> va)
       else ret ([], va));
    let x := mkvariable name (fst lb) [] typecode labelmarker missingmarker
               (PyList []) (PyList []) [] [] (snd lb) in
    run skip_words (Z.to_nat (Z.abs missingmarker));
    do x <- read_missing_values x;
    if negb nameblankflag then
      run modify (fun s => set_variablelist (variablelist s ++ [x]) s);
      modify (fun s =>
        set_rawvarlist
          (rawvarlist s ++ [Some (Z.of_nat (length (variablelist s)))]) s)
    else ret tt
  else
    run modify (fun s =>
      set_rawvarlist
        (rawvarlist s ++ [default None (py_index (rawvarlist s) (-1))]) s);
    run read 24;
    ret tt.

(** [ord(c)] for a string [c]: a [TypeError] unless its length is one. *)
Definition ord1 (c : bytes) : M Z :=
  match c with
  | [b] => ret (ord b)
  | _ => raise TypeError
  end.

(** The loop of [GetRecordType3] over the value and label pairs. *)
Fixpoint read_labels (n : nat) (values fields : list pyval)
  : M (list pyval * list pyval) :=
  match n with
  | O => ret (values, fields)
  | S n' =>
      do IN <- read_flt;
      do c <- read 1;
      do l <- ord1 c;
      let l := if bool_decide (l `mod` 8 ≠ 0) then l + 8 - l `mod` 8 else l in
      do IN' <- read (l - 1);
      read_labels n' (values ++ [PyFloat IN]) (fields ++ [PyStr (pkstr IN')])
  end.

(** [for i in range(n): labelinds.append(pkint(self.fin.read(4))[0])]. *)
Fixpoint read_ints (n : nat) (acc : list Z) : M (list Z) :=
  match n with
  | O => ret acc
  | S n' => do IN <- read_int; read_ints n' (acc ++ [IN])
  end.

(** The loop that attaches the two lists to the variables named by the
    raw indices; [None - 1] is a [TypeError]. *)
Fixpoint attach_labels (labelinds : list Z) (values fields : list pyval)
  : M unit :=
  match labelinds with
  | [] => ret tt
  | i :: rest =>
      do rv <- get rawvarlist;
      match py_index rv (i - 1) with
      | None => raise IndexError
      | Some None => raise TypeError
      | Some (Some ind) =>
          do vl <- get variablelist;
          match py_pos vl (ind - 1) with
          | None => raise IndexError
          | Some k =>
              run modify
                (set_variablelist (alter (var_set_labels values fields) k vl));
              attach_labels rest values fields
          end
      end
  end.

Definition GetRecordType3 : M unit :=
  run setattr "r3values" (PyList []);
  run setattr "r3labels" (PyList []);
  do IN <- read_int;
  do vf <- read_labels (Z.to_nat IN) [] [];
  do t <- read_int;
  if bool_decide (t = 4) then
    do numvars <- read_int;
    do labelinds <- read_ints (Z.to_nat numvars) [];
    attach_labels labelinds (fst vf) (snd vf)
  else
    print (InvalidSubtype t).

Definition GetRecordType6 : M unit :=
  do IN <- read_int;
  do w <- read (80 * IN);
  modify (set_documents (pkstr w)).

(** [tbl[i]] for one of the tables of names. *)
Definition table_item (tbl : list string) (i : Z) : M pyval :=
  match py_index tbl i with
  | Some n => ret (PyStr (lit n))
  | None => raise IndexError
  end.

Definition GetType73 : M unit :=
  let FPrep := ["IEEE"; "IBM 370"; "DEC VAX E"]%string in
  let endian := ["Big-endian"; "Little-endian"]%string in
  let charrep := ["EBCDIC"; "7-bit ASCII"; "8-bit ASCII"; "DEC Kanji"]%string in
  do datatype <- read_int;
  do numelements <- read_int;
  if bool_decide (numelements = 8) then
    do IN <- read_int; run setattr "releasenum" (PyInt IN);
    do IN <- read_int; run setattr "releasesubnum" (PyInt IN);
    do IN <- read_int; run setattr "releaseidnum" (PyInt IN);
    do IN <- read_int; run setattr "machinecode" (PyInt IN);
    do IN <- read_int; do v <- table_item FPrep (IN - 1);
    run setattr "FPrep" v;
    do IN <- read_int; run setattr "compressionscheme" (PyInt IN);
    do IN <- read_int; do v <- table_item endian (IN - 1);
    run setattr "endiancode" v;
    do IN <- read_int; do v <- table_item charrep (IN - 1);
    setattr "charrepcode" v
  else
    print ErrorReading73.

(** [pkflt(self.fin.readline(8))[0]]. *)
Definition readline_flt : M bytes :=
  do w <- readline 8; item0 (pkflt w).

Definition GetType74 : M unit :=
  do datatype <- read_int;
  do numelements <- read_int;
  if bool_decide (numelements = 3 ∧ datatype = 8) then
    do v <- readline_flt; run modify (set_SYSMIS (PyFloat v));
    do v <- readline_flt; run setattr "himissingval" (PyFloat v);
    do v <- readline_flt; setattr "lomissingval" (PyFloat v)
  else
    print ErrorReading74.

Definition GetType75 : M unit :=
  do datatype <- read_int;
  do numelements <- read_int;
  do w <- read (4 * numelements);
  setattr "variablesets" (PyStr (pkstr w)).

(** [GetDateVar]: only an [IndexError] is caught; an index that is not an
    integer is a [TypeError]. *)
Definition GetDateVar (code : pyval) : M pyval :=
  let datetypes :=
    ["Cycle"; "Year"; "Quarter"; "Month"; "Week"; "Day"; "Hour"; "Minute";
     "Second"; "Observation"; "DATE_"]%string in
  match code with
  | PyInt i =>
      ret (match py_index datetypes i with
           | Some n => PyStr (lit n)
           | None => PyNone
           end)
  | _ => raise TypeError
  end.

(** The loop of [GetType76], [for i in xrange(1, self.numdatevars + 1)].
    [GetDateVar] is called with the four bytes read, a [str]. *)
Fixpoint read_datevars (n : nat) : M unit :=
  match n with
  | O => ret tt
  | S n' =>
      do a <- read_int;
      do w <- read 4;
      do dv <- GetDateVar (PyStr w);
      do c <- (match dv with
               | PyStr (c :: _) => ret [c]
               | PyStr [] => raise IndexError
               | _ => raise TypeError
               end);
      let b := py_of_pkint (pkint c) in
      do d <- read_int;
      run modify (fun s =>
        set_datevars (datevars s ++ [PyList [PyInt a; b; PyInt d]]) s);
      read_datevars n'
  end.

Definition GetType76 : M unit :=
  do datatype <- read_int;
  do numelements <- read_int;
  do IN <- read_int; run setattr "explicitperiodflag" (PyInt IN);
  do IN <- read_int; run setattr "period" (PyInt IN);
  do numdatevars <- read_int; run setattr "numdatevars" (PyInt numdatevars);
  do IN <- read_int; run setattr "lowestincr" (PyInt IN);
  do IN <- read_int; run setattr "higheststart" (PyInt IN);
  do IN <- read_int; run setattr "datevarsmarker" (PyInt IN);
  read_datevars (Z.to_nat numdatevars).

(** [var.k = v] for the variable at position [ind] of the list. *)
Definition var_assign (ind : nat) (k : string) (v : pyval) : M unit :=
  modify (fun s =>
    set_variablelist (alter (var_setattr k v) ind (variablelist s)) s).

(** The loop of [GetType711], [for ind in range(numelements)], from [ind]
    on with [n] rounds to go. *)
Fixpoint read_measures (n ind : nat) (datatype : Z) : M unit :=
  let measure := ["Nominal"; "Ordinal"; "Continuous"]%string in
  let align := ["Left"; "Right"; "Centre"]%string in
  match n with
  | O => ret tt
  | S n' =>
      do vl <- get variablelist;
      match vl !! ind with
      | None => raise IndexError
      | Some _ =>
          do w <- read datatype; do IN <- item0 (pkint w);
          do v <- table_item measure (IN - 1);
          run var_assign ind "measure" v;
          do w <- read datatype; do IN <- item0 (pkint w);
          run var_assign ind "displaywidth" (PyInt IN);
          do w <- read datatype; do IN <- item0 (pkint w);
          do v <- table_item align IN;
          run var_assign ind "align" v;
          read_measures n' (S ind) datatype
      end
  end.

Definition GetType711 : M unit :=
  do datatype <- read_int;
  do IN <- read_int;
  let numelements := IN `div` 3 in
  read_measures (Z.to_nat numelements) 0 datatype.

(** The loop of [GetType713].  Its two tests compare an integer with a
    string and a one-character string with a two-character one: both are
    always false, so every byte is appended to [word]. *)
Definition split_names (IN : bytes) : bytes :=
  foldl (fun word byte => word ++ [byte]) [] IN.

Definition GetType713 : M unit :=
  do datatype <- read_int;
  do numelements <- read_int;
  do IN <- read numelements;
  let word := split_names IN in
  ret tt.

Definition GetType7other : M unit :=
  do datatype <- read_int;
  do numelements <- read_int;
  do w <- read (datatype * numelements);
  setattr "Other7" (PyStr w).

Definition GetRecordType7 : M unit :=
  do subtype <- read_int;
  if bool_decide (subtype = 3) then GetType73
  else if bool_decide (subtype = 4) then GetType74
  else if bool_decide (subtype = 5) then GetType75
  else if bool_decide (subtype = 6) then GetType76
  else if bool_decide (subtype = 11) then GetType711
  else if bool_decide (subtype = 13) then GetType713
  else GetType7other.

(** The [while 1] loop of [GetRecords], one record tag per unit of fuel.
    For a tag of 6 the body is [pass]; for any other unknown tag there is
    no branch at all. *)
Fixpoint GetRecords_loop (fuel : nat) : M unit :=
  match fuel with
  | O => fun _ => OutOfFuel
  | S fuel' =>
      do IN <- read_int;
      if bool_decide (IN = 2) then
        run GetRecordType2; GetRecords_loop fuel'
      else if bool_decide (IN = 3) then
        run GetRecordType3; GetRecords_loop fuel'
      else if bool_decide (IN = 6) then GetRecords_loop fuel'
      else if bool_decide (IN = 7) then
        run GetRecordType7; GetRecords_loop fuel'
      else if bool_decide (IN = 999) then
        run read 4;
        run GetData;
        modify (set_fin None)
      else GetRecords_loop fuel'
  end.

(** Bytes of the file not read yet. *)
Definition unread (s : SPSSFile) : nat := length (default [] (fin s)).

Definition GetRecords : M unit :=
  run GetRecordType1;
  fun s => GetRecords_loop (S (unread s)) s.

(** [SPSSFile.__init__] without the [-all] argument: the attributes that
    are never read back go to the dictionary. *)
Definition SPSSFile_init (filename : bytes) : SPSSFile :=
  mkSPSSFile None [] [] [] None None None None []
    (<["filename" := PyStr filename]>
    (<["typecode" := PyList []]>
    (<["labelmarker" := PyList []]>
    (<["missingvals" := PyList []]>
    (<["missingvalmins" := PyList []]>
    (<["missingvalmaxs" := PyList []]>
    (<["numvars" := PyInt 0]>
    (<["variablesets" := PyNone]> ∅))))))))
    [].

(** [OpenFile]: [contents] is what the file system holds under the file
    name, [None] when [open] raises [IOError]. *)
Definition OpenFile (contents : option bytes) : M unit :=
  match contents with
  | Some b => modify (set_fin (Some b))
  | None => run print CannotOpenFile; modify (set_fin None)
  end.

(** ** Accessors *)

Definition GetLabels (s : SPSSFile) : list bytes := map label (variablelist s).
Definition GetTypeCodes (s : SPSSFile) : list Z :=
  map typecode (variablelist s).

(** [row > self.numcases] for an integer [row]: against the 1-tuple that
    [pkint] returned, Python 2 orders a number before any tuple, so the
    test is false; against the bare [0] it is the comparison of integers. *)
Definition int_gt_pkint (row : Z) (u : unpacked Z) : bool :=
  match u with
  | Tuple1 _ => false
  | Scalar0 => bool_decide (row > 0)
  end.

(** The loop of [GetRow]: the local list [row], which replaces the
    argument, receives [variable.data[ind]]. *)
Fixpoint GetRow_loop (ind : nat) (vars : list variable) (row : list pyval)
  : M (list pyval) :=
  match vars with
  | [] => ret row
  | variable :: vars' =>
      match data variable !! ind with
      | None => raise IndexError
      | Some v => GetRow_loop (S ind) vars' (row ++ [v])
      end
  end.

Definition GetRow (row : Z) : M pyval :=
  if bool_decide (row < 0) then ret PyNone
  else
    do nc <- getattr numcases;
    if int_gt_pkint row nc then ret PyNone
    else
      do vl <- get variablelist;
      do row <- GetRow_loop 0 vl [];
      ret (PyList row).

(** ** Building files

    What [struct.pack] writes, used to build the files on which the
    statements below are evaluated. *)

Definition byte_of (n : Z) : byte := default x00 (Byte.of_N (Z.to_N n)).

(** [struct.pack("i", n)]. *)
Definition le32 (n : Z) : bytes :=
  let u := n `mod` 2 ^ 32 in
  [byte_of (u `mod` 256); byte_of ((u `div` 256) `mod` 256);
   byte_of ((u `div` 65536) `mod` 256); byte_of ((u `div` 16777216) `mod` 256)].

(** A string padded with spaces to [n] characters. *)
Definition padded (n : nat) (s : string) : bytes :=
  take n (lit s ++ replicate n x20).

(** The 176 bytes of a type-1 record: compression switch [sw], [ncases]
    cases and the eight bytes [bias] of the compression bias. *)
Definition header (sw ncases : Z) (bias : bytes) : bytes :=
  lit "$FL2" ++ padded 60 "@(#) SPSS DATA FILE" ++ le32 2 ++ le32 1 ++
  le32 sw ++ le32 0 ++ le32 ncases ++ bias ++ padded 84 "".

(** The encoding of the float [100.0]. *)
Definition bias100 : bytes := [x00; x00; x00; x00; x00; x00; x59; x40].

(** A type-2 record without a label: tag, type code, no label, the
    missing-value marker, two format words, the name and the payload. *)
Definition record2 (tc marker : Z) (nm : string) (payload : bytes) : bytes :=
  le32 2 ++ le32 tc ++ le32 0 ++ le32 marker ++
  [x00; x08; x05; x00] ++ [x00; x08; x05; x00] ++ padded 8 nm ++ payload.

(** The type-7 subtype-4 record that defines [SYSMIS] and the two other
    sentinels as the eight-byte words [w1], [w2] and [w3]. *)
Definition record74 (w1 w2 w3 : bytes) : bytes :=
  le32 7 ++ le32 4 ++ le32 8 ++ le32 3 ++ w1 ++ w2 ++ w3.

(** The dictionary terminator with its pad word. *)
Definition record999 : bytes := le32 999 ++ le32 0.

(** The encoding of the lowest float, the usual system-missing value. *)
Definition sysmis_word : bytes := [xff; xff; xff; xff; xff; xff; xef; xff].

(** A new object whose file holds [contents], as after [OpenFile]. *)
Definition opened (contents : bytes) : SPSSFile :=
  set_fin (Some contents) (SPSSFile_init (lit "file.sav")).

(** The state in which a call ended. *)
Definition final_state {A} (o : outcome A) : option SPSSFile :=
  match o with
  | Ret _ s => Some s
  | Raise _ s => Some s
  | OutOfFuel => None
  end.

(** How a call ended. *)
Inductive ending :=
  | Returned
  | Raised (e : exn)
  | Unfinished.

Definition ending_of {A} (o : outcome A) : ending :=
  match o with
  | Ret _ _ => Returned
  | Raise e _ => Raised e
  | OutOfFuel => Unfinished
  end.

(** The columns of data, one list per variable. *)
Definition columns (s : SPSSFile) : list (list pyval) :=
  map data (variablelist s).

(** ** Vocabulary of the specification *)

(** The five outcomes the specification gives a numeric cell with control
    byte [byte]: the compact value, end of data, a raw float, zero, or the
    system-missing value of the file. *)
Inductive cell_outcome (s : SPSSFile) (byte : Z) : pyval -> Prop :=
  | compact_value : cell_outcome s byte (PyInt (byte - 100))
  | end_of_data : cell_outcome s byte (PyStr (lit "False"))
  | raw_float w : cell_outcome s byte (PyFloat w)
  | zero : cell_outcome s byte (PyFloat float_zero)
  | system_missing v : SYSMIS s = Some v -> cell_outcome s byte v.

(** ** Sample states and files *)

(** A state in the compressed branch: the cluster holds [c], the file
    still holds [rest], and [SYSMIS] is the lowest float. *)
Definition compressed_state (c : list Z) (rest : bytes) : SPSSFile :=
  set_cluster c
    (set_SYSMIS (PyFloat sysmis_word)
       (set_compressionswitch (Tuple1 1) (opened rest))).

(** A string variable of width [w], as a type-2 record without label and
    missing values defines it. *)
Definition string_var (w : Z) : variable :=
  mkvariable (padded 8 "S") [] [] w 0 0 PyNone (PyTuple [PyNone; PyNone])
    [] [] variable_attrs0.

(** The value a call returned. *)
Definition value_of {A} (o : outcome A) : option A :=
  match o with
  | Ret a _ => Some a
  | _ => None
  end.

(** A compressed file with one variable of type code [tc] and one case,
    whose data section starts with the control byte 252. *)
Definition one_cell_file (tc : Z) : bytes :=
  header 1 1 bias100 ++ record74 sysmis_word sysmis_word sysmis_word ++
  record2 tc 0 "X" [] ++ record999 ++
  [byte_of 252; x00; x00; x00; x00; x00; x00; x00].

(** A compressed file with two numeric variables and two cases: the cells
    are 1 and 2 in the first case, 3 and 4 in the second. *)
Definition two_by_two_file : bytes :=
  header 1 2 bias100 ++ record2 0 0 "X" [] ++ record2 0 0 "Y" [] ++
  record999 ++
  [byte_of 101; byte_of 102; byte_of 103; byte_of 104; x00; x00; x00; x00].

(** [GetRecords] and then [GetRow row] on a file. *)
Definition row_of (contents : bytes) (row : Z) : outcome pyval :=
  bind GetRecords (fun _ => GetRow row) (opened contents).

(** ** Type-2 records as the file lays them out *)

(** The fields of a variable definition after its tag: three 4-byte
    integers, the print and write formats, the name, the label block
    (empty, or a length word and the padded text) and the missing-value
    payload. *)
Record variable_record := mk_variable_record {
  vr_typecode : bytes;
  vr_labelmarker : bytes;
  vr_missingmarker : bytes;
  vr_print : bytes;
  vr_write : bytes;
  vr_name : bytes;
  vr_label : bytes;
  vr_missing : bytes
}.

(** The bytes of the record, in file order. *)
Definition vr_bytes (r : variable_record) : bytes :=
  vr_typecode r ++ vr_labelmarker r ++ vr_missingmarker r ++ vr_print r ++
  vr_write r ++ vr_name r ++ vr_label r ++ vr_missing r.

(** The missing-value marker the record declares. *)
Definition vr_marker (r : variable_record) : Z :=
  int32_of (vr_missingmarker r).

(** The label block that goes with a label marker: nothing unless the
    marker is 1, else a length word and the text padded to a multiple of
    four bytes. *)
Definition label_block (marker : Z) (lab : bytes) : Prop :=
  if bool_decide (marker = 1) then
    ∃ lenw text, lab = lenw ++ text ∧ length lenw = 4%nat ∧
      0 <= int32_of lenw ∧
      Z.of_nat (length text) =
        (if bool_decide (int32_of lenw `mod` 4 ≠ 0)
         then int32_of lenw + 4 - int32_of lenw `mod` 4
         else int32_of lenw)
  else lab = [].

(** A record whose fields have the sizes it declares: the payload holds
    one 8-byte word per missing value, that is [|marker|] words. *)
Definition vr_well_formed (r : variable_record) : Prop :=
  length (vr_typecode r) = 4%nat ∧ length (vr_labelmarker r) = 4%nat ∧
  length (vr_missingmarker r) = 4%nat ∧ length (vr_print r) = 4%nat ∧
  length (vr_write r) = 4%nat ∧ length (vr_name r) = 8%nat ∧
  label_block (int32_of (vr_labelmarker r)) (vr_label r) ∧
  length (vr_missing r) = (8 * Z.abs_nat (vr_marker r))%nat.

(** The markers the format defines besides 0. *)
Definition payload_marker (m : Z) : Prop :=
  m = -3 ∨ m = -2 ∨ m = 1 ∨ m = 2 ∨ m = 3.

(** A name made of spaces only. *)
Definition blank_name (nm : bytes) : bool :=
  forallb (fun i => bool_decide (ord i = 32)) nm.

(** The shapes of a missing-value specification. *)
Inductive missing_shape :=
  | NoMissing
  | Range
  | RangePlusOne
  | Discrete (n : nat).

Definition is_float (v : pyval) : bool :=
  match v with
  | PyFloat _ => true
  | _ => false
  end.

(** The shape the attributes [missingd] and [missingr] of a variable
    have, if any. *)
Definition shape_of (x : variable) : option missing_shape :=
  match missingd x, missingr x with
  | PyNone, PyTuple [PyNone; PyNone] => Some NoMissing
  | PyList [], PyTuple [PyFloat _; PyFloat _] => Some Range
  | PyFloat _, PyTuple [PyFloat _; PyFloat _] => Some RangePlusOne
  | PyList (v :: l), PyNone =>
      if forallb is_float (v :: l) then Some (Discrete (length (v :: l)))
      else None
  | _, _ => None
  end.

(** The shape the specification gives each marker. *)
Definition shape_for (m : Z) : option missing_shape :=
  if bool_decide (m = 0) then Some NoMissing
  else if bool_decide (m = -2) then Some Range
  else if bool_decide (m = -3) then Some RangePlusOne
  else if bool_decide (1 <= m <= 3) then Some (Discrete (Z.to_nat m))
  else None.

(** What [GetRecordType2] does with the completed variable [x]: it is
    appended to the registry, with its raw index, unless its name is
    blank. *)
Definition register (x : variable) (s : SPSSFile) : SPSSFile :=
  if blank_name (name x) then s
  else
    set_rawvarlist
      (rawvarlist s ++ [Some (Z.of_nat (length (variablelist s ++ [x])))])
      (set_variablelist (variablelist s ++ [x]) s).

(** A numeric variable named [X] with marker [m] and the given payload,
    without a label. *)
Definition sample_record (m : Z) (payload : bytes) : variable_record :=
  mk_variable_record (le32 0) (le32 0) (le32 m) [x00; x08; x05; x00]
    [x00; x08; x05; x00] (padded 8 "X") [] payload.

(** Eight bytes that encode the float [9.0]. *)
Definition nine_word : bytes := [x00; x00; x00; x00; x00; x00; x22; x40].

(** ** Other records as the file lays them out *)


(** A file whose dictionary holds a document record of one line. *)
Definition document_line : bytes := padded 80 "Survey of 2008".

Definition document_file : bytes :=
  header 1 0 bias100 ++ le32 6 ++ le32 1 ++ document_line ++ record999.


(** ** Independence of the compression bias *)

(** The object with another string as its [compressionbias]. *)
Definition set_bias (b : bytes) (s : SPSSFile) : SPSSFile :=
  set_attrs (<["compressionbias" := PyStr b]> (attrs s)) s.

(** The same ending in another state. *)
Definition map_state {A} (f : SPSSFile -> SPSSFile) (o : outcome A)
  : outcome A :=
  match o with
  | Ret a s => Ret a (f s)
  | Raise e s => Raise e (f s)
  | OutOfFuel => OutOfFuel
  end.

(** A method is blind to the bias when running it on an object with
    another bias gives the same ending and value, in the state reached
    from the first object, with the other bias. *)
Definition bias_blind {A} (m : M A) : Prop :=
  ∀ b s, m (set_bias b s) = map_state (set_bias b) (m s).

(** ** Termination of the two loops *)

(** A state in which no more of the file, and no more control bytes, are
    left than in another. *)
Definition shrinks (s s' : SPSSFile) : Prop :=
  (unread s' <= unread s)%nat ∧ (pending s' <= pending s)%nat.

(** A call from the state [s] that ended, having put nothing back. *)
Definition ends_within {A} (s : SPSSFile) (o : outcome A) : Prop :=
  match o with
  | Ret _ s' => shrinks s s'
  | Raise _ s' => shrinks s s'
  | OutOfFuel => False
  end.

(** A method that ends so from every state. *)
Definition bounded {A} (m : M A) : Prop :=
  ∀ s, ends_within s (m s).

(** ** Vocabulary of the further properties *)

(** What the docstring of [GetPrintWriteCode] promises of a result: a
    pair of strings whose first is at most eight characters long, or the
    pair [(None, None)]. *)
Definition format_pair_ok (v : pyval) : bool :=
  match v with
  | PyTuple [PyStr a; PyStr _] => bool_decide (length a <= 8)%nat
  | PyTuple [PyNone; PyNone] => true
  | _ => false
  end.

(** The format codes the table of [GetPrintWriteCode] knows. *)
Definition known_format (code : Z) : Prop :=
  (0 <= code <= 12) ∨ (15 <= code <= 17) ∨ (20 <= code <= 39).

(** The 24 bytes that follow the type code of a continuation record. *)
Definition continuation_tail : bytes := replicate 24 x00.

(** A state whose registry holds one string variable of width 12 under
    raw index 1, with [contents] still to read. *)
Definition one_string_state (contents : bytes) : SPSSFile :=
  set_rawvarlist [Some 1] (set_variablelist [string_var 12] (opened contents)).

(** ** What a method leaves alone *)

(** A method relates the state it is called in to the state it ends in
    by [R], whether it returns or raises. *)
Definition relates {A} (R : SPSSFile -> SPSSFile -> Prop) (m : M A) : Prop :=
  ∀ s, match m s with
       | Ret _ s' => R s s'
       | Raise _ s' => R s s'
       | OutOfFuel => True
       end.

(** The variable [x] with other data. *)
Definition var_with_data (d : list pyval) (x : variable) : variable :=
  mkvariable (name x) (label x) d (typecode x) (labelmarker x)
    (missingmarker x) (missingd x) (missingr x) (labelvalues x)
    (labelfields x) (vattrs x).

(** The variable [x'] is [x] with values added at the end of its data. *)
Definition data_grows (x x' : variable) : Prop :=
  x' = var_with_data (data x') x ∧ data x `prefix_of` data x'.

(** Between two states nothing of the object has changed but the data of
    the variables, which have grown; the file, the cluster and the output
    are left out of the comparison. *)
Definition columns_grow (s s' : SPSSFile) : Prop :=
  Forall2 data_grows (variablelist s) (variablelist s')
  ∧ rawvarlist s' = rawvarlist s
  ∧ compressionswitch s' = compressionswitch s
  ∧ numcases s' = numcases s
  ∧ SYSMIS s' = SYSMIS s
  ∧ documents s' = documents s
  ∧ datevars s' = datevars s
  ∧ attrs s' = attrs s.

(** Between two states the registry is the same. *)
Definition same_registry (s s' : SPSSFile) : Prop :=
  variablelist s' = variablelist s.

(** The type codes for which [GetData] reads a cell: 0 for a number, 1
    to 255 for a string. *)
Definition cell_type (tc : Z) : bool :=
  bool_decide (tc = 0) || bool_decide (tc > 0 ∧ tc < 256).

(** A numeric variable without data. *)
Definition numeric_var : variable :=
  mkvariable (padded 8 "N") [] [] 0 0 0 PyNone (PyTuple [PyNone; PyNone])
    [] [] variable_attrs0.

(** A state at the start of the data section: a compressed file with [n]
    cases, the variables [vars] and the data bytes [contents]. *)
Definition data_state (n : Z) (vars : list variable) (contents : bytes)
  : SPSSFile :=
  set_numcases (Tuple1 n)
    (set_SYSMIS (PyFloat sysmis_word)
       (set_compressionswitch (Tuple1 1)
          (set_variablelist vars (opened contents)))).

(** The variable [x'] is [x] with [k] more values if [GetData] reads
    cells for its type code, and with as many values as [x] if not. *)
Definition gained (k : nat) (x x' : variable) : Prop :=
  typecode x' = typecode x
  ∧ length (data x') =
    (length (data x) + (if cell_type (typecode x) then k else 0))%nat.

(** ** Value labels as the file lays them out *)

(** One value-label pair of a type-3 record: the 8-byte value, the
    length byte and the text field, the label with its padding. *)
Definition label_pair : Type := bytes * byte * bytes.

Definition pair_value (p : label_pair) : bytes := p.1.1.
Definition pair_length (p : label_pair) : byte := p.1.2.
Definition pair_text (p : label_pair) : bytes := p.2.

Definition pair_bytes (p : label_pair) : bytes :=
  pair_value p ++ [pair_length p] ++ pair_text p.

(** The layout of a pair in the file: the value fills eight bytes; the
    text field holds the label, of as many characters as the length
    byte says, and no more padding than makes the length byte and the
    field together fill a multiple of eight bytes.  (A label of eight
    characters has a field of fifteen bytes, an empty label one of
    seven.) *)
Definition pair_ok (p : label_pair) : Prop :=
  length (pair_value p) = 8%nat
  ∧ ord (pair_length p) <= Z.of_nat (length (pair_text p))
    < ord (pair_length p) + 8
  ∧ (1 + Z.of_nat (length (pair_text p))) `mod` 8 = 0.

(** The label lengths on which the rounding of [GetRecordType3] gives
    the size of the field: the handler rounds the length itself, not
    the length with its byte, up to a multiple of eight and reads one
    byte less, which falls eight bytes short when the length is a
    multiple of eight (and is [read(-1)] when it is 0). *)
Definition not_multiple_of_eight (p : label_pair) : Prop :=
  ord (pair_length p) `mod` 8 ≠ 0.

(** The position in the registry that the raw index [i] of a type-4
    record stands for, given the raw index list [rv] and the length [n]
    of the registry: [rv[i - 1]] must be an integer [ind], and
    [ind - 1] an index of the registry, both by the rules of Python. *)
Definition label_target (rv : list (option Z)) (n : nat) (i : Z)
  : option nat :=
  match py_index rv (i - 1) with
  | Some (Some ind) => py_pos (replicate n tt) (ind - 1)
  | _ => None
  end.

(** The registry [vl] after the two lists have been attached to the
    variables at the positions [targets]. *)
Definition with_labels (vs fs : list pyval) (targets : list nat)
    (vl : list variable) : list variable :=
  imap (fun j x =>
          if bool_decide (j ∈ targets) then var_set_labels vs fs x else x) vl.

(** A state with two numeric variables under the raw indices 1 and 2 and
    [contents] to read. *)
Definition two_var_state (contents : bytes) : SPSSFile :=
  set_rawvarlist [Some 1; Some 2]
    (set_variablelist [numeric_var; numeric_var] (opened contents)).

(** The value 9.0 with a label of four characters, padded to seven. *)
Definition sample_pair : label_pair :=
  (nine_word, x04, lit "nine   ").

(** ** The registry during the read of the dictionary *)

(** What a variable definition record fixes of a variable: its name,
    label, type code, the two markers and the missing values. *)
Definition var_core (x : variable)
  : bytes * bytes * Z * Z * Z * pyval * pyval :=
  (name x, label x, typecode x, labelmarker x, missingmarker x, missingd x,
   missingr x).

(** Every integer of the raw index list is the 1-based position of a
    variable of the registry. *)
Definition indices_valid (s : SPSSFile) : Prop :=
  Forall (fun e =>
            match e with
            | Some ind => 1 <= ind <= Z.of_nat (length (variablelist s))
            | None => True
            end) (rawvarlist s).

(** From [s] to [s'] the registry and the raw index list have only been
    extended, the variables of [s] keeping what their records defined,
    and the raw indices are valid in [s'] if they were in [s]. *)
Definition registry_extends (s s' : SPSSFile) : Prop :=
  map var_core (variablelist s) `prefix_of` map var_core (variablelist s')
  ∧ rawvarlist s `prefix_of` rawvarlist s'
  ∧ (indices_valid s -> indices_valid s').

(** ** Where the missing values are read *)

(** The first [n] 8-byte windows of [l], in order. *)
Fixpoint words (n : nat) (l : bytes) : list bytes :=
  match n with
  | O => []
  | S n' => take 8 l :: words n' (drop 8 l)
  end.

(** The attributes [missingd] and [missingr] that [GetRecordType2] leaves
    in a variable with marker [m] when the floats its branch reads are
    [ws], in the order read: for -2 [missingd] keeps the empty list of
    [__init__]. *)
Definition decoded_missing (m : Z) (ws : list bytes) : pyval * pyval :=
  if bool_decide (m = 0) then (PyNone, PyTuple [PyNone; PyNone])
  else if bool_decide (m = -2) then (PyList [], PyTuple (PyFloat <$> ws))
  else if bool_decide (m = -3) then
    (default PyNone (PyFloat <$> ws !! 2%nat), PyTuple (PyFloat <$> take 2 ws))
  else (PyList (PyFloat <$> ws), PyNone).

(** The part of the text field that [GetRecordType3] leaves unread when
    the length of the label is a multiple of eight: the last character
    of the label and the padding. *)
Definition label_end (p : label_pair) : bytes :=
  drop (Z.to_nat (ord (pair_length p) - 1)) (pair_text p).

(** The value 9.0 with a label of eight characters, padded to fifteen. *)
Definition eight_pair : label_pair :=
  (nine_word, x08, lit "agreeing       ").

(** * Properties *)

(** ** The monad *)

Lemma bind_Ret {A B} (m : M A) (k : A -> M B) s a s' :
  m s = Ret a s' -> bind m k s = k a s'.
Proof. intros H. unfold bind. by rewrite H. Qed.

Lemma bind_Raise {A B} (m : M A) (k : A -> M B) s e s' :
  m s = Raise e s' -> bind m k s = Raise e s'.
Proof. intros H. unfold bind. by rewrite H. Qed.

Lemma bind_assoc {A B C} (m : M A) (k : A -> M B) (h : B -> M C) s :
  bind (bind m k) h s = bind m (fun a => bind (k a) h) s.
Proof. unfold bind. by destruct (m s). Qed.

Lemma pkstr_acc (vv acc : bytes) :
  foldl (fun bstr i => bstr ++ [i]) acc vv = acc ++ vv.
Proof.
  revert acc. induction vv as [|c vv IH]; intros acc; simpl.
  - by rewrite app_nil_r.
  - rewrite IH. by rewrite <- app_assoc.
Qed.

Lemma pkstr_id vv : pkstr vv = vv.
Proof. apply pkstr_acc. Qed.

(** ** The compressed-cell codec *)

(** C6: in the compressed branch, a control byte [b] with
    [2 <= b <= 251] decodes to exactly the number [b - 100]; the branch is
    taken whenever the compression switch was read, whatever its value. *)
Theorem GetNumber_compact s sw b s1 :
  compressionswitch s = Some (Tuple1 sw) ->
  next_byte s = Ret b s1 ->
  2 <= b <= 251 ->
  GetNumber s = Ret (PyInt (b - 100)) s1.
Proof.
  intros Hsw Hb Hr. unfold GetNumber.
  erewrite bind_Ret; [|unfold getattr; by rewrite Hsw]. simpl.
  erewrite bind_Ret; [|exact Hb].
  rewrite bool_decide_eq_true_2; [done | lia].
Qed.

Lemma GetNumber_compact_witness :
  GetNumber (compressed_state [101; 7] []) =
  Ret (PyInt 1) (compressed_state [7] []).
Proof.
  apply (GetNumber_compact (compressed_state [101; 7] []) 1 101
           (compressed_state [7] [])); [reflexivity | reflexivity | lia].
Defined.

(** C5: the control bytes 0 and 1 pass every test of the compressed
    branch of [GetNumber]: the method returns [None], which is none of the
    five outcomes. *)
Theorem GetNumber_low_bytes_None c rest :
  (GetNumber (compressed_state (0 :: c) rest) =
     Ret PyNone (compressed_state c rest)
   ∧ ¬ cell_outcome (compressed_state (0 :: c) rest) 0 PyNone)
  ∧ (GetNumber (compressed_state (1 :: c) rest) =
       Ret PyNone (compressed_state c rest)
     ∧ ¬ cell_outcome (compressed_state (1 :: c) rest) 1 PyNone).
Proof.
  repeat split; try reflexivity; intros H; inversion H; discriminate.
Qed.

(** From 2 on, every control byte gives one of the five outcomes. *)
Lemma GetNumber_defined_outcomes s sw b s1 v s' :
  compressionswitch s = Some (Tuple1 sw) ->
  next_byte s = Ret b s1 ->
  2 <= b <= 255 ->
  SYSMIS s1 = SYSMIS s ->
  GetNumber s = Ret v s' ->
  cell_outcome s b v.
Proof.
  intros Hsw Hb Hr Hsys. unfold GetNumber.
  erewrite bind_Ret; [|unfold getattr; by rewrite Hsw]. simpl.
  erewrite bind_Ret; [|exact Hb].
  repeat case_bool_decide; try lia.
  - intros [= <- _]. constructor.
  - intros [= <- _]. constructor.
  - unfold bind. destruct (read 8 s1) as [IN s2| |]; try done.
    case_bool_decide.
    + intros [= <- _]. constructor.
    + unfold item0, pkflt. case_bool_decide; [|done].
      intros [= <- _]. constructor.
  - intros [= <- _]. constructor.
  - unfold getattr. destruct (SYSMIS s1) eqn:E; [|done].
    intros [= <- _]. apply system_missing. congruence.
Qed.

(** ** String cells *)

Lemma GetString_compressed var s sw :
  compressionswitch s = Some (Tuple1 sw) ->
  GetString var s = GetString_loop (S (pending s)) (typecode var) [] s.
Proof.
  intros Hsw. unfold GetString.
  erewrite bind_Ret; [|unfold getattr; by rewrite Hsw]. done.
Qed.

(** C8, claim as stated, refuted: with the accumulator holding the chunk
    [ABCDEFGH] of a variable of width 20, the control byte 252 does not
    return the accumulated string but the system-missing value. *)
Lemma GetString_252_drops_accumulator :
  value_of (GetString (string_var 20)
              (compressed_state [253; 252] (lit "ABCDEFGH")))
  = Some (PyFloat sysmis_word)
  ∧ PyFloat sysmis_word ≠ PyStr (lit "ABCDEFGH").
Proof. split; [reflexivity | discriminate]. Qed.

(** C8, amended: in the compressed branch [GetString] runs the loop with
    an empty accumulator, and one round of the loop on control byte [b]
    returns [b - 100] at once for [1 <= b <= 251], returns the
    system-missing value for 252 and 255, returns the accumulated string
    for 254 when it is not empty, and for 253 appends the chunk read,
    returning the string when it is longer than the width and going on
    accumulating when it is shorter. *)
Theorem GetString_loop_round var s0 sw fuel width ln s b s1 :
  compressionswitch s0 = Some (Tuple1 sw) ->
  next_byte s = Ret b s1 ->
  GetString var s0 = GetString_loop (S (pending s0)) (typecode var) [] s0
  ∧ (1 <= b <= 251 ->
     GetString_loop (S fuel) width ln s = Ret (PyInt (b - 100)) s1)
  ∧ (b = 252 ∨ b = 255 -> ∀ v, SYSMIS s1 = Some v ->
     GetString_loop (S fuel) width ln s = Ret v s1)
  ∧ (b = 254 -> ln ≠ [] ->
     GetString_loop (S fuel) width ln s = Ret (PyStr ln) s1)
  ∧ (b = 253 -> ∀ IN s2, read 8 s1 = Ret IN s2 -> IN ≠ [] ->
     (Z.of_nat (length (ln ++ IN)) > width ->
      GetString_loop (S fuel) width ln s = Ret (PyStr (ln ++ IN)) s2)
     ∧ (Z.of_nat (length (ln ++ IN)) < width ->
        GetString_loop (S fuel) width ln s =
        GetString_loop fuel width (ln ++ IN) s2)).
Proof.
  intros Hsw Hb. split; [by eapply GetString_compressed|].
  assert (Hstep : ∀ k : Z -> M pyval, bind next_byte k s = k b s1)
    by (intros k; by apply bind_Ret).
  repeat split.
  - intros Hr. simpl. rewrite Hstep.
    rewrite bool_decide_eq_true_2; [done | lia].
  - intros Hr v Hv. simpl. rewrite Hstep.
    rewrite bool_decide_eq_false_2; [|lia].
    unfold getattr. destruct Hr as [-> | ->]; simpl; by rewrite Hv.
  - intros -> Hln. simpl. rewrite Hstep. simpl.
    by rewrite bool_decide_eq_true_2.
  - intros Hlen. subst b. simpl. rewrite Hstep. simpl.
    erewrite bind_Ret; [|eassumption].
    rewrite bool_decide_eq_false_2; [|destruct IN; [done | simpl; lia]].
    rewrite pkstr_id. by rewrite bool_decide_eq_true_2.
  - intros Hlen. subst b. simpl. rewrite Hstep. simpl.
    erewrite bind_Ret; [|eassumption].
    rewrite bool_decide_eq_false_2; [|destruct IN; [done | simpl; lia]].
    rewrite pkstr_id. rewrite bool_decide_eq_false_2; [done | lia].
Qed.

Lemma GetString_loop_round_witness :
  GetString_loop 1 4 [] (compressed_state [253] (lit "ABCDEFGH"))
  = Ret (PyStr (lit "ABCDEFGH")) (compressed_state [] []).
Proof.
  refine (proj1 (proj2 (proj2 (proj2 (proj2
    (GetString_loop_round (string_var 4) (compressed_state [] []) 1 0 4 []
       (compressed_state [253] (lit "ABCDEFGH")) 253
       (compressed_state [] (lit "ABCDEFGH")) _ _)))) _
    (lit "ABCDEFGH") (compressed_state [] []) _ _) _).
  - reflexivity.
  - reflexivity.
  - reflexivity.
  - reflexivity.
  - discriminate.
  - vm_compute. reflexivity.
Defined.

(** ** The data matrix reader *)

(** A numeric cell for which [GetNumber] returns the string [False] ends
    the read: the coordinates are printed and [sys.exit(1)] is raised. *)
Lemma GetData_vars_numeric_failure case i var vars s s1 :
  typecode var = 0 ->
  GetNumber s = Ret (PyStr (lit "False")) s1 ->
  GetData_vars case i (var :: vars) s =
  Raise (SystemExit 1)
    (set_stdout (stdout s1 ++ [ErrorReturning case (Z.of_nat i)]) s1).
Proof.
  intros Ht HN. simpl. rewrite bool_decide_eq_true_2 by done.
  rewrite bind_assoc. erewrite bind_Ret; [|exact HN]. done.
Qed.

(** A string cell for which [GetString] returns anything but the string
    [False], the system-missing value included, is stored and the loop
    goes on to the next variable. *)
Lemma GetData_vars_string_stored case i var vars s v s1 :
  typecode var > 0 ∧ typecode var < 256 ->
  GetString var s = Ret v s1 ->
  eq_False_str v = false ->
  GetData_vars case i (var :: vars) s =
  GetData_vars case (S i) vars
    (set_variablelist (alter (var_append_data v) i (variablelist s1)) s1).
Proof.
  intros Ht HS Hv. simpl.
  rewrite bool_decide_eq_false_2 by lia.
  rewrite bool_decide_eq_true_2 by done.
  rewrite bind_assoc. erewrite bind_Ret; [|exact HS]. by rewrite Hv.
Qed.

(** C1: a string cell that fails is not a fatal error.  On the file with
    one string variable whose only cell has control byte 252, [GetString]
    signals the failure with the system-missing value, [GetData] looks
    for the string [False], and the read returns with the sentinel stored
    as the datum and nothing reported; the same file with a numeric
    variable ends in [sys.exit(1)] after reporting case 0, variable 0. *)
Theorem GetData_string_failure_not_fatal :
  (ending_of (GetRecords (opened (one_cell_file 8))) = Returned
   ∧ (columns <$> final_state (GetRecords (opened (one_cell_file 8))))
     = Some [[PyFloat sysmis_word]]
   ∧ (stdout <$> final_state (GetRecords (opened (one_cell_file 8))))
     = Some [])
  ∧ (ending_of (GetRecords (opened (one_cell_file 0))) = Raised (SystemExit 1)
     ∧ (stdout <$> final_state (GetRecords (opened (one_cell_file 0))))
       = Some [ErrorReturning 0 0]).
Proof. vm_compute. repeat split. Qed.

(** ** Accessors *)

(** C9: [GetRow] neither checks the upper bound nor uses the case index.
    On the file with columns [1, 3] and [2, 4] and two declared cases,
    every index from 0 on, in range or not, gives the diagonal [1, 4]:
    row 0 is not [1, 2], row 1 is not [3, 4], and row 7 is not [None]. *)
Theorem GetRow_returns_diagonal :
  (columns <$> final_state (GetRecords (opened two_by_two_file)))
  = Some [[PyInt 1; PyInt 3]; [PyInt 2; PyInt 4]]
  ∧ value_of (row_of two_by_two_file 0) = Some (PyList [PyInt 1; PyInt 4])
  ∧ value_of (row_of two_by_two_file 1) = Some (PyList [PyInt 1; PyInt 4])
  ∧ value_of (row_of two_by_two_file 7) = Some (PyList [PyInt 1; PyInt 4]).
Proof. vm_compute. repeat split. Qed.

(** Once the case count has been read, the result of [GetRow] does not
    depend on the index, as long as it is not negative. *)
Lemma GetRow_ignores_row s n row1 row2 :
  numcases s = Some (Tuple1 n) ->
  0 <= row1 -> 0 <= row2 ->
  GetRow row1 s = GetRow row2 s.
Proof.
  intros Hn H1 H2. unfold GetRow.
  rewrite !bool_decide_eq_false_2 by lia.
  erewrite !bind_Ret; try (unfold getattr; by rewrite Hn). done.
Qed.

(** ** Reading from the file *)

Lemma read_app s w rest n :
  fin s = Some (w ++ rest) -> 0 <= n -> length w = Z.to_nat n ->
  read n s = Ret w (set_fin (Some rest) s).
Proof.
  intros Hf Hn Hl. unfold read. rewrite Hf.
  destruct (Z.ltb_spec n 0); [lia|].
  rewrite <- Hl. by rewrite take_app_length, drop_app_length.
Qed.

Lemma read_take s l n :
  fin s = Some l -> 0 <= n ->
  read n s = Ret (take (Z.to_nat n) l) (set_fin (Some (drop (Z.to_nat n) l)) s).
Proof.
  intros Hf Hn. unfold read. rewrite Hf.
  by destruct (Z.ltb_spec n 0); [lia|].
Qed.

Lemma read_int_app s w rest :
  fin s = Some (w ++ rest) -> length w = 4%nat ->
  read_int s = Ret (int32_of w) (set_fin (Some rest) s).
Proof.
  intros Hf Hl. unfold read_int.
  erewrite bind_Ret; [|by apply read_app].
  unfold pkint. by rewrite bool_decide_eq_true_2.
Qed.

Lemma read_flt_take s l :
  fin s = Some l -> (8 <= length l)%nat ->
  read_flt s = Ret (take 8 l) (set_fin (Some (drop 8 l)) s).
Proof.
  intros Hf Hl. unfold read_flt.
  erewrite bind_Ret; [|by apply read_take].
  unfold pkflt. rewrite bool_decide_eq_true_2; [done|].
  rewrite length_take. change (Z.to_nat 8) with 8%nat. lia.
Qed.

Lemma skip_words_take n s l :
  fin s = Some l ->
  skip_words n s = Ret tt (set_fin (Some (drop (8 * n) l)) s).
Proof.
  revert s l. induction n as [|n IH]; intros s l Hf; simpl skip_words.
  - unfold ret. rewrite drop_0. f_equal. destruct s; simpl in *; by subst.
  - erewrite bind_Ret; [|by apply read_take].
    erewrite IH; [|reflexivity]. f_equal.
    rewrite drop_drop. change (Z.to_nat 8) with 8%nat.
    replace (8 + 8 * n)%nat with (8 * S n)%nat by lia. done.
Qed.

Lemma ord_at_Ret IN i s :
  (i < length IN)%nat -> ord_at IN i s = Ret (ord (nth i IN x00)) s.
Proof.
  intros Hi. unfold ord_at.
  destruct (IN !! i) as [c|] eqn:E.
  - by rewrite (nth_lookup_Some _ _ _ _ E).
  - apply lookup_ge_None in E. lia.
Qed.


Lemma set_fin_set_fin a b s : set_fin a (set_fin b s) = set_fin a s.
Proof. reflexivity. Qed.

Lemma set_fin_id s l : fin s = Some l -> set_fin (Some l) s = s.
Proof. intros H. destruct s; simpl in *; by subst. Qed.

Lemma read_missing_values_run x l s :
  fin s = Some l ->
  missingmarker x = 0 ∨ payload_marker (missingmarker x) ->
  (8 * Z.abs_nat (missingmarker x) <= length l)%nat ->
  missingd x = PyList [] -> missingr x = PyList [] ->
  ∃ x',
    read_missing_values x s =
      Ret x' (set_fin (Some (drop (8 * Z.abs_nat (missingmarker x)) l)) s)
    ∧ name x' = name x ∧ typecode x' = typecode x
    ∧ missingmarker x' = missingmarker x
    ∧ shape_of x' = shape_for (missingmarker x).
Proof.
  intros Hf Hm Hl Hd Hr. unfold read_missing_values.
  assert (Hs : ∀ k, set_fin (Some (drop k l)) s =
                 set_fin (Some (drop k l)) (set_fin (Some l) s)) by done.
  pose proof (set_fin_id s l Hf) as Hid.
  destruct Hm as [Hm | [Hm | [Hm | [Hm | [Hm | Hm]]]]]; rewrite Hm in *;
    simpl in Hl; cbn [bool_decide decide_rel]; simpl;
    rewrite ?bind_assoc;
    repeat (erewrite bind_Ret;
      [|eapply read_flt_take;
        [first [exact Hf | reflexivity]
        |cbn [fin set_fin]; rewrite ?length_drop; lia]];
      rewrite ?bind_assoc);
    unfold ret; rewrite ?set_fin_set_fin, ?drop_drop; simpl;
    (eexists; split;
       [first [reflexivity | by rewrite drop_0, Hid]
       |repeat split; try done; unfold shape_of; simpl; by rewrite ?Hd]).
Qed.

Lemma register_run x s :
  (if negb (blank_name (name x)) then
     run modify (fun s => set_variablelist (variablelist s ++ [x]) s);
     modify (fun s =>
       set_rawvarlist
         (rawvarlist s ++ [Some (Z.of_nat (length (variablelist s)))]) s)
   else ret tt) s = Ret tt (register x s).
Proof. unfold register. by destruct (blank_name (name x)). Qed.

Lemma GetRecordType2_run r rest s :
  vr_well_formed r ->
  int32_of (vr_typecode r) ≠ -1 ->
  vr_marker r = 0 ∨ payload_marker (vr_marker r) ->
  fin s = Some (vr_bytes r ++ rest) ->
  (8 * Z.abs_nat (vr_marker r) <= length rest)%nat ->
  ∃ x,
    GetRecordType2 s =
      Ret tt (register x
        (set_fin (Some (drop (8 * Z.abs_nat (vr_marker r)) rest)) s))
    ∧ name x = vr_name r
    ∧ typecode x = int32_of (vr_typecode r)
    ∧ missingmarker x = vr_marker r
    ∧ shape_of x = shape_for (vr_marker r).
Proof.
  destruct r as [tcw lmw mmw pw ww nm lab pay].
  unfold vr_well_formed, vr_bytes, vr_marker.
  cbn [vr_typecode vr_labelmarker vr_missingmarker vr_print vr_write
       vr_name vr_label vr_missing].
  intros (Htcw & Hlmw & Hmmw & Hpw & Hww & Hnm & Hlab & Hpay) Htc Hm Hf Hrest.
  rewrite <- !app_assoc in Hf.
  unfold GetRecordType2.
  erewrite bind_Ret; [|by eapply read_int_app].
  rewrite bool_decide_eq_true_2 by done.
  erewrite bind_Ret; [|by eapply read_int_app].
  erewrite bind_Ret; [|by eapply read_int_app].
  erewrite bind_Ret; [|by eapply read_app].
  do 3 (erewrite bind_Ret; [|apply ord_at_Ret; lia]).
  erewrite bind_Ret; [|by eapply read_app].
  do 3 (erewrite bind_Ret; [|apply ord_at_Ret; lia]).
  erewrite bind_Ret; [|by eapply read_app].
  rewrite pkstr_id, !set_fin_set_fin.
  match goal with |- context [<["formattype_wrt":=?v]> ?m] =>
    generalize (<["formattype_wrt":=v]> m) end.
  intros va.
  match goal with |- context [bind ?m _] =>
    assert (Hlb : ∃ lb, m (set_fin (Some (lab ++ pay ++ rest)) s)
                        = Ret lb (set_fin (Some (pay ++ rest)) s)) end.
  { unfold label_block in Hlab. case_bool_decide.
    - destruct Hlab as (lenw & text & -> & Hlenw & Hpos & Htext).
      rewrite <- app_assoc.
      erewrite bind_Ret; [|by eapply read_int_app].
      erewrite bind_Ret;
        [|eapply read_app; [reflexivity| |]; case_bool_decide; lia].
      eexists. reflexivity.
    - subst lab. eexists. reflexivity. }
  destruct Hlb as [lb Hlb].
  erewrite bind_Ret; [|exact Hlb].
  erewrite bind_Ret; [|by eapply skip_words_take].
  assert (Hd : drop (8 * Z.to_nat (Z.abs (int32_of mmw))) (pay ++ rest) = rest)
    by (rewrite <- Zabs2Nat.abs_nat_spec, <- Hpay; apply drop_app_length).
  rewrite Hd, set_fin_set_fin.
  match goal with |- context [read_missing_values ?x0] =>
    destruct (read_missing_values_run x0 rest
                (set_fin (Some rest) s)) as (x & Hx & Hn & Ht & Hmm & Hsh);
      [done | done | done | done | done |] end.
  erewrite bind_Ret; [|exact Hx].
  cbn [missingmarker] in *.
  exists x. split; [|done].
  cbn [name] in Hn. subst nm. apply (register_run x).
Qed.

(** C2: the handler does not stop at the end of the record.  For a
    well-formed record with marker [m] in [{-3, -2, 1, 2, 3}] the loop
    over [range(abs(m))] skips the [|m|] words of the payload and the
    decoding branch then reads [|m|] words more: the cursor ends [8|m|]
    bytes past the next record's tag. *)
Theorem GetRecordType2_reads_payload_twice r rest s :
  vr_well_formed r ->
  int32_of (vr_typecode r) ≠ -1 ->
  payload_marker (vr_marker r) ->
  fin s = Some (vr_bytes r ++ rest) ->
  (8 * Z.abs_nat (vr_marker r) <= length rest)%nat ->
  ∃ s',
    GetRecordType2 s = Ret tt s'
    ∧ fin s' = Some (drop (8 * Z.abs_nat (vr_marker r)) rest)
    ∧ fin s' ≠ Some rest.
Proof.
  intros Hwf Htc Hm Hf Hrest.
  destruct (GetRecordType2_run r rest s) as (x & Hrun & _); auto.
  eexists. split; [exact Hrun|].
  assert (Hfin : ∀ s0, fin (register x s0) = fin s0)
    by (intros s0; unfold register; by destruct (blank_name (name x))).
  rewrite Hfin. cbn [fin set_fin]. split; [done|].
  intros [= Hd]. apply (f_equal length) in Hd. rewrite length_drop in Hd.
  unfold payload_marker in Hm. lia.
Qed.

Lemma GetRecordType2_reads_payload_twice_witness :
  ∃ s',
    GetRecordType2 (opened (vr_bytes (sample_record 1 nine_word) ++ record999))
      = Ret tt s'
    ∧ fin s' =
      Some (drop (8 * Z.abs_nat (vr_marker (sample_record 1 nine_word)))
              record999)
    ∧ fin s' ≠ Some record999.
Proof.
  apply (GetRecordType2_reads_payload_twice (sample_record 1 nine_word)
           record999).
  - repeat split.
  - vm_compute. discriminate.
  - right. right. left. reflexivity.
  - reflexivity.
  - vm_compute. lia.
Defined.

(** ** Where the missing values are read *)

Lemma read_flt_short s l :
  fin s = Some l -> (length l < 8)%nat ->
  read_flt s = Raise TypeError (set_fin (Some []) s).
Proof.
  intros Hf Hl. unfold read_flt.
  erewrite bind_Ret; [|by apply read_take].
  change (Z.to_nat 8) with 8%nat.
  rewrite take_ge, drop_ge by lia.
  unfold pkflt. rewrite bool_decide_eq_false_2 by lia. done.
Qed.

(** A float read where at least [8 * n] bytes are missing for [n] of
    them: one of the reads comes up short and [pkflt(IN)[0]] raises. *)
Lemma read_missing_short n tmpmiss s l :
  fin s = Some l -> (length l < 8 * n)%nat ->
  read_missing n tmpmiss s = Raise TypeError (set_fin (Some []) s).
Proof.
  revert tmpmiss s l. induction n as [|n IH]; intros tmpmiss s l Hf Hl;
    [lia|]. simpl read_missing.
  destruct (decide (length l < 8)%nat) as [Hs|Hs].
  - erewrite bind_Raise; [|by eapply read_flt_short]; done.
  - erewrite bind_Ret; [|eapply read_flt_take; [done|lia]].
    erewrite IH; [|reflexivity|rewrite length_drop; lia]. done.
Qed.

Ltac short_read :=
  erewrite bind_Raise;
    [|eapply read_flt_short;
       [first [eassumption | reflexivity]
       |cbn [fin set_fin]; rewrite ?length_drop; lia]];
    [reflexivity].

Ltac full_read :=
  erewrite bind_Ret;
    [|eapply read_flt_take;
       [first [eassumption | reflexivity]
       |cbn [fin set_fin]; rewrite ?length_drop; lia]].

Lemma read_missing_values_short x l s :
  fin s = Some l -> payload_marker (missingmarker x) ->
  (length l < 8 * Z.abs_nat (missingmarker x))%nat ->
  read_missing_values x s = Raise TypeError (set_fin (Some []) s).
Proof.
  intros Hf Hm Hl. unfold read_missing_values.
  destruct Hm as [Hm | [Hm | [Hm | [Hm | Hm]]]]; rewrite Hm in *;
    simpl in Hl; cbn [bool_decide decide_rel]; simpl.
  - destruct (decide (length l < 8)%nat); [short_read|full_read].
    destruct (decide (length l < 16)%nat); [short_read|full_read].
    short_read.
  - destruct (decide (length l < 8)%nat); [short_read|full_read].
    short_read.
  - erewrite bind_Raise; [|exact (read_missing_short 1 [] s l Hf Hl)]; done.
  - erewrite bind_Raise; [|exact (read_missing_short 2 [] s l Hf Hl)]; done.
  - erewrite bind_Raise; [|exact (read_missing_short 3 [] s l Hf Hl)]; done.
Qed.

Lemma read_missing_values_words x l s :
  fin s = Some l ->
  missingmarker x = 0 ∨ payload_marker (missingmarker x) ->
  (8 * Z.abs_nat (missingmarker x) <= length l)%nat ->
  missingd x = PyList [] ->
  ∃ x',
    read_missing_values x s =
      Ret x' (set_fin (Some (drop (8 * Z.abs_nat (missingmarker x)) l)) s)
    ∧ name x' = name x
    ∧ (missingd x', missingr x')
      = decoded_missing (missingmarker x)
          (words (Z.abs_nat (missingmarker x)) l).
Proof.
  intros Hf Hm Hl Hd. unfold read_missing_values.
  pose proof (set_fin_id s l Hf) as Hid.
  destruct Hm as [Hm | [Hm | [Hm | [Hm | [Hm | Hm]]]]]; rewrite Hm in *;
    simpl in Hl; cbn [bool_decide decide_rel]; simpl;
    rewrite ?bind_assoc; repeat (full_read; rewrite ?bind_assoc);
    unfold ret; rewrite ?set_fin_set_fin, ?drop_drop; simpl;
    (eexists; split;
       [first [reflexivity | by rewrite drop_0, Hid]
       |split; [done|]; simpl; by rewrite ?Hd]).
Qed.

(** The handler up to the decoding of the missing values: the fields of
    the record and the payload have been read, the variable [x0] holds
    them and the cursor stands behind the payload. *)
Lemma GetRecordType2_decode r rest s :
  vr_well_formed r ->
  int32_of (vr_typecode r) ≠ -1 ->
  fin s = Some (vr_bytes r ++ rest) ->
  ∃ x0,
    name x0 = vr_name r
    ∧ missingmarker x0 = vr_marker r
    ∧ missingd x0 = PyList []
    ∧ GetRecordType2 s =
      bind (read_missing_values x0)
        (fun x =>
           if negb (blank_name (vr_name r)) then
             run modify (fun s => set_variablelist (variablelist s ++ [x]) s);
             modify (fun s =>
               set_rawvarlist
                 (rawvarlist s ++ [Some (Z.of_nat (length (variablelist s)))])
                 s)
           else ret tt)
        (set_fin (Some rest) s).
Proof.
  destruct r as [tcw lmw mmw pw ww nm lab pay].
  unfold vr_well_formed, vr_bytes, vr_marker.
  cbn [vr_typecode vr_labelmarker vr_missingmarker vr_print vr_write
       vr_name vr_label vr_missing].
  intros (Htcw & Hlmw & Hmmw & Hpw & Hww & Hnm & Hlab & Hpay) Htc Hf.
  rewrite <- !app_assoc in Hf.
  unfold GetRecordType2.
  erewrite bind_Ret; [|by eapply read_int_app].
  rewrite bool_decide_eq_true_2 by done.
  erewrite bind_Ret; [|by eapply read_int_app].
  erewrite bind_Ret; [|by eapply read_int_app].
  erewrite bind_Ret; [|by eapply read_app].
  do 3 (erewrite bind_Ret; [|apply ord_at_Ret; lia]).
  erewrite bind_Ret; [|by eapply read_app].
  do 3 (erewrite bind_Ret; [|apply ord_at_Ret; lia]).
  erewrite bind_Ret; [|by eapply read_app].
  rewrite pkstr_id, !set_fin_set_fin.
  match goal with |- context [<["formattype_wrt":=?v]> ?m] =>
    generalize (<["formattype_wrt":=v]> m) end.
  intros va.
  match goal with |- context [bind ?m _] =>
    assert (Hlb : ∃ lb, m (set_fin (Some (lab ++ pay ++ rest)) s)
                        = Ret lb (set_fin (Some (pay ++ rest)) s)) end.
  { unfold label_block in Hlab. case_bool_decide.
    - destruct Hlab as (lenw & text & -> & Hlenw & Hpos & Htext).
      rewrite <- app_assoc.
      erewrite bind_Ret; [|by eapply read_int_app].
      erewrite bind_Ret;
        [|eapply read_app; [reflexivity| |]; case_bool_decide; lia].
      eexists. reflexivity.
    - subst lab. eexists. reflexivity. }
  destruct Hlb as [lb Hlb].
  erewrite bind_Ret; [|exact Hlb].
  erewrite bind_Ret; [|by eapply skip_words_take].
  assert (Hd : drop (8 * Z.to_nat (Z.abs (int32_of mmw))) (pay ++ rest) = rest)
    by (rewrite <- Zabs2Nat.abs_nat_spec, <- Hpay; apply drop_app_length).
  rewrite Hd, set_fin_set_fin.
  eexists. split; [|split; [|split; [|reflexivity]]]; reflexivity.
Qed.

(** C7: the missing values are not decoded from the record.  The [|m|]
    words of the payload are skipped and the branch of the marker then
    reads its floats from the bytes after the record.  So a record with
    a name that is not blank and a marker [m] among -3, -2, 1, 2, 3
    that has fewer than [8|m|] bytes after it, as the last variable of
    a short file has, ends in a [TypeError] from [pkflt(IN)[0]] with
    nothing registered and the file read to its end; and with those
    bytes present the variable is registered with a specification of
    the shape of its marker whose values are the [|m|] words after the
    record, whatever its payload holds. *)
Theorem GetRecordType2_missing_from_next_bytes r rest s :
  vr_well_formed r ->
  int32_of (vr_typecode r) ≠ -1 ->
  blank_name (vr_name r) = false ->
  payload_marker (vr_marker r) ->
  fin s = Some (vr_bytes r ++ rest) ->
  ((length rest < 8 * Z.abs_nat (vr_marker r))%nat ->
   ∃ s',
     GetRecordType2 s = Raise TypeError s'
     ∧ variablelist s' = variablelist s
     ∧ rawvarlist s' = rawvarlist s
     ∧ fin s' = Some [])
  ∧ ((8 * Z.abs_nat (vr_marker r) <= length rest)%nat ->
     ∃ x s',
       GetRecordType2 s = Ret tt s'
       ∧ variablelist s' = variablelist s ++ [x]
       ∧ shape_of x = shape_for (vr_marker r)
       ∧ (missingd x, missingr x)
         = decoded_missing (vr_marker r)
             (words (Z.abs_nat (vr_marker r)) rest)).
Proof.
  intros Hwf Htc Hnm Hm Hf.
  destruct (GetRecordType2_decode r rest s Hwf Htc Hf)
    as (x0 & Hn0 & Hm0 & Hd0 & ->).
  rewrite Hnm. cbn [negb]. split; intros Hl.
  - erewrite bind_Raise;
      [|eapply (read_missing_values_short x0 rest);
        [reflexivity|by rewrite Hm0|by rewrite Hm0]].
    eexists. split; [reflexivity|]. done.
  - destruct (read_missing_values_words x0 rest (set_fin (Some rest) s))
      as (x & Hx & _ & Hv); [done|rewrite Hm0; by right|by rewrite Hm0|done|].
    rewrite Hm0 in Hv.
    erewrite bind_Ret; [|exact Hx].
    exists x. eexists. split; [reflexivity|]. split; [done|].
    split; [|exact Hv].
    destruct Hm as [Hm | [Hm | [Hm | [Hm | Hm]]]]; rewrite Hm in Hv |- *;
      unfold decoded_missing in Hv; simpl in Hv; injection Hv as Hd Hr;
      unfold shape_of; rewrite Hd, Hr; reflexivity.
Qed.

Lemma GetRecordType2_missing_from_next_bytes_witness :
  (∃ s',
     GetRecordType2
       (opened (vr_bytes (sample_record 2 (nine_word ++ nine_word))
                ++ record999))
     = Raise TypeError s'
     ∧ variablelist s' = []
     ∧ rawvarlist s' = []
     ∧ fin s' = Some [])
  ∧ (∃ x s',
       GetRecordType2
         (opened (vr_bytes (sample_record 1 nine_word) ++ record999))
       = Ret tt s'
       ∧ variablelist s' = [] ++ [x]
       ∧ shape_of x = Some (Discrete 1)
       ∧ (missingd x, missingr x) = (PyList [PyFloat record999], PyNone)).
Proof.
  split.
  - apply (GetRecordType2_missing_from_next_bytes
             (sample_record 2 (nine_word ++ nine_word)) record999).
    + repeat split.
    + vm_compute. discriminate.
    + reflexivity.
    + right. right. right. left. reflexivity.
    + reflexivity.
    + vm_compute. lia.
  - apply (GetRecordType2_missing_from_next_bytes
             (sample_record 1 nine_word) record999).
    + repeat split.
    + vm_compute. discriminate.
    + reflexivity.
    + right. right. left. reflexivity.
    + reflexivity.
    + vm_compute. lia.
Defined.

(** ** The dictionary loop *)

(** One round of the loop on a tag of 6: nothing but the tag is read. *)
Lemma GetRecords_loop_tag6 fuel s tagw rest :
  fin s = Some (tagw ++ rest) -> length tagw = 4%nat -> int32_of tagw = 6 ->
  GetRecords_loop (S fuel) s = GetRecords_loop fuel (set_fin (Some rest) s).
Proof.
  intros Hf Hl Ht. simpl.
  erewrite bind_Ret; [|by eapply read_int_app]. by rewrite Ht.
Qed.

(** What [GetRecordType6] would do with the record. *)
Lemma GetRecordType6_run s countw text rest :
  fin s = Some (countw ++ text ++ rest) -> length countw = 4%nat ->
  Z.of_nat (length text) = 80 * int32_of countw ->
  GetRecordType6 s = Ret tt (set_documents text (set_fin (Some rest) s)).
Proof.
  intros Hf Hl Ht. unfold GetRecordType6.
  erewrite bind_Ret; [|by eapply read_int_app].
  erewrite bind_Ret; [|eapply read_app; [reflexivity|lia|lia]].
  by rewrite pkstr_id.
Qed.

(** C3: a tag of 6 does not decode the documents block.  The branch of
    the loop is [pass] and [GetRecordType6] is never called: on the file
    with a one-line document record the read returns with the document
    text still empty, the count and the text having been taken for
    record tags; the handler, called on the same record, stores the
    line and stops at the next tag. *)
Theorem GetRecords_skips_documents :
  ending_of (GetRecords (opened document_file)) = Returned
  ∧ (documents <$> final_state (GetRecords (opened document_file))) = Some []
  ∧ GetRecordType6 (opened (le32 1 ++ document_line ++ record999))
    = Ret tt (set_documents document_line (opened record999)).
Proof. vm_compute. repeat split. Qed.





(** ** Independence of the compression bias *)

Section Blind.
Context {A B : Type}.

Lemma blind_ret (a : A) : bias_blind (ret a).
Proof. by intros ??. Qed.

Lemma blind_raise (e : exn) : bias_blind (@raise A e).
Proof. by intros ??. Qed.

Lemma blind_bind (m : M A) (k : A -> M B) :
  bias_blind m -> (∀ a, bias_blind (k a)) -> bias_blind (bind m k).
Proof.
  intros Hm Hk b s. unfold bind. rewrite Hm.
  destruct (m s); simpl; [apply Hk | done | done].
Qed.

Lemma blind_get (f : SPSSFile -> A) :
  (∀ b s, f (set_bias b s) = f s) -> bias_blind (get f).
Proof. intros Hf b s. unfold get. by rewrite Hf. Qed.

Lemma blind_getattr (f : SPSSFile -> option A) :
  (∀ b s, f (set_bias b s) = f s) -> bias_blind (getattr f).
Proof. intros Hf b s. unfold getattr. rewrite Hf. by destruct (f s). Qed.

Lemma blind_item0 (t : unpacked A) : bias_blind (item0 t).
Proof. destruct t; by intros ??. Qed.
End Blind.

Lemma blind_modify (f : SPSSFile -> SPSSFile) :
  (∀ b s, f (set_bias b s) = set_bias b (f s)) -> bias_blind (modify f).
Proof. intros Hf b s. unfold modify. simpl. by rewrite Hf. Qed.

Lemma blind_read n : bias_blind (read n).
Proof. intros b s. unfold read. simpl. by destruct (fin s). Qed.

Lemma blind_readline n : bias_blind (readline n).
Proof. intros b s. unfold readline. simpl. by destruct (fin s). Qed.

Lemma blind_ord_at IN i : bias_blind (ord_at IN i).
Proof. unfold ord_at. destruct (IN !! i); by intros ??. Qed.

Lemma blind_ord1 c : bias_blind (ord1 c).
Proof. destruct c as [|c0 [|c1 c]]; by intros ??. Qed.

Lemma blind_print msg : bias_blind (print msg).
Proof. by intros ??. Qed.

Lemma blind_setattr k v :
  k ≠ "compressionbias"%string -> bias_blind (setattr k v).
Proof.
  intros Hk b s. unfold setattr, set_bias. simpl.
  by rewrite insert_insert_ne.
Qed.

Lemma blind_table_item tbl i : bias_blind (table_item tbl i).
Proof. unfold table_item. destruct (py_index tbl i); by intros ??. Qed.

(** The steps of a proof of blindness: split a sequence, case on a test,
    or close a primitive. *)
Ltac blind_step :=
  match goal with
  | |- bias_blind (bind _ _) => apply blind_bind; [|intros ?]
  | |- bias_blind (ret _) => apply blind_ret
  | |- bias_blind (raise _) => apply blind_raise
  | |- bias_blind (read _) => apply blind_read
  | |- bias_blind (readline _) => apply blind_readline
  | |- bias_blind (item0 _) => apply blind_item0
  | |- bias_blind (ord_at _ _) => apply blind_ord_at
  | |- bias_blind (ord1 _) => apply blind_ord1
  | |- bias_blind (print _) => apply blind_print
  | |- bias_blind (table_item _ _) => apply blind_table_item
  | |- bias_blind (setattr _ _) => apply blind_setattr; discriminate
  | |- bias_blind (get _) => apply blind_get; reflexivity
  | |- bias_blind (getattr _) => apply blind_getattr; reflexivity
  | |- bias_blind (modify _) => apply blind_modify; reflexivity
  | |- bias_blind (if bool_decide _ then _ else _) => case_bool_decide
  | |- bias_blind (if ?c then _ else _) => destruct c
  | |- bias_blind (match ?x with _ => _ end) => destruct x
  | |- bias_blind (let _ := _ in _) => cbv zeta
  | H : _ |- _ => apply H
  end.

Ltac blind := repeat blind_step.

Lemma blind_read_int : bias_blind read_int.
Proof. unfold read_int. blind. Qed.

Lemma blind_read_flt : bias_blind read_flt.
Proof. unfold read_flt. blind. Qed.

Lemma blind_readline_flt : bias_blind readline_flt.
Proof. unfold readline_flt. blind. Qed.

Lemma blind_next_byte : bias_blind next_byte.
Proof. unfold next_byte, refill_cluster, pop_cluster. blind. Qed.

Lemma blind_GetNumber : bias_blind GetNumber.
Proof.
  pose proof blind_next_byte. pose proof (@blind_getattr pyval SYSMIS).
  unfold GetNumber. blind.
Qed.

Lemma blind_GetString_loop fuel width ln :
  bias_blind (GetString_loop fuel width ln).
Proof.
  pose proof blind_next_byte. pose proof (@blind_getattr pyval SYSMIS).
  revert ln. induction fuel as [|fuel IH]; intros ln; simpl.
  - by intros ??.
  - blind.
Qed.

Lemma blind_GetString var : bias_blind (GetString var).
Proof.
  pose proof (@blind_getattr pyval SYSMIS).
  unfold GetString. blind.
  intros b s. apply blind_GetString_loop.
Qed.

Lemma blind_append_data i v : bias_blind (append_data i v).
Proof. unfold append_data. blind. Qed.

Lemma blind_GetData_vars case i vars : bias_blind (GetData_vars case i vars).
Proof.
  pose proof blind_GetNumber. pose proof blind_GetString.
  pose proof blind_append_data.
  revert i. induction vars as [|var vars IH]; intros i; simpl; blind.
Qed.

Lemma blind_GetData_cases n case : bias_blind (GetData_cases n case).
Proof.
  pose proof blind_GetData_vars.
  revert case. induction n as [|n IH]; intros case; simpl; blind.
Qed.

Lemma blind_GetData : bias_blind GetData.
Proof. pose proof blind_GetData_cases. unfold GetData. blind. Qed.

Lemma blind_skip_words n : bias_blind (skip_words n).
Proof. induction n as [|n IH]; simpl; blind. Qed.

Lemma blind_read_missing n tmpmiss : bias_blind (read_missing n tmpmiss).
Proof.
  pose proof blind_read_flt.
  revert tmpmiss. induction n as [|n IH]; intros tmpmiss; simpl; blind.
Qed.

Lemma blind_read_missing_values x : bias_blind (read_missing_values x).
Proof.
  pose proof blind_read_flt. pose proof blind_read_missing.
  unfold read_missing_values. blind.
Qed.

Lemma blind_GetRecordType2 : bias_blind GetRecordType2.
Proof.
  pose proof blind_read_int. pose proof blind_skip_words.
  pose proof blind_read_missing_values.
  unfold GetRecordType2. blind.
Qed.

Lemma blind_read_labels n values fields :
  bias_blind (read_labels n values fields).
Proof.
  pose proof blind_read_flt.
  revert values fields. induction n as [|n IH]; intros values fields; simpl;
    blind.
Qed.

Lemma blind_read_ints n acc : bias_blind (read_ints n acc).
Proof.
  pose proof blind_read_int.
  revert acc. induction n as [|n IH]; intros acc; simpl; blind.
Qed.

Lemma blind_attach_labels labelinds values fields :
  bias_blind (attach_labels labelinds values fields).
Proof. induction labelinds as [|i rest IH]; simpl; blind. Qed.

Lemma blind_GetRecordType3 : bias_blind GetRecordType3.
Proof.
  pose proof blind_read_int. pose proof blind_read_labels.
  pose proof blind_read_ints. pose proof blind_attach_labels.
  unfold GetRecordType3. blind.
Qed.

Lemma blind_GetType73 : bias_blind GetType73.
Proof. pose proof blind_read_int. unfold GetType73. blind. Qed.

Lemma blind_GetType74 : bias_blind GetType74.
Proof.
  pose proof blind_read_int. pose proof blind_readline_flt.
  unfold GetType74. blind.
Qed.

Lemma blind_GetType75 : bias_blind GetType75.
Proof. pose proof blind_read_int. unfold GetType75. blind. Qed.

Lemma blind_GetDateVar code : bias_blind (GetDateVar code).
Proof. unfold GetDateVar. blind. Qed.

Lemma blind_read_datevars n : bias_blind (read_datevars n).
Proof.
  pose proof blind_read_int. pose proof blind_GetDateVar.
  induction n as [|n IH]; simpl; blind.
Qed.

Lemma blind_GetType76 : bias_blind GetType76.
Proof.
  pose proof blind_read_int. pose proof blind_read_datevars.
  unfold GetType76. blind.
Qed.

Lemma blind_var_assign ind k v : bias_blind (var_assign ind k v).
Proof. unfold var_assign. blind. Qed.

Lemma blind_read_measures n ind datatype :
  bias_blind (read_measures n ind datatype).
Proof.
  pose proof blind_var_assign.
  revert ind. induction n as [|n IH]; intros ind; simpl; blind.
Qed.

Lemma blind_GetType711 : bias_blind GetType711.
Proof.
  pose proof blind_read_int. pose proof blind_read_measures.
  unfold GetType711. blind.
Qed.

Lemma blind_GetType713 : bias_blind GetType713.
Proof. pose proof blind_read_int. unfold GetType713. blind. Qed.

Lemma blind_GetType7other : bias_blind GetType7other.
Proof. pose proof blind_read_int. unfold GetType7other. blind. Qed.

Lemma blind_GetRecordType7 : bias_blind GetRecordType7.
Proof.
  pose proof blind_read_int. pose proof blind_GetType73.
  pose proof blind_GetType74. pose proof blind_GetType75.
  pose proof blind_GetType76. pose proof blind_GetType711.
  pose proof blind_GetType713. pose proof blind_GetType7other.
  unfold GetRecordType7. blind.
Qed.

Lemma blind_GetRecords_loop fuel : bias_blind (GetRecords_loop fuel).
Proof.
  pose proof blind_read_int. pose proof blind_GetRecordType2.
  pose proof blind_GetRecordType3. pose proof blind_GetRecordType7.
  pose proof blind_GetData.
  induction fuel as [|fuel IH]; simpl.
  - by intros ??.
  - blind.
Qed.

Lemma split_prefix (n : nat) (l : bytes) :
  (n <= length l)%nat -> ∃ w r, l = w ++ r ∧ length w = n.
Proof.
  intros Hn. exists (take n l), (drop n l). split.
  - by rewrite take_drop.
  - rewrite length_take. lia.
Qed.

Lemma set_bias_set_bias b b' s : set_bias b (set_bias b' s) = set_bias b s.
Proof. unfold set_bias. simpl. by rewrite insert_insert_eq. Qed.

(** One assignment of [GetRecordType1]: a read of a field that is in the
    file, or the assignment of what was read. *)
Ltac header_step :=
  first [ erewrite bind_Ret; [|by eapply read_app]
        | erewrite bind_Ret; [|reflexivity] ].

(** The header is read the same way whatever the eight bytes of the bias
    are, and they are stored as they are. *)
Lemma GetRecordType1_run pre post b b' :
  length pre = 84%nat -> length b = 8%nat -> length b' = 8%nat ->
  ∃ s,
    GetRecordType1 (opened (pre ++ b ++ post)) = Ret tt s
    ∧ GetRecordType1 (opened (pre ++ b' ++ post)) = Ret tt (set_bias b' s)
    ∧ attrs s !! "compressionbias"%string = Some (PyStr b).
Proof.
  intros Hpre Hb Hb'.
  destruct (split_prefix 4 pre) as (w1 & r1 & -> & H1); [lia|].
  rewrite length_app in Hpre.
  destruct (split_prefix 60 r1) as (w2 & r2 & -> & H2); [lia|].
  rewrite length_app in Hpre.
  destruct (split_prefix 4 r2) as (w3 & r3 & -> & H3); [lia|].
  rewrite length_app in Hpre.
  destruct (split_prefix 4 r3) as (w4 & r4 & -> & H4); [lia|].
  rewrite length_app in Hpre.
  destruct (split_prefix 4 r4) as (w5 & r5 & -> & H5); [lia|].
  rewrite length_app in Hpre.
  destruct (split_prefix 4 r5) as (w6 & w7 & -> & H6); [lia|].
  rewrite length_app in Hpre.
  assert (H7 : length w7 = 4%nat) by lia.
  rewrite <- !app_assoc. unfold GetRecordType1.
  eexists. split; [|split].
  - do 16 header_step.
    erewrite bind_Ret; [|by eapply read_take].
    unfold setattr. simpl. reflexivity.
  - do 16 header_step.
    erewrite bind_Ret; [|by eapply read_take].
    unfold setattr, set_bias. simpl. by f_equal.
  - reflexivity.
Qed.

(** ** Termination of the two loops *)

Lemma shrinks_refl s : shrinks s s.
Proof. by split. Qed.

Lemma shrinks_trans s1 s2 s3 : shrinks s1 s2 -> shrinks s2 s3 -> shrinks s1 s3.
Proof. intros [??] [??]. split; lia. Qed.

Section Bounded.
Context {A B : Type}.

Lemma bounded_ret (a : A) : bounded (ret a).
Proof. intros s. apply shrinks_refl. Qed.

Lemma bounded_raise (e : exn) : bounded (@raise A e).
Proof. intros s. apply shrinks_refl. Qed.

Lemma bounded_bind (m : M A) (k : A -> M B) :
  bounded m -> (∀ a, bounded (k a)) -> bounded (bind m k).
Proof.
  intros Hm Hk s. unfold bind. specialize (Hm s).
  destruct (m s) as [a s1|e s1|]; [|done|done].
  specialize (Hk a s1).
  destruct (k a s1); [| |done]; by eapply shrinks_trans.
Qed.

Lemma bounded_get (f : SPSSFile -> A) : bounded (get f).
Proof. intros s. apply shrinks_refl. Qed.

Lemma bounded_getattr (f : SPSSFile -> option A) : bounded (getattr f).
Proof. intros s. unfold getattr. destruct (f s); apply shrinks_refl. Qed.

Lemma bounded_item0 (t : unpacked A) : bounded (item0 t).
Proof. destruct t; intros ?; apply shrinks_refl. Qed.
End Bounded.

Lemma bounded_modify (f : SPSSFile -> SPSSFile) :
  (∀ s, shrinks s (f s)) -> bounded (modify f).
Proof. intros Hf s. apply Hf. Qed.

Lemma read_shrinks n s w s' : read n s = Ret w s' ->
  (unread s' + length w = unread s)%nat
  ∧ (pending s' + length w = pending s)%nat.
Proof.
  unfold read, unread, pending. destruct (fin s) as [rest|] eqn:E; [|done].
  intros [= <- <-]. simpl.
  pose proof (take_drop (if n <? 0 then length rest else Z.to_nat n) rest) as H.
  apply (f_equal length) in H. rewrite length_app in H. lia.
Qed.

Lemma bounded_read n : bounded (read n).
Proof.
  intros s. destruct (read n s) as [w s'| |] eqn:E.
  - apply read_shrinks in E. split; lia.
  - unfold read in E. destruct (fin s); [done|].
    injection E as <- <-. apply shrinks_refl.
  - unfold read in E. by destruct (fin s).
Qed.

Lemma bounded_readline n : bounded (readline n).
Proof.
  intros s. unfold ends_within, readline, shrinks, unread, pending.
  destruct (fin s) as [rest|] eqn:E; simpl; rewrite ?E; simpl; [|lia].
  rewrite length_drop. lia.
Qed.

Lemma bounded_ord_at IN i : bounded (ord_at IN i).
Proof. unfold ord_at. destruct (IN !! i); intros ?; apply shrinks_refl. Qed.

Lemma bounded_ord1 c : bounded (ord1 c).
Proof. destruct c as [|c0 [|c1 c]]; intros ?; apply shrinks_refl. Qed.

Lemma bounded_print msg : bounded (print msg).
Proof. intros s. unfold ends_within, shrinks, unread, pending. simpl. lia. Qed.

Lemma bounded_setattr k v : bounded (setattr k v).
Proof. intros s. unfold ends_within, shrinks, unread, pending. simpl. lia. Qed.

Lemma bounded_table_item tbl i : bounded (table_item tbl i).
Proof.
  unfold table_item. destruct (py_index tbl i); intros ?; apply shrinks_refl.
Qed.

(** A control byte taken from the cluster is one byte less to come. *)
Lemma next_byte_shrinks s :
  match next_byte s with
  | Ret _ s' => (unread s' <= unread s)%nat ∧ (pending s' < pending s)%nat
  | Raise _ s' => shrinks s s'
  | OutOfFuel => False
  end.
Proof.
  unfold next_byte, refill_cluster, pop_cluster, bind, getattr, modify, read,
    shrinks, unread, pending.
  destruct (cluster s) as [[|b c]|] eqn:Ec; simpl; rewrite ?Ec; simpl;
    [|lia|lia].
  destruct (fin s) as [rest|] eqn:Ef; simpl; rewrite ?Ec, ?Ef; simpl; [|lia].
  change (Z.to_nat 8) with 8%nat.
  pose proof (take_drop 8 rest) as H.
  apply (f_equal length) in H. rewrite length_app in H.
  destruct (take 8 rest) as [|c0 t] eqn:Et; simpl in *;
    rewrite ?length_map; lia.
Qed.

Lemma bounded_next_byte : bounded next_byte.
Proof.
  intros s. pose proof (next_byte_shrinks s) as H.
  destruct (next_byte s); [|done|done]. split; lia.
Qed.

Ltac bounded_step :=
  match goal with
  | |- bounded (bind _ _) => apply bounded_bind; [|intros ?]
  | |- bounded (ret _) => apply bounded_ret
  | |- bounded (raise _) => apply bounded_raise
  | |- bounded (read _) => apply bounded_read
  | |- bounded (readline _) => apply bounded_readline
  | |- bounded (item0 _) => apply bounded_item0
  | |- bounded (ord_at _ _) => apply bounded_ord_at
  | |- bounded (ord1 _) => apply bounded_ord1
  | |- bounded (print _) => apply bounded_print
  | |- bounded (table_item _ _) => apply bounded_table_item
  | |- bounded (setattr _ _) => apply bounded_setattr
  | |- bounded (get _) => apply bounded_get
  | |- bounded (getattr _) => apply bounded_getattr
  | |- bounded next_byte => apply bounded_next_byte
  | |- bounded (modify _) =>
      apply bounded_modify; intros ?; unfold shrinks, unread, pending;
      simpl; lia
  | |- bounded (if bool_decide _ then _ else _) => case_bool_decide
  | |- bounded (if ?c then _ else _) => destruct c
  | |- bounded (match ?x with _ => _ end) => destruct x
  | |- bounded (let _ := _ in _) => cbv zeta
  | H : _ |- _ => apply H
  end.

Ltac bounded := repeat bounded_step.

Lemma bounded_read_int : bounded read_int.
Proof. unfold read_int. bounded. Qed.

Lemma bounded_read_flt : bounded read_flt.
Proof. unfold read_flt. bounded. Qed.

Lemma bounded_readline_flt : bounded readline_flt.
Proof. unfold readline_flt. bounded. Qed.

Lemma bounded_GetNumber : bounded GetNumber.
Proof. unfold GetNumber. bounded. Qed.

Lemma ends_within_trans {A} s s1 (o : outcome A) :
  shrinks s s1 -> ends_within s1 o -> ends_within s o.
Proof. intros H. destruct o; simpl; [| |done]; by apply shrinks_trans. Qed.

(** The loop of [GetString] ends when it has more fuel than there are
    control bytes to come: every round takes one. *)
Lemma GetString_loop_ends fuel width ln s :
  (pending s < fuel)%nat ->
  ends_within s (GetString_loop fuel width ln s).
Proof.
  revert ln s. induction fuel as [|fuel IH]; intros ln s Hp; [lia|].
  simpl. unfold bind at 1.
  pose proof (next_byte_shrinks s) as Hb.
  destruct (next_byte s) as [b s1|e s1|]; [|done|done].
  destruct Hb as [Hu Hq].
  assert (Hs : shrinks s s1) by (split; lia).
  assert (Hsys : ends_within s (getattr SYSMIS s1))
    by (unfold getattr; by destruct (SYSMIS s1)).
  assert (Hrec : ∀ ln', ends_within s (GetString_loop fuel width ln' s1))
    by (intros ln'; apply (ends_within_trans _ s1); [done|apply IH; lia]).
  repeat case_bool_decide; try done.
  unfold bind. pose proof (bounded_read 8 s1) as Hr.
  destruct (read 8 s1) as [IN s2|e s2|]; [|by eapply shrinks_trans|done].
  simpl in Hr. destruct Hr as [Hu2 Hq2].
  assert (Hs2 : shrinks s s2) by (split; lia).
  repeat case_bool_decide.
  - unfold getattr. by destruct (SYSMIS s2).
  - done.
  - apply (ends_within_trans _ s2); [done|]. apply IH. lia.
Qed.

Lemma bounded_GetString var : bounded (GetString var).
Proof.
  unfold GetString. bounded.
  intros s. apply GetString_loop_ends. lia.
Qed.

Lemma bounded_append_data i v : bounded (append_data i v).
Proof. unfold append_data. bounded. Qed.

Lemma bounded_GetData_vars case i vars : bounded (GetData_vars case i vars).
Proof.
  pose proof bounded_GetNumber. pose proof bounded_GetString.
  pose proof bounded_append_data.
  revert i. induction vars as [|var vars IH]; intros i; simpl; bounded.
Qed.

Lemma bounded_GetData_cases n case : bounded (GetData_cases n case).
Proof.
  pose proof bounded_GetData_vars.
  revert case. induction n as [|n IH]; intros case; simpl; bounded.
Qed.

Lemma bounded_GetData : bounded GetData.
Proof. pose proof bounded_GetData_cases. unfold GetData. bounded. Qed.

Lemma bounded_skip_words n : bounded (skip_words n).
Proof. induction n as [|n IH]; simpl; bounded. Qed.

Lemma bounded_read_missing n tmpmiss : bounded (read_missing n tmpmiss).
Proof.
  pose proof bounded_read_flt.
  revert tmpmiss. induction n as [|n IH]; intros tmpmiss; simpl; bounded.
Qed.

Lemma bounded_read_missing_values x : bounded (read_missing_values x).
Proof.
  pose proof bounded_read_flt. pose proof bounded_read_missing.
  unfold read_missing_values. bounded.
Qed.

Lemma bounded_GetRecordType2 : bounded GetRecordType2.
Proof.
  pose proof bounded_read_int. pose proof bounded_skip_words.
  pose proof bounded_read_missing_values.
  unfold GetRecordType2. bounded.
Qed.

Lemma bounded_read_labels n values fields :
  bounded (read_labels n values fields).
Proof.
  pose proof bounded_read_flt.
  revert values fields. induction n as [|n IH]; intros values fields; simpl;
    bounded.
Qed.

Lemma bounded_read_ints n acc : bounded (read_ints n acc).
Proof.
  pose proof bounded_read_int.
  revert acc. induction n as [|n IH]; intros acc; simpl; bounded.
Qed.

Lemma bounded_attach_labels labelinds values fields :
  bounded (attach_labels labelinds values fields).
Proof. induction labelinds as [|i rest IH]; simpl; bounded. Qed.

Lemma bounded_GetRecordType3 : bounded GetRecordType3.
Proof.
  pose proof bounded_read_int. pose proof bounded_read_labels.
  pose proof bounded_read_ints. pose proof bounded_attach_labels.
  unfold GetRecordType3. bounded.
Qed.

Lemma bounded_GetType73 : bounded GetType73.
Proof. pose proof bounded_read_int. unfold GetType73. bounded. Qed.

Lemma bounded_GetType74 : bounded GetType74.
Proof.
  pose proof bounded_read_int. pose proof bounded_readline_flt.
  unfold GetType74. bounded.
Qed.

Lemma bounded_GetType75 : bounded GetType75.
Proof. pose proof bounded_read_int. unfold GetType75. bounded. Qed.

Lemma bounded_GetDateVar code : bounded (GetDateVar code).
Proof. unfold GetDateVar. bounded. Qed.

Lemma bounded_read_datevars n : bounded (read_datevars n).
Proof.
  pose proof bounded_read_int. pose proof bounded_GetDateVar.
  induction n as [|n IH]; simpl; bounded.
Qed.

Lemma bounded_GetType76 : bounded GetType76.
Proof.
  pose proof bounded_read_int. pose proof bounded_read_datevars.
  unfold GetType76. bounded.
Qed.

Lemma bounded_var_assign ind k v : bounded (var_assign ind k v).
Proof. unfold var_assign. bounded. Qed.

Lemma bounded_read_measures n ind datatype :
  bounded (read_measures n ind datatype).
Proof.
  pose proof bounded_var_assign.
  revert ind. induction n as [|n IH]; intros ind; simpl; bounded.
Qed.

Lemma bounded_GetType711 : bounded GetType711.
Proof.
  pose proof bounded_read_int. pose proof bounded_read_measures.
  unfold GetType711. bounded.
Qed.

Lemma bounded_GetType713 : bounded GetType713.
Proof. pose proof bounded_read_int. unfold GetType713. bounded. Qed.

Lemma bounded_GetType7other : bounded GetType7other.
Proof. pose proof bounded_read_int. unfold GetType7other. bounded. Qed.

Lemma bounded_GetRecordType7 : bounded GetRecordType7.
Proof.
  pose proof bounded_read_int. pose proof bounded_GetType73.
  pose proof bounded_GetType74. pose proof bounded_GetType75.
  pose proof bounded_GetType76. pose proof bounded_GetType711.
  pose proof bounded_GetType713. pose proof bounded_GetType7other.
  unfold GetRecordType7. bounded.
Qed.

Lemma bounded_GetRecordType1 : bounded GetRecordType1.
Proof. unfold GetRecordType1. bounded. Qed.

(** A record tag that was read took four bytes off the file. *)
Lemma read_int_consumes s IN s1 :
  read_int s = Ret IN s1 -> (unread s1 < unread s)%nat.
Proof.
  unfold read_int, bind. destruct (read 4 s) as [w s'| |] eqn:E; [|done|done].
  apply read_shrinks in E. unfold item0, pkint.
  case_bool_decide; [|done]. intros [= _ <-]. lia.
Qed.

(** The loop of [GetRecords] ends when it has more fuel than the file has
    bytes left: every round reads a tag. *)
Lemma GetRecords_loop_ends fuel s :
  (unread s < fuel)%nat -> ends_within s (GetRecords_loop fuel s).
Proof.
  revert s. induction fuel as [|fuel IH]; intros s Hu; [lia|].
  simpl. unfold bind at 1.
  pose proof (bounded_read_int s) as Hb.
  destruct (read_int s) as [IN s1|e s1|] eqn:E; [|done|done].
  apply read_int_consumes in E.
  assert (Hh : ∀ h : M unit, bounded h ->
            ends_within s (bind h (fun _ => GetRecords_loop fuel) s1)).
  { intros h Hh. unfold bind. specialize (Hh s1).
    destruct (h s1) as [[] s2|e s2|]; [| |done].
    - destruct Hh as [Hu2 Hp2]. apply (ends_within_trans _ s1); [done|].
      apply (ends_within_trans _ s2); [by split|]. apply IH. lia.
    - by eapply shrinks_trans. }
  repeat case_bool_decide.
  - apply Hh, bounded_GetRecordType2.
  - apply Hh, bounded_GetRecordType3.
  - apply (ends_within_trans _ s1); [done|]. apply IH. lia.
  - apply Hh, bounded_GetRecordType7.
  - apply (ends_within_trans _ s1); [done|].
    pose proof bounded_GetData.
    assert (Hend : bounded (run read 4; run GetData; modify (set_fin None)))
      by bounded.
    apply Hend.
  - apply (ends_within_trans _ s1); [done|]. apply IH. lia.
Qed.

(** [GetRecords] always ends: the fuel it gives its loop is enough. *)
Lemma GetRecords_ends s : ends_within s (GetRecords s).
Proof.
  unfold GetRecords, bind.
  pose proof (bounded_GetRecordType1 s) as H1.
  destruct (GetRecordType1 s) as [[] s1|e s1|]; [|done|done].
  apply (ends_within_trans _ s1); [done|]. apply GetRecords_loop_ends. lia.
Qed.

(** A state that holds the bias [b] is its own image under [set_bias b]. *)
Lemma set_bias_id b s :
  attrs s !! "compressionbias"%string = Some (PyStr b) -> set_bias b s = s.
Proof.
  intros H. unfold set_bias. rewrite insert_id by done. by destruct s.
Qed.

Lemma final_state_map_state {A} f (o : outcome A) :
  final_state (map_state f o) = f <$> final_state o.
Proof. by destruct o. Qed.

Lemma ending_of_map_state {A} f (o : outcome A) :
  ending_of (map_state f o) = ending_of o.
Proof. by destruct o. Qed.

(** C10: the eight bytes of the compression bias are stored as the
    string that was read and play no part in decoding.  Two files that
    differ only in these bytes (offsets 84 to 91 of the header) are both
    read to an end, the same end, and the two objects differ only in the
    stored bias: in particular the variables and their data are the
    same. *)
Theorem compression_bias_not_consulted pre b1 b2 post :
  length pre = 84%nat -> length b1 = 8%nat -> length b2 = 8%nat ->
  ∃ s1 s2,
    final_state (GetRecords (opened (pre ++ b1 ++ post))) = Some s1
    ∧ final_state (GetRecords (opened (pre ++ b2 ++ post))) = Some s2
    ∧ ending_of (GetRecords (opened (pre ++ b1 ++ post)))
      = ending_of (GetRecords (opened (pre ++ b2 ++ post)))
    ∧ attrs s1 !! "compressionbias"%string = Some (PyStr b1)
    ∧ attrs s2 !! "compressionbias"%string = Some (PyStr b2)
    ∧ s2 = set_bias b2 s1
    ∧ variablelist s1 = variablelist s2
    ∧ columns s1 = columns s2.
Proof.
  intros Hpre Hb1 Hb2.
  destruct (GetRecordType1_run pre post b1 b2) as (sh & H1 & H2 & Hl);
    [done..|].
  pose proof (GetRecords_ends (opened (pre ++ b1 ++ post))) as Hend.
  assert (Ho2 : GetRecords (opened (pre ++ b2 ++ post)) =
                map_state (set_bias b2)
                  (GetRecords (opened (pre ++ b1 ++ post)))).
  { unfold GetRecords. erewrite !bind_Ret; [|exact H1|exact H2].
    apply blind_GetRecords_loop. }
  assert (Ho1 : GetRecords (opened (pre ++ b1 ++ post)) =
                map_state (set_bias b1)
                  (GetRecords (opened (pre ++ b1 ++ post)))).
  { unfold GetRecords. erewrite !bind_Ret; [|exact H1].
    rewrite <- (set_bias_id b1 sh Hl) at 1 2.
    apply blind_GetRecords_loop. }
  rewrite Ho2, final_state_map_state, ending_of_map_state.
  assert (Hs1 : ∃ s1, final_state (GetRecords (opened (pre ++ b1 ++ post)))
                      = Some s1)
    by (destruct (GetRecords (opened (pre ++ b1 ++ post))); by eauto).
  destruct Hs1 as [s1 Hs1].
  assert (Hfix : s1 = set_bias b1 s1).
  { apply (f_equal final_state) in Ho1.
    rewrite final_state_map_state, Hs1 in Ho1. by injection Ho1. }
  exists s1, (set_bias b2 s1). rewrite Hs1.
  repeat split.
  - rewrite Hfix. apply lookup_insert_eq.
  - apply lookup_insert_eq.
Qed.

Lemma compression_bias_not_consulted_witness :
  ∃ s1 s2,
    final_state (GetRecords (opened (take 84 two_by_two_file ++ bias100 ++
                                     drop 92 two_by_two_file))) = Some s1
    ∧ final_state (GetRecords (opened (take 84 two_by_two_file ++ nine_word ++
                                       drop 92 two_by_two_file))) = Some s2
    ∧ ending_of (GetRecords (opened (take 84 two_by_two_file ++ bias100 ++
                                     drop 92 two_by_two_file)))
      = ending_of (GetRecords (opened (take 84 two_by_two_file ++ nine_word ++
                                       drop 92 two_by_two_file)))
    ∧ attrs s1 !! "compressionbias"%string = Some (PyStr bias100)
    ∧ attrs s2 !! "compressionbias"%string = Some (PyStr nine_word)
    ∧ s2 = set_bias nine_word s1
    ∧ variablelist s1 = variablelist s2
    ∧ columns s1 = columns s2.
Proof.
  apply (compression_bias_not_consulted (take 84 two_by_two_file) bias100
           nine_word (drop 92 two_by_two_file)); reflexivity.
Defined.

(** * Further properties of the reader *)

(** ** Primitive decoders *)

Lemma ord_range c : 0 <= ord c < 256.
Proof.
  unfold ord. pose proof (Byte.to_N_bounded c). lia.
Qed.

Lemma le_unsigned_range bs : 0 <= le_unsigned bs < 256 ^ Z.of_nat (length bs).
Proof.
  induction bs as [|c bs IH]; simpl length; [simpl; lia|].
  change (le_unsigned (c :: bs)) with (ord c + 256 * le_unsigned bs).
  pose proof (ord_range c).
  rewrite Nat2Z.inj_succ, Z.pow_succ_r by lia. lia.
Qed.

Lemma ord_byte_of k : 0 <= k < 256 -> ord (byte_of k) = k.
Proof.
  intros Hk. unfold ord, byte_of.
  destruct (Byte.of_N (Z.to_N k)) as [c|] eqn:E; simpl.
  - apply Byte.to_of_N in E. lia.
  - apply Byte.of_N_None_iff in E. lia.
Qed.

(** X1: [pkint] gives a tuple exactly for a window of four bytes, and the
    integer in it is a signed 32-bit number; for any other window it
    gives the bare [0] of its [except] branch. *)
Theorem pkint_tuple_range vv n :
  pkint vv = Tuple1 n ->
  length vv = 4%nat ∧ - 2 ^ 31 <= n < 2 ^ 31.
Proof.
  unfold pkint. case_bool_decide as Hl; [|done]. intros [= <-].
  split; [done|]. unfold int32_of.
  pose proof (le_unsigned_range vv) as Hr. rewrite Hl in Hr.
  change (256 ^ Z.of_nat 4) with (2 ^ 32) in Hr.
  destruct (Z.ltb_spec (le_unsigned vv) (2 ^ 31)); lia.
Qed.

Lemma pkint_tuple_range_witness :
  length (le32 (-3)) = 4%nat ∧ - 2 ^ 31 <= -3 < 2 ^ 31.
Proof. apply (pkint_tuple_range (le32 (-3)) (-3)). reflexivity. Defined.

(** X2: [pkint] reads back what [struct.pack("i", n)] wrote, for every
    signed 32-bit [n]. *)
Theorem pkint_le32 n :
  - 2 ^ 31 <= n < 2 ^ 31 -> pkint (le32 n) = Tuple1 n.
Proof.
  intros Hn. unfold pkint, le32.
  rewrite bool_decide_eq_true_2 by done. f_equal.
  unfold int32_of, le_unsigned. simpl foldr.
  rewrite !ord_byte_of by (apply Z.mod_pos_bound; lia).
  assert (Hu : 0 <= n `mod` 2 ^ 32 < 2 ^ 32) by (apply Z.mod_pos_bound; lia).
  set (u := n `mod` 2 ^ 32) in *.
  assert (Hd : u `mod` 256 + 256 * ((u `div` 256) `mod` 256 + 256 *
                 ((u `div` 65536) `mod` 256 + 256 *
                    ((u `div` 16777216) `mod` 256 + 256 * 0))) = u).
  { change (2 ^ 32) with 4294967296 in Hu. Z.div_mod_to_equations. lia. }
  rewrite Hd. subst u.
  change (2 ^ 32) with 4294967296 in *. change (2 ^ 31) with 2147483648 in *.
  destruct (Z.ltb_spec (n `mod` 4294967296) 2147483648);
    Z.div_mod_to_equations; lia.
Qed.

Lemma pkint_le32_witness : pkint (le32 (-1)) = Tuple1 (-1).
Proof. apply (pkint_le32 (-1)). lia. Defined.

(** X3: [pkstr] returns the string it is given, character by character
    and unchanged, whatever its length. *)
Theorem pkstr_identity vv : pkstr vv = vv.
Proof. unfold pkstr. by rewrite pkstr_acc. Qed.

(** ** Format codes *)

(** X4: every result of [GetPrintWriteCode] is a pair of strings with an
    abbreviation of at most eight characters, or [(None, None)]; it is
    [(None, None)] exactly for the codes the table does not know. *)
Theorem GetPrintWriteCode_table code :
  format_pair_ok (GetPrintWriteCode code) = true
  ∧ (GetPrintWriteCode code = PyTuple [PyNone; PyNone] <-> ¬ known_format code).
Proof.
  unfold GetPrintWriteCode, known_format.
  repeat case_bool_decide; (split; [reflexivity|]);
    (split; [try discriminate; intros _; lia | intros Hk; first [done | lia]]).
Qed.

(** ** The header *)

Lemma take_short_length (k : nat) (l : bytes) :
  (length l < k)%nat -> (length (take k l) < k)%nat.
Proof. rewrite length_take. lia. Qed.

(** What [GetRecordType1] leaves behind, for a file of any length. *)
Lemma GetRecordType1_open s l :
  fin s = Some l ->
  ∃ s1,
    GetRecordType1 s = Ret tt s1
    ∧ fin s1 = Some (drop 176 l)
    ∧ compressionswitch s1 = Some (pkint (take 4 (drop 72 l)))
    ∧ numcases s1 = Some (pkint (take 4 (drop 80 l)))
    ∧ variablelist s1 = variablelist s
    ∧ rawvarlist s1 = rawvarlist s
    ∧ stdout s1 = stdout s.
Proof.
  intros Hf. unfold GetRecordType1.
  erewrite bind_Ret; [|by eapply read_take].
  erewrite bind_Ret; [|reflexivity].
  do 7 (erewrite bind_Ret; [|eapply read_take; [reflexivity|lia]];
        erewrite bind_Ret; [|reflexivity]).
  erewrite bind_Ret; [|eapply read_take; [reflexivity|lia]].
  eexists. split; [reflexivity|]. cbn -[take drop].
  rewrite !drop_drop. done.
Qed.

(** X5: [GetRecordType1] never fails on an open file, however short: it
    takes what there is of the 176 bytes.  The compression switch it
    stores is the tuple of [pkint] as soon as the file has the 76 bytes
    up to the end of that field, and then the test
    [self.compressionswitch == 0] of the cell decoders is false whatever
    the switch is; it is the bare 0 only for a shorter file. *)
Theorem GetRecordType1_switch s l :
  fin s = Some l ->
  ∃ s1,
    GetRecordType1 s = Ret tt s1
    ∧ fin s1 = Some (drop 176 l)
    ∧ ((76 <= length l)%nat ->
       ∃ sw, compressionswitch s1 = Some (Tuple1 sw) ∧ switch_is_zero (Tuple1 sw) = false)
    ∧ ((length l < 76)%nat -> compressionswitch s1 = Some Scalar0).
Proof.
  intros Hf.
  destruct (GetRecordType1_open s l Hf) as (s1 & H1 & Hfin & Hsw & _).
  exists s1. repeat split; [done|done| |].
  - intros Hl. rewrite Hsw. unfold pkint.
    rewrite bool_decide_eq_true_2; [by eexists|].
    rewrite length_take, length_drop. lia.
  - intros Hl. rewrite Hsw. unfold pkint.
    rewrite bool_decide_eq_false_2; [done|].
    rewrite length_take, length_drop. lia.
Qed.

Lemma GetRecordType1_switch_witness :
  ∃ s1,
    GetRecordType1 (opened (header 0 2 bias100)) = Ret tt s1
    ∧ fin s1 = Some (drop 176 (header 0 2 bias100))
    ∧ ((76 <= length (header 0 2 bias100))%nat ->
       ∃ sw, compressionswitch s1 = Some (Tuple1 sw)
             ∧ switch_is_zero (Tuple1 sw) = false)
    ∧ ((length (header 0 2 bias100) < 76)%nat ->
       compressionswitch s1 = Some Scalar0).
Proof.
  apply (GetRecordType1_switch (opened (header 0 2 bias100))).
  reflexivity.
Defined.

(** ** The dictionary loop *)

(** X6: when the file cannot be opened, [OpenFile] prints its message and
    leaves no file object, and [GetRecords] then raises an
    [AttributeError] at its first read, with nothing else changed. *)
Theorem GetRecords_without_file s :
  bind (OpenFile None) (fun _ => GetRecords) s =
  Raise AttributeError (set_fin None (set_stdout (stdout s ++ [CannotOpenFile]) s)).
Proof. reflexivity. Qed.

(** X7: a record tag other than 2, 3, 7 and 999 is passed over: the loop
    reads nothing but the four bytes of the tag, changes nothing, and
    takes the next four bytes for a tag. *)
Theorem GetRecords_loop_unknown_tag fuel s tagw rest :
  fin s = Some (tagw ++ rest) -> length tagw = 4%nat ->
  int32_of tagw ≠ 2 -> int32_of tagw ≠ 3 -> int32_of tagw ≠ 7 ->
  int32_of tagw ≠ 999 ->
  GetRecords_loop (S fuel) s = GetRecords_loop fuel (set_fin (Some rest) s).
Proof.
  intros Hf Hl H2 H3 H7 H999. simpl.
  erewrite bind_Ret; [|by eapply read_int_app].
  by repeat case_bool_decide.
Qed.

Lemma GetRecords_loop_unknown_tag_witness :
  GetRecords_loop 3 (opened (le32 5 ++ record999)) =
  GetRecords_loop 2 (set_fin (Some record999) (opened (le32 5 ++ record999))).
Proof.
  apply (GetRecords_loop_unknown_tag 2 (opened (le32 5 ++ record999))
           (le32 5) record999); first [reflexivity | vm_compute; discriminate].
Defined.

Lemma GetRecords_Ret_closed s s' :
  GetRecords s = Ret tt s' -> fin s' = None.
Proof.
  unfold GetRecords, bind at 1.
  destruct (GetRecordType1 s) as [[] s1| |]; [|done|done].
  generalize (S (unread s1)). intros fuel. revert s1.
  induction fuel as [|fuel IH]; intros s1; [done|].
  simpl. unfold bind at 1.
  destruct (read_int s1) as [IN s2| |]; [|done|done].
  repeat case_bool_decide.
  - unfold bind.
    destruct (GetRecordType2 s2) as [[] s3| |]; [apply IH|done|done].
  - unfold bind.
    destruct (GetRecordType3 s2) as [[] s3| |]; [apply IH|done|done].
  - apply IH.
  - unfold bind.
    destruct (GetRecordType7 s2) as [[] s3| |]; [apply IH|done|done].
  - unfold bind. destruct (read 4 s2) as [w s3| |]; [|done|done].
    destruct (GetData s3) as [[] s4| |]; [|done|done].
    unfold modify. by intros [= <-].
  - apply IH.
Qed.

(** X8: the loop returns only through the terminator: whenever
    [GetRecords] returns, the file object has been released. *)
Theorem GetRecords_returns_closed s :
  ending_of (GetRecords s) = Returned ->
  (fin <$> final_state (GetRecords s)) = Some None.
Proof.
  destruct (GetRecords s) as [[] s'| |] eqn:E; [|done|done].
  intros _. simpl. f_equal. by eapply GetRecords_Ret_closed.
Qed.

Lemma GetRecords_returns_closed_witness :
  (fin <$> final_state (GetRecords (opened two_by_two_file))) = Some None.
Proof.
  apply (GetRecords_returns_closed (opened two_by_two_file)).
  vm_compute. reflexivity.
Defined.

(** X9: a file that ends where a record tag is due ends the read with a
    [TypeError]: with fewer than 180 bytes (the header and a tag) no
    call of [GetRecords] returns. *)
Theorem GetRecords_short_file contents :
  (length contents < 180)%nat ->
  ending_of (GetRecords (opened contents)) = Raised TypeError.
Proof.
  intros Hl. unfold GetRecords.
  destruct (GetRecordType1_open (opened contents) contents eq_refl)
    as (s1 & H1 & Hfin & _).
  erewrite bind_Ret; [|exact H1].
  simpl. unfold read_int.
  rewrite bind_assoc. erewrite bind_Ret; [|by eapply read_take].
  unfold pkint. rewrite bool_decide_eq_false_2; [done|].
  rewrite length_take, length_drop. lia.
Qed.

Lemma GetRecords_short_file_witness :
  ending_of (GetRecords (opened (header 1 0 bias100))) = Raised TypeError.
Proof. apply (GetRecords_short_file (header 1 0 bias100)). vm_compute. lia. Defined.

(** X10: the two [while 1] loops stop on every file: [GetRecords],
    [GetData] and [GetString] end, by returning or raising, and leave no
    more of the file unread than they found. *)
Theorem reader_loops_end s var :
  ends_within s (GetRecords s)
  ∧ ends_within s (GetData s)
  ∧ ends_within s (GetString var s).
Proof.
  split; [apply GetRecords_ends|].
  split; [apply bounded_GetData | apply bounded_GetString].
Qed.

(** ** Variable definitions *)

Lemma py_index_last {A} (l : list A) : py_index l (-1) = last l.
Proof.
  unfold py_index, py_pos.
  rewrite bool_decide_eq_false_2 by lia.
  destruct l as [|a l] using rev_ind.
  - done.
  - rewrite length_app. simpl length.
    rewrite bool_decide_eq_true_2 by lia.
    rewrite last_snoc.
    replace (Z.to_nat (Z.of_nat (length l + 1) + -1)) with (length l) by lia.
    by rewrite lookup_app_r, Nat.sub_diag by lia.
Qed.

(** X11: a continuation record (type code -1) declares no variable: the
    registry is left as it is, the raw index list receives the previous
    raw index once more ([None] when there is none), and exactly the
    type code and the 24 bytes after it are read. *)
Theorem GetRecordType2_continuation s tcw tail rest :
  fin s = Some (tcw ++ tail ++ rest) ->
  length tcw = 4%nat -> int32_of tcw = -1 -> length tail = 24%nat ->
  ∃ s',
    GetRecordType2 s = Ret tt s'
    ∧ variablelist s' = variablelist s
    ∧ rawvarlist s' = rawvarlist s ++ [default None (last (rawvarlist s))]
    ∧ fin s' = Some rest.
Proof.
  intros Hf Hl Ht Htail. unfold GetRecordType2.
  erewrite bind_Ret; [|by eapply read_int_app].
  rewrite bool_decide_eq_false_2 by (intros H; by apply H).
  erewrite bind_Ret; [|reflexivity].
  erewrite bind_Ret; [|eapply read_app; [reflexivity|lia|done]].
  eexists. split; [reflexivity|]. simpl.
  by rewrite py_index_last.
Qed.

Lemma GetRecordType2_continuation_witness :
  ∃ s',
    GetRecordType2 (one_string_state (le32 (-1) ++ continuation_tail ++ record999))
      = Ret tt s'
    ∧ variablelist s' = [string_var 12]
    ∧ rawvarlist s' = [Some 1] ++ [default None (last [Some 1])]
    ∧ fin s' = Some record999.
Proof.
  apply (GetRecordType2_continuation
           (one_string_state (le32 (-1) ++ continuation_tail ++ record999))
           (le32 (-1)) continuation_tail record999); reflexivity.
Defined.

(** X12: a record whose name is all spaces is read to its end like any
    other and then dropped: neither the registry nor the raw index list
    changes. *)
Theorem GetRecordType2_blank_name r rest s :
  vr_well_formed r ->
  int32_of (vr_typecode r) ≠ -1 ->
  blank_name (vr_name r) = true ->
  vr_marker r = 0 ->
  fin s = Some (vr_bytes r ++ rest) ->
  GetRecordType2 s = Ret tt (set_fin (Some rest) s).
Proof.
  intros Hwf Htc Hnm Hm Hf.
  destruct (GetRecordType2_run r rest s) as (x & Hrun & Hn & _); auto.
  { rewrite Hm. simpl. lia. }
  rewrite Hrun. unfold register. rewrite Hn, Hnm, Hm. simpl.
  by rewrite drop_0.
Qed.

Lemma GetRecordType2_blank_name_witness :
  GetRecordType2
    (opened (vr_bytes (mk_variable_record (le32 0) (le32 0) (le32 0)
                         [x00; x08; x05; x00] [x00; x08; x05; x00]
                         (padded 8 "") [] []) ++ record999))
  = Ret tt (set_fin (Some record999)
      (opened (vr_bytes (mk_variable_record (le32 0) (le32 0) (le32 0)
                           [x00; x08; x05; x00] [x00; x08; x05; x00]
                           (padded 8 "") [] []) ++ record999))).
Proof.
  apply (GetRecordType2_blank_name
           (mk_variable_record (le32 0) (le32 0) (le32 0)
              [x00; x08; x05; x00] [x00; x08; x05; x00] (padded 8 "") [] [])
           record999).
  - repeat split.
  - vm_compute. discriminate.
  - reflexivity.
  - reflexivity.
  - reflexivity.
Defined.

(** X13: a record with a name that is not blank and marker [m], when
    at least [8|m|] bytes follow it in the file (none for the marker 0;
    the handler reads that far past the record for its missing values),
    adds one variable at the end of the registry, under the name and
    type code of the record, and the raw index list receives the new
    length of the registry, the 1-based position of the variable; the
    cursor is left [8|m|] bytes past the end of the record. *)
Theorem GetRecordType2_registers r rest s :
  vr_well_formed r ->
  int32_of (vr_typecode r) ≠ -1 ->
  blank_name (vr_name r) = false ->
  vr_marker r = 0 ∨ payload_marker (vr_marker r) ->
  fin s = Some (vr_bytes r ++ rest) ->
  (8 * Z.abs_nat (vr_marker r) <= length rest)%nat ->
  ∃ x s',
    GetRecordType2 s = Ret tt s'
    ∧ variablelist s' = variablelist s ++ [x]
    ∧ rawvarlist s' =
      rawvarlist s ++ [Some (Z.of_nat (length (variablelist s)) + 1)]
    ∧ name x = vr_name r
    ∧ typecode x = int32_of (vr_typecode r)
    ∧ fin s' = Some (drop (8 * Z.abs_nat (vr_marker r)) rest).
Proof.
  intros Hwf Htc Hnm Hm Hf Hrest.
  destruct (GetRecordType2_run r rest s) as (x & Hrun & Hn & Ht & _); auto.
  exists x. eexists. split; [exact Hrun|].
  unfold register. rewrite Hn, Hnm. simpl.
  rewrite length_app. simpl. repeat split; try done.
  do 3 f_equal. lia.
Qed.

Lemma GetRecordType2_registers_witness :
  ∃ x s',
    GetRecordType2
      (one_string_state (vr_bytes (sample_record 1 nine_word) ++ record999))
      = Ret tt s'
    ∧ variablelist s' = [string_var 12] ++ [x]
    ∧ rawvarlist s' = [Some 1] ++ [Some (Z.of_nat 1 + 1)]
    ∧ name x = padded 8 "X"
    ∧ typecode x = int32_of (le32 0)
    ∧ fin s' = Some (drop 8 record999).
Proof.
  apply (GetRecordType2_registers (sample_record 1 nine_word) record999
           (one_string_state
              (vr_bytes (sample_record 1 nine_word) ++ record999))).
  - repeat split.
  - vm_compute. discriminate.
  - reflexivity.
  - right. right. right. left. reflexivity.
  - reflexivity.
  - vm_compute. lia.
Defined.

(** ** What a method leaves alone *)

Section Relates.
Context {A B : Type} (R : SPSSFile -> SPSSFile -> Prop).
Context `{!Reflexive R, !Transitive R}.

Lemma relates_ret (a : A) : relates R (ret a).
Proof. intros s. simpl. reflexivity. Qed.

Lemma relates_raise (e : exn) : relates R (@raise A e).
Proof. intros s. simpl. reflexivity. Qed.

Lemma relates_bind (m : M A) (k : A -> M B) :
  relates R m -> (∀ a, relates R (k a)) -> relates R (bind m k).
Proof.
  intros Hm Hk s. unfold bind. specialize (Hm s).
  destruct (m s) as [a s1|e s1|]; [|done|done].
  specialize (Hk a s1).
  destruct (k a s1); [| |done]; by etrans.
Qed.

Lemma relates_get (f : SPSSFile -> A) : relates R (get f).
Proof. intros s. simpl. reflexivity. Qed.

Lemma relates_getattr (f : SPSSFile -> option A) : relates R (getattr f).
Proof. intros s. unfold getattr. destruct (f s); reflexivity. Qed.

Lemma relates_item0 (t : unpacked A) : relates R (item0 t).
Proof. destruct t; intros ?; simpl; reflexivity. Qed.
End Relates.

Section RelatesPrimitives.
Context (R : SPSSFile -> SPSSFile -> Prop).
Context `{!Reflexive R, !Transitive R}.

Lemma relates_modify (f : SPSSFile -> SPSSFile) :
  (∀ s, R s (f s)) -> relates R (modify f).
Proof. intros Hf s. apply Hf. Qed.

Lemma relates_ord_at IN i : relates R (ord_at IN i).
Proof. unfold ord_at. destruct (IN !! i); intros ?; simpl; reflexivity. Qed.

Lemma relates_ord1 c : relates R (ord1 c).
Proof. destruct c as [|c0 [|c1 c]]; intros ?; simpl; reflexivity. Qed.

Lemma relates_table_item tbl i : relates R (table_item tbl i).
Proof.
  unfold table_item. destruct (py_index tbl i); intros ?; simpl; reflexivity.
Qed.

Lemma relates_read n :
  (∀ s v, R s (set_fin v s)) -> relates R (read n).
Proof.
  intros Hfin s. unfold read. destruct (fin s); [apply Hfin | reflexivity].
Qed.

Lemma relates_readline n :
  (∀ s v, R s (set_fin v s)) -> relates R (readline n).
Proof.
  intros Hfin s. unfold readline. destruct (fin s); [apply Hfin | reflexivity].
Qed.

Lemma relates_setattr k v :
  (∀ s a, R s (set_attrs a s)) -> relates R (setattr k v).
Proof. intros Ha s. apply Ha. Qed.

Lemma relates_print msg :
  (∀ s o, R s (set_stdout o s)) -> relates R (print msg).
Proof. intros Ho s. apply Ho. Qed.

Lemma relates_next_byte :
  (∀ s v, R s (set_fin v s)) -> (∀ s v, R s (set_cluster v s)) ->
  relates R next_byte.
Proof.
  intros Hfin Hcl. unfold next_byte, refill_cluster, pop_cluster.
  apply relates_bind; [done| |intros _].
  - apply relates_bind; [done|apply relates_getattr; done|intros c].
    case_bool_decide; [|by apply relates_ret].
    apply relates_bind; [done|by apply relates_read|intros IN].
    apply relates_modify. intros s. apply Hcl.
  - apply relates_bind; [done|apply relates_getattr; done|intros [|b c]].
    + by apply relates_raise.
    + apply relates_bind; [done| |intros _; by apply relates_ret].
      apply relates_modify. intros s. apply Hcl.
Qed.
End RelatesPrimitives.

(** The steps of a proof that a method relates its states by a
    relation; [tac] proves that the relation holds across the
    assignment of one attribute. *)
Ltac relates_step tac :=
  match goal with
  | |- relates _ (bind _ _) => apply relates_bind; [tc_solve| |intros ?]
  | |- relates _ (ret _) => apply relates_ret; tc_solve
  | |- relates _ (raise _) => apply relates_raise; tc_solve
  | |- relates _ (item0 _) => apply relates_item0; tc_solve
  | |- relates _ (ord_at _ _) => apply relates_ord_at; tc_solve
  | |- relates _ (ord1 _) => apply relates_ord1; tc_solve
  | |- relates _ (table_item _ _) => apply relates_table_item; tc_solve
  | |- relates _ (get _) => apply relates_get; tc_solve
  | |- relates _ (getattr _) => apply relates_getattr; tc_solve
  | |- relates _ (read _) => apply relates_read; [tc_solve|solve [tac]]
  | |- relates _ (readline _) => apply relates_readline; [tc_solve|solve [tac]]
  | |- relates _ (setattr _ _) => apply relates_setattr; solve [tac]
  | |- relates _ (print _) => apply relates_print; solve [tac]
  | |- relates _ next_byte =>
      apply relates_next_byte; [tc_solve|tc_solve|solve [tac]|solve [tac]]
  | |- relates _ (modify _) => apply relates_modify; solve [tac]
  | |- relates _ (if bool_decide _ then _ else _) => case_bool_decide
  | |- relates _ (if ?c then _ else _) => destruct c
  | |- relates _ (match ?x with _ => _ end) => destruct x
  | |- relates _ (let _ := _ in _) => cbv zeta
  | H : _ |- _ => apply H
  end.

Ltac relates_with tac := repeat (relates_step tac).

(** *** The cell decoders leave the registry alone *)

#[local] Instance same_registry_refl : Reflexive same_registry.
Proof. by intros s. Qed.

#[local] Instance same_registry_trans : Transitive same_registry.
Proof. intros s1 s2 s3. unfold same_registry. congruence. Qed.

Ltac same_registry_frame := intros; reflexivity.

Lemma same_registry_GetNumber : relates same_registry GetNumber.
Proof. unfold GetNumber. relates_with same_registry_frame. Qed.

Lemma same_registry_GetString_loop fuel width ln :
  relates same_registry (GetString_loop fuel width ln).
Proof.
  revert ln. induction fuel as [|fuel IH]; intros ln; simpl.
  - by intros ?.
  - relates_with same_registry_frame.
Qed.

Lemma same_registry_GetString var : relates same_registry (GetString var).
Proof.
  unfold GetString. relates_with same_registry_frame.
  intros s. apply same_registry_GetString_loop.
Qed.

(** *** The data reader only appends to the columns *)

Lemma data_grows_refl x : data_grows x x.
Proof. split; [by destruct x | done]. Qed.

Lemma data_grows_trans x y z : data_grows x y -> data_grows y z -> data_grows x z.
Proof.
  intros [Hy Hp] [Hz Hq]. split; [|by etrans].
  rewrite Hz, Hy. by destruct x.
Qed.

Lemma data_grows_refl_list vl : Forall2 data_grows vl vl.
Proof.
  apply Forall2_same_length_lookup_2; [done|].
  intros i x y Hx Hy. assert (x = y) as -> by congruence.
  apply data_grows_refl.
Qed.

#[local] Instance columns_grow_refl : Reflexive columns_grow.
Proof. intros s. split; [apply data_grows_refl_list | done]. Qed.

#[local] Instance columns_grow_trans : Transitive columns_grow.
Proof.
  intros s1 s2 s3 (H12 & ? & ? & ? & ? & ? & ? & ?)
    (H23 & ? & ? & ? & ? & ? & ? & ?).
  split; [|repeat split; congruence].
  revert H23. generalize (variablelist s3).
  induction H12 as [|x y l k Hxy _ IH]; intros l3 H23.
  - by inversion H23.
  - inversion H23 as [|y' z k' l3' Hyz Hrest]; subst.
    constructor; [by eapply data_grows_trans | by apply IH].
Qed.

Ltac columns_frame := intros; split; [apply data_grows_refl_list | done].

Lemma columns_grow_append_data i v : relates columns_grow (append_data i v).
Proof.
  intros s. simpl. split; [|done]. simpl.
  apply Forall2_alter_r; [apply data_grows_refl_list|].
  intros x y Hx Hy _. assert (x = y) as -> by congruence.
  split; [by destruct y | by apply prefix_app_r].
Qed.

Lemma columns_grow_GetNumber : relates columns_grow GetNumber.
Proof. unfold GetNumber. relates_with columns_frame. Qed.

Lemma columns_grow_GetString_loop fuel width ln :
  relates columns_grow (GetString_loop fuel width ln).
Proof.
  revert ln. induction fuel as [|fuel IH]; intros ln; simpl.
  - by intros ?.
  - relates_with columns_frame.
Qed.

Lemma columns_grow_GetString var : relates columns_grow (GetString var).
Proof.
  unfold GetString. relates_with columns_frame.
  intros s. apply columns_grow_GetString_loop.
Qed.

Lemma columns_grow_GetData_vars case i vars :
  relates columns_grow (GetData_vars case i vars).
Proof.
  pose proof columns_grow_GetNumber. pose proof columns_grow_GetString.
  pose proof columns_grow_append_data.
  revert i. induction vars as [|var vars IH]; intros i; simpl;
    relates_with columns_frame.
Qed.

Lemma columns_grow_GetData_cases n case :
  relates columns_grow (GetData_cases n case).
Proof.
  pose proof columns_grow_GetData_vars.
  revert case. induction n as [|n IH]; intros case; simpl;
    relates_with columns_frame.
Qed.

(** X14: however [GetData] ends, by returning, by [sys.exit] or by an
    exception, it has changed nothing of the object but the file
    position, the cluster, the output and the data of the variables:
    there are as many variables as before, each with its attributes as
    they were and with its former data at the start of its data. *)
Theorem GetData_only_appends s :
  match GetData s with
  | Ret _ s' => columns_grow s s'
  | Raise _ s' => columns_grow s s'
  | OutOfFuel => False
  end.
Proof.
  pose proof (bounded_GetData s) as Hb.
  assert (Hr : relates columns_grow GetData).
  { pose proof columns_grow_GetData_cases.
    unfold GetData. relates_with columns_frame. }
  specialize (Hr s). by destruct (GetData s).
Qed.

(** *** One value per case and variable *)

Lemma GetData_vars_cons case i var vars s :
  GetData_vars case i (var :: vars) s =
  bind (GetData_vars case i [var]) (fun _ => GetData_vars case (S i) vars) s.
Proof.
  simpl. rewrite bind_assoc. unfold bind.
  match goal with |- match ?c s with _ => _ end = _ => destruct (c s) end;
    done.
Qed.

(** The cell of one variable: its datum is appended to the variable at
    position [i], or nothing happens when the type code calls for no
    cell. *)
Lemma GetData_vars_single case i var s s2 :
  GetData_vars case i [var] s = Ret tt s2 ->
  if cell_type (typecode var)
  then ∃ v, variablelist s2 = alter (var_append_data v) i (variablelist s)
  else variablelist s2 = variablelist s.
Proof.
  simpl. unfold cell_type. unfold bind at 1.
  case_bool_decide as H0; simpl.
  - unfold bind at 1.
    pose proof (same_registry_GetNumber s) as Hn.
    destruct (GetNumber s) as [N s1| |]; [|done|done].
    destruct (eq_False_str N); [done|].
    intros [= <-]. exists N. simpl. by rewrite Hn.
  - case_bool_decide as H1; simpl.
    + unfold bind at 1.
      pose proof (same_registry_GetString var s) as Hn.
      destruct (GetString var s) as [N s1| |]; [|done|done].
      destruct (eq_False_str N); [done|].
      intros [= <-]. exists N. simpl. by rewrite Hn.
    + by intros [= <-].
Qed.

Lemma gained_lookup_step i j (x : variable) v (vl : list variable) :
  vl !! j = Some x ->
  ∃ x2, alter (var_append_data v) i vl !! j = Some x2
        ∧ typecode x2 = typecode x
        ∧ length (data x2) =
          (length (data x) + (if bool_decide (i = j) then 1 else 0))%nat.
Proof.
  intros Hx. case_bool_decide as Hij.
  - subst j. rewrite list_lookup_alter_eq, Hx. simpl.
    eexists. split; [done|]. simpl. rewrite length_app. simpl. done.
  - rewrite list_lookup_alter_ne, Hx by done.
    eexists. split; [done|]. split; [done|lia].
Qed.

(** The inner loop from position [i] on: the variables before [i] keep
    their data, those from [i] on gain one value if they have cells. *)
Lemma GetData_vars_lengths case vars i s s' :
  GetData_vars case i vars s = Ret tt s' ->
  map typecode vars = map typecode (drop i (variablelist s)) ->
  length (variablelist s') = length (variablelist s)
  ∧ ∀ j x, variablelist s !! j = Some x ->
      ∃ x', variablelist s' !! j = Some x'
            ∧ gained (if bool_decide (i <= j)%nat then 1 else 0) x x'.
Proof.
  revert i s. induction vars as [|var vars IH]; intros i s Hrun Htc.
  - injection Hrun as <-. split; [done|]. intros j x Hx.
    exists x. split; [done|]. split; [done|].
    symmetry in Htc. apply map_eq_nil in Htc.
    apply (f_equal length) in Htc. rewrite length_drop in Htc. simpl in Htc.
    apply lookup_lt_Some in Hx.
    rewrite bool_decide_eq_false_2 by lia. destruct (cell_type _); lia.
  - rewrite GetData_vars_cons in Hrun. unfold bind in Hrun.
    destruct (GetData_vars case i [var] s) as [[] s2| |] eqn:Hcell;
      [|done|done].
    apply GetData_vars_single in Hcell.
    remember (drop i (variablelist s)) as d eqn:Hdrop. symmetry in Hdrop.
    destruct d as [|xi rest]; [done|].
    injection Htc as Hxi Hrest.
    assert (Hi : variablelist s !! i = Some xi).
    { rewrite <- (Nat.add_0_r i), <- lookup_drop, Hdrop. done. }
    assert (Hrest' : drop (S i) (variablelist s) = rest).
    { rewrite <- (Nat.add_1_r i), <- drop_drop, Hdrop. done. }
    rewrite Hxi in Hcell.
    destruct (cell_type (typecode xi)) eqn:Hct.
    + destruct Hcell as [v Hv2].
      destruct (IH (S i) s2 Hrun) as [Hlen Hall].
      { rewrite Hv2, drop_alter_lt, Hrest' by lia. done. }
      split; [by rewrite Hlen, Hv2, length_alter|].
      intros j x Hx.
      destruct (gained_lookup_step i j x v _ Hx) as (x2 & Hx2 & Ht2 & Hl2).
      rewrite <- Hv2 in Hx2.
      destruct (Hall j x2 Hx2) as (x' & Hx' & Ht' & Hl').
      exists x'. split; [done|]. split; [congruence|].
      rewrite Hl', Hl2, Ht2.
      assert (j = i -> typecode x = typecode xi) by (intros ->; congruence).
      repeat case_bool_decide; destruct (cell_type (typecode x)) eqn:E;
        try lia; subst; rewrite H in E by done; congruence.
    + destruct (IH (S i) s2 Hrun) as [Hlen Hall].
      { rewrite Hcell, Hrest'. done. }
      split; [by rewrite Hlen, Hcell|].
      intros j x Hx. rewrite <- Hcell in Hx.
      destruct (Hall j x Hx) as (x' & Hx' & Ht' & Hl').
      exists x'. split; [done|]. split; [done|].
      rewrite Hl'.
      assert (j = i -> typecode x = typecode xi).
      { intros ->. rewrite Hcell in Hx. congruence. }
      repeat case_bool_decide; destruct (cell_type (typecode x)) eqn:E;
        try lia; rewrite H in E by lia; congruence.
Qed.

(** The outer loop: [n] cases give every variable with cells [n] more
    values. *)
Lemma GetData_cases_lengths n case s s' :
  GetData_cases n case s = Ret tt s' ->
  length (variablelist s') = length (variablelist s)
  ∧ ∀ j x, variablelist s !! j = Some x ->
      ∃ x', variablelist s' !! j = Some x' ∧ gained n x x'.
Proof.
  revert case s. induction n as [|n IH]; intros case s Hrun.
  - injection Hrun as <-. split; [done|]. intros j x Hx. exists x.
    split; [done|]. split; [done|]. destruct (cell_type _); lia.
  - simpl in Hrun. unfold bind, get in Hrun.
    destruct (GetData_vars case 0 (variablelist s) s) as [[] s1| |] eqn:Hv;
      [|done|done].
    apply GetData_vars_lengths in Hv; [|by rewrite drop_0].
    destruct Hv as [Hlen1 Hall1].
    destruct (IH _ _ Hrun) as [Hlen Hall].
    split; [congruence|]. intros j x Hx.
    destruct (Hall1 j x Hx) as (x1 & Hx1 & Ht1 & Hl1).
    destruct (Hall j x1 Hx1) as (x' & Hx' & Ht' & Hl').
    exists x'. split; [done|]. split; [congruence|].
    rewrite Hl', Hl1, Ht1. rewrite bool_decide_eq_true_2 by lia.
    destruct (cell_type (typecode x)); lia.
Qed.

(** X15: when [GetData] returns, every variable whose type code is 0 or
    between 1 and 255 has exactly as many more values as the file
    declares cases, one per case, and every other variable has gained
    none; the registry has the same variables in the same order. *)
Theorem GetData_one_value_per_case s n :
  numcases s = Some (Tuple1 n) ->
  ending_of (GetData s) = Returned ->
  ∃ s',
    final_state (GetData s) = Some s'
    ∧ Forall2 (gained (Z.to_nat n)) (variablelist s) (variablelist s').
Proof.
  intros Hn. unfold GetData.
  erewrite bind_Ret; [|reflexivity].
  erewrite bind_Ret; [|unfold getattr; simpl; by rewrite Hn].
  erewrite bind_Ret; [|reflexivity].
  destruct (GetData_cases (Z.to_nat n) 0 (set_cluster [] s))
    as [[] s'| |] eqn:Hrun; [|done|done].
  intros _. exists s'. split; [done|].
  apply GetData_cases_lengths in Hrun. destruct Hrun as [Hlen Hall].
  apply Forall2_same_length_lookup_2; [done|].
  intros j x y Hx Hy. destruct (Hall j x Hx) as (x' & Hx' & Hg).
  simpl in Hx'. congruence.
Qed.

Lemma GetData_one_value_per_case_witness :
  ∃ s',
    final_state
      (GetData (data_state 2 [numeric_var; string_var 4; string_var 300]
                  ([byte_of 101; byte_of 150; byte_of 103; byte_of 151;
                    x00; x00; x00; x00]))) = Some s'
    ∧ Forall2 (gained (Z.to_nat 2))
        [numeric_var; string_var 4; string_var 300] (variablelist s').
Proof.
  apply (GetData_one_value_per_case
           (data_state 2 [numeric_var; string_var 4; string_var 300]
              ([byte_of 101; byte_of 150; byte_of 103; byte_of 151;
                x00; x00; x00; x00])) 2).
  - reflexivity.
  - vm_compute. reflexivity.
Defined.

(** ** Type-7 records *)

Lemma line_length_full k (w rest : bytes) :
  length w = S k -> x0a ∉ take k w -> line_length (S k) (w ++ rest) = S k.
Proof.
  revert w. induction k as [|k IH]; intros w Hl Hn.
  - destruct w as [|c [|c' w]]; try done. simpl. by case_bool_decide.
  - destruct w as [|c w]; [done|]. simpl in Hl.
    change (line_length (S (S k)) ((c :: w) ++ rest))
      with (if bool_decide (c = x0a) then 1%nat
            else S (line_length (S k) (w ++ rest))).
    simpl in Hn. apply not_elem_of_cons in Hn as [Hc Hn].
    rewrite bool_decide_eq_false_2 by done.
    f_equal. apply IH; [lia|done].
Qed.

Lemma line_length_newline k (a rest : bytes) :
  x0a ∉ a -> (length a < k)%nat ->
  line_length k (a ++ x0a :: rest) = S (length a).
Proof.
  revert k. induction a as [|c a IH]; intros k Hn Hl.
  - destruct k; [simpl in Hl; lia|]. simpl. by rewrite ?bool_decide_eq_true_2.
  - destruct k; [simpl in Hl; lia|]. simpl in *.
    rewrite bool_decide_eq_false_2.
    + f_equal. apply IH; [|lia]. intros Hin. apply Hn.
      by apply list_elem_of_further.
    + intros ->. apply Hn. apply list_elem_of_here.
Qed.

Lemma readline_app s w rest :
  fin s = Some (w ++ rest) -> length w = 8%nat -> x0a ∉ take 7 w ->
  readline 8 s = Ret w (set_fin (Some rest) s).
Proof.
  intros Hf Hl Hn. unfold readline. rewrite Hf.
  change (8 <? 0) with false. cbv beta iota zeta.
  change (Z.to_nat 8) with 8%nat.
  rewrite (line_length_full 7 w rest Hl Hn).
  rewrite <- Hl. by rewrite take_app_length, drop_app_length.
Qed.

Lemma readline_flt_app s w rest :
  fin s = Some (w ++ rest) -> length w = 8%nat -> x0a ∉ take 7 w ->
  readline_flt s = Ret w (set_fin (Some rest) s).
Proof.
  intros Hf Hl Hn. unfold readline_flt.
  erewrite bind_Ret; [|by eapply readline_app].
  unfold pkflt. by rewrite bool_decide_eq_true_2.
Qed.

(** A decidable side condition on concrete data. *)
Ltac by_decision :=
  match goal with
  | |- ?P => apply (bool_decide_unpack P); vm_compute; exact I
  end.

(** X16: a subtype-4 record with three elements of width 8 defines the
    three sentinels: [SYSMIS] becomes the float of the first word, the
    other two are stored, and the cursor stands after the third word,
    provided none of the words has a newline among its first seven
    bytes. *)
Theorem GetType74_defines_SYSMIS s dtw new w1 w2 w3 rest :
  fin s = Some (dtw ++ new ++ w1 ++ w2 ++ w3 ++ rest) ->
  length dtw = 4%nat -> length new = 4%nat ->
  int32_of dtw = 8 -> int32_of new = 3 ->
  length w1 = 8%nat -> length w2 = 8%nat -> length w3 = 8%nat ->
  x0a ∉ take 7 w1 -> x0a ∉ take 7 w2 -> x0a ∉ take 7 w3 ->
  ∃ s',
    GetType74 s = Ret tt s'
    ∧ SYSMIS s' = Some (PyFloat w1)
    ∧ attrs s' !! "himissingval"%string = Some (PyFloat w2)
    ∧ attrs s' !! "lomissingval"%string = Some (PyFloat w3)
    ∧ fin s' = Some rest
    ∧ variablelist s' = variablelist s.
Proof.
  intros Hf Hd Hn Hd8 Hn3 H1 H2 H3 N1 N2 N3. unfold GetType74.
  erewrite bind_Ret; [|by eapply read_int_app].
  erewrite bind_Ret; [|by eapply read_int_app].
  rewrite bool_decide_eq_true_2 by done.
  erewrite bind_Ret; [|by eapply readline_flt_app].
  erewrite bind_Ret; [|reflexivity].
  erewrite bind_Ret; [|by eapply readline_flt_app].
  erewrite bind_Ret; [|reflexivity].
  erewrite bind_Ret; [|by eapply readline_flt_app].
  eexists. split; [reflexivity|]. simpl.
  rewrite lookup_insert_ne by done. rewrite !lookup_insert_eq. done.
Qed.

Lemma GetType74_defines_SYSMIS_witness :
  ∃ s',
    GetType74 (opened (le32 8 ++ le32 3 ++ sysmis_word ++ nine_word ++
                       bias100 ++ record999)) = Ret tt s'
    ∧ SYSMIS s' = Some (PyFloat sysmis_word)
    ∧ attrs s' !! "himissingval"%string = Some (PyFloat nine_word)
    ∧ attrs s' !! "lomissingval"%string = Some (PyFloat bias100)
    ∧ fin s' = Some record999
    ∧ variablelist s' = [].
Proof.
  apply (GetType74_defines_SYSMIS
           (opened (le32 8 ++ le32 3 ++ sysmis_word ++ nine_word ++
                    bias100 ++ record999))
           (le32 8) (le32 3) sysmis_word nine_word bias100 record999);
    try reflexivity; by_decision.
Defined.

Lemma readline_newline s (a tail : bytes) :
  fin s = Some ((a ++ [x0a]) ++ tail) -> x0a ∉ a -> (length a < 8)%nat ->
  readline 8 s = Ret (a ++ [x0a]) (set_fin (Some tail) s).
Proof.
  intros Hf Hn Hl. unfold readline. rewrite Hf.
  change (8 <? 0) with false. cbv beta iota zeta.
  change (Z.to_nat 8) with 8%nat.
  assert (Hk : line_length 8 ((a ++ [x0a]) ++ tail) = length (a ++ [x0a])).
  { rewrite <- app_assoc. change ([x0a] ++ tail) with (x0a :: tail).
    rewrite line_length_newline by done.
    rewrite length_app. simpl. lia. }
  rewrite Hk. by rewrite take_app_length, drop_app_length.
Qed.

(** X17: the sentinels are read with [readline(8)], which stops after a
    newline.  When the first word has the byte 10 among its first seven
    bytes, the read stops there, [pkflt] gets fewer than eight bytes and
    its [0.0] is subscripted: the handler raises a [TypeError] and
    [SYSMIS] is not set. *)
Theorem GetType74_newline s dtw new a b rest :
  fin s = Some (dtw ++ new ++ (a ++ [x0a]) ++ b ++ rest) ->
  length dtw = 4%nat -> length new = 4%nat ->
  int32_of dtw = 8 -> int32_of new = 3 ->
  x0a ∉ a -> (length a < 7)%nat ->
  GetType74 s = Raise TypeError (set_fin (Some (b ++ rest)) s)
  ∧ SYSMIS (set_fin (Some (b ++ rest)) s) = SYSMIS s.
Proof.
  intros Hf Hd Hn Hd8 Hn3 Ha Hl. split; [|done]. unfold GetType74.
  erewrite bind_Ret; [|by eapply read_int_app].
  erewrite bind_Ret; [|by eapply read_int_app].
  rewrite bool_decide_eq_true_2 by done.
  unfold readline_flt. rewrite bind_assoc.
  erewrite bind_Ret; [|eapply readline_newline; [reflexivity|done|lia]].
  unfold pkflt. rewrite bool_decide_eq_false_2; [done|].
  rewrite length_app. simpl. lia.
Qed.

Lemma GetType74_newline_witness :
  GetType74 (opened (le32 8 ++ le32 3 ++ ([x00; x00] ++ [x0a]) ++
                     [x00; x00; x00; x24; x40] ++ record999))
  = Raise TypeError
      (set_fin (Some ([x00; x00; x00; x24; x40] ++ record999))
         (opened (le32 8 ++ le32 3 ++ ([x00; x00] ++ [x0a]) ++
                  [x00; x00; x00; x24; x40] ++ record999)))
  ∧ SYSMIS (set_fin (Some ([x00; x00; x00; x24; x40] ++ record999))
              (opened (le32 8 ++ le32 3 ++ ([x00; x00] ++ [x0a]) ++
                       [x00; x00; x00; x24; x40] ++ record999)))
    = SYSMIS (opened (le32 8 ++ le32 3 ++ ([x00; x00] ++ [x0a]) ++
                      [x00; x00; x00; x24; x40] ++ record999)).
Proof.
  apply (GetType74_newline _ (le32 8) (le32 3) [x00; x00]
           [x00; x00; x00; x24; x40] record999);
    try reflexivity;
    [by_decision | simpl; lia].
Defined.

(** X18: when the element count of a subtype-3 record is not 8, or a
    subtype-4 record does not have three elements of width 8, the handler
    prints its message and returns having read only the two integers:
    the elements of the record are left in the file, where the loop will
    take them for record tags. *)
Theorem GetType73_74_mismatch s dtw new rest :
  fin s = Some (dtw ++ new ++ rest) ->
  length dtw = 4%nat -> length new = 4%nat ->
  (int32_of new ≠ 8 ->
   GetType73 s =
   Ret tt (set_stdout (stdout s ++ [ErrorReading73]) (set_fin (Some rest) s)))
  ∧ (¬ (int32_of new = 3 ∧ int32_of dtw = 8) ->
     GetType74 s =
     Ret tt (set_stdout (stdout s ++ [ErrorReading74])
               (set_fin (Some rest) s))).
Proof.
  intros Hf Hd Hn. split; intros Hne.
  - unfold GetType73.
    erewrite bind_Ret; [|by eapply read_int_app].
    erewrite bind_Ret; [|by eapply read_int_app].
    by rewrite bool_decide_eq_false_2.
  - unfold GetType74.
    erewrite bind_Ret; [|by eapply read_int_app].
    erewrite bind_Ret; [|by eapply read_int_app].
    by rewrite bool_decide_eq_false_2.
Qed.

Lemma GetType73_74_mismatch_witness :
  (int32_of (le32 2) ≠ 8 ->
   GetType73 (opened (le32 4 ++ le32 2 ++ record999)) =
   Ret tt (set_stdout ([] ++ [ErrorReading73])
             (set_fin (Some record999)
                (opened (le32 4 ++ le32 2 ++ record999)))))
  ∧ (¬ (int32_of (le32 2) = 3 ∧ int32_of (le32 4) = 8) ->
     GetType74 (opened (le32 4 ++ le32 2 ++ record999)) =
     Ret tt (set_stdout ([] ++ [ErrorReading74])
               (set_fin (Some record999)
                  (opened (le32 4 ++ le32 2 ++ record999))))).
Proof.
  apply (GetType73_74_mismatch (opened (le32 4 ++ le32 2 ++ record999))
           (le32 4) (le32 2) record999); reflexivity.
Defined.

(** X19: a type-7 record of a subtype the reader does not know is kept
    as it is: the bytes of its elements, width times count of them, are
    stored under [Other7], the cursor stands at the next record, and
    the registry is untouched. *)
Theorem GetRecordType7_other s stw dtw new payload rest :
  fin s = Some (stw ++ dtw ++ new ++ payload ++ rest) ->
  length stw = 4%nat -> length dtw = 4%nat -> length new = 4%nat ->
  int32_of stw ∉ [3; 4; 5; 6; 11; 13] ->
  Z.of_nat (length payload) = int32_of dtw * int32_of new ->
  ∃ s',
    GetRecordType7 s = Ret tt s'
    ∧ attrs s' !! "Other7"%string = Some (PyStr payload)
    ∧ fin s' = Some rest
    ∧ variablelist s' = variablelist s
    ∧ rawvarlist s' = rawvarlist s.
Proof.
  intros Hf Hs Hd Hn Hst Hp. unfold GetRecordType7.
  erewrite bind_Ret; [|by eapply read_int_app].
  rewrite !not_elem_of_cons in Hst. destruct Hst as (?&?&?&?&?&?&_).
  rewrite !bool_decide_eq_false_2 by done.
  unfold GetType7other.
  erewrite bind_Ret; [|by eapply read_int_app].
  erewrite bind_Ret; [|by eapply read_int_app].
  erewrite bind_Ret; [|eapply read_app; [reflexivity|lia|lia]].
  eexists. split; [reflexivity|]. simpl. by rewrite lookup_insert_eq.
Qed.

Lemma GetRecordType7_other_witness :
  ∃ s',
    GetRecordType7 (opened (le32 20 ++ le32 1 ++ le32 8 ++ nine_word ++
                            record999)) = Ret tt s'
    ∧ attrs s' !! "Other7"%string = Some (PyStr nine_word)
    ∧ fin s' = Some record999
    ∧ variablelist s' = []
    ∧ rawvarlist s' = [].
Proof.
  apply (GetRecordType7_other
           (opened (le32 20 ++ le32 1 ++ le32 8 ++ nine_word ++ record999))
           (le32 20) (le32 1) (le32 8) nine_word record999);
    try reflexivity; by_decision.
Defined.

(** X20: a size that is negative makes [read] take the whole rest of the
    file.  A record of an unknown subtype whose width times count is
    negative swallows everything that follows it: it is all stored under
    [Other7] and the file is at its end. *)
Theorem GetType7other_negative_size s dtw new rest :
  fin s = Some (dtw ++ new ++ rest) ->
  length dtw = 4%nat -> length new = 4%nat ->
  int32_of dtw * int32_of new < 0 ->
  ∃ s',
    GetType7other s = Ret tt s'
    ∧ attrs s' !! "Other7"%string = Some (PyStr rest)
    ∧ fin s' = Some [].
Proof.
  intros Hf Hd Hn Hneg. unfold GetType7other.
  erewrite bind_Ret; [|by eapply read_int_app].
  erewrite bind_Ret; [|by eapply read_int_app].
  unfold bind at 1, read. cbn [fin set_fin].
  destruct (Z.ltb_spec (int32_of dtw * int32_of new) 0); [|lia].
  rewrite firstn_all, skipn_all.
  eexists. split; [reflexivity|]. simpl. by rewrite lookup_insert_eq.
Qed.

Lemma GetType7other_negative_size_witness :
  ∃ s',
    GetType7other (opened (le32 (-1) ++ le32 8 ++ record999)) = Ret tt s'
    ∧ attrs s' !! "Other7"%string = Some (PyStr record999)
    ∧ fin s' = Some [].
Proof.
  apply (GetType7other_negative_size
           (opened (le32 (-1) ++ le32 8 ++ record999))
           (le32 (-1)) (le32 8) record999); reflexivity.
Defined.

Lemma read_int_cases s l :
  fin s = Some l ->
  (∃ n, read_int s = Ret n (set_fin (Some (drop 4 l)) s))
  ∨ read_int s = Raise TypeError (set_fin (Some (drop 4 l)) s).
Proof.
  intros Hf. unfold read_int.
  erewrite bind_Ret; [|by eapply read_take].
  unfold pkint. case_bool_decide; [left; by eexists | by right].
Qed.

(** X21: a subtype-6 record that declares at least one date variable
    cannot be read.  [GetDateVar] is handed the four bytes read, a
    string, and indexes its list of names with it: the [TypeError] is
    not the [IndexError] it catches, so the handler raises it and
    [datevars] stays as it was. *)
Theorem GetType76_date_variables s w1 w2 w3 w4 w5 w6 w7 w8 rest :
  fin s = Some (w1 ++ w2 ++ w3 ++ w4 ++ w5 ++ w6 ++ w7 ++ w8 ++ rest) ->
  length w1 = 4%nat -> length w2 = 4%nat -> length w3 = 4%nat ->
  length w4 = 4%nat -> length w5 = 4%nat -> length w6 = 4%nat ->
  length w7 = 4%nat -> length w8 = 4%nat ->
  1 <= int32_of w5 ->
  ∃ s', GetType76 s = Raise TypeError s' ∧ datevars s' = datevars s.
Proof.
  intros Hf H1 H2 H3 H4 H5 H6 H7 H8 Hn. unfold GetType76.
  erewrite bind_Ret; [|by eapply read_int_app].
  erewrite bind_Ret; [|by eapply read_int_app].
  do 6 (erewrite bind_Ret; [|by eapply read_int_app];
        erewrite bind_Ret; [|reflexivity]).
  destruct (Z.to_nat (int32_of w5)) as [|k] eqn:Hk; [lia|].
  simpl read_datevars.
  match goal with |- context [bind read_int _ ?s0] =>
    destruct (read_int_cases s0 rest eq_refl) as [[n Hr]|Hr] end.
  - erewrite bind_Ret; [|exact Hr].
    erewrite bind_Ret; [|by eapply read_take].
    eexists. split; reflexivity.
  - erewrite bind_Raise; [|exact Hr]. eexists. split; reflexivity.
Qed.

Lemma GetType76_date_variables_witness :
  ∃ s',
    GetType76 (opened (le32 4 ++ le32 7 ++ le32 0 ++ le32 12 ++ le32 1 ++
                       le32 1 ++ le32 1 ++ le32 0 ++
                       le32 3 ++ le32 3 ++ le32 0))
    = Raise TypeError s'
    ∧ datevars s' = datevars (opened (le32 4 ++ le32 7 ++ le32 0 ++
                                      le32 12 ++ le32 1 ++ le32 1 ++
                                      le32 1 ++ le32 0 ++
                                      le32 3 ++ le32 3 ++ le32 0)).
Proof.
  apply (GetType76_date_variables _ (le32 4) (le32 7) (le32 0) (le32 12)
           (le32 1) (le32 1) (le32 1) (le32 0)
           (le32 3 ++ le32 3 ++ le32 0));
    first [reflexivity | vm_compute; discriminate].
Defined.

(** ** Raw cells *)

(** X22: the control byte 253 of a numeric cell takes the next eight
    bytes of the file, not of the cluster, as the float.  When the file
    is at its end the cell is the string [False]; when one to seven
    bytes are left they are consumed and [pkflt(IN)[0]] raises a
    [TypeError]. *)
Theorem GetNumber_raw_float s sw s1 l :
  compressionswitch s = Some (Tuple1 sw) ->
  next_byte s = Ret 253 s1 ->
  fin s1 = Some l ->
  ((8 <= length l)%nat ->
   GetNumber s = Ret (PyFloat (take 8 l)) (set_fin (Some (drop 8 l)) s1))
  ∧ (l = [] -> GetNumber s = Ret (PyStr (lit "False")) (set_fin (Some []) s1))
  ∧ ((0 < length l < 8)%nat ->
     GetNumber s = Raise TypeError (set_fin (Some []) s1)).
Proof.
  intros Hsw Hb Hf. unfold GetNumber.
  erewrite bind_Ret; [|unfold getattr; by rewrite Hsw]. simpl.
  erewrite bind_Ret; [|exact Hb]. simpl.
  erewrite bind_Ret; [|by eapply read_take].
  change (Z.to_nat 8) with 8%nat.
  repeat split.
  - intros Hl. rewrite bool_decide_eq_false_2
      by (rewrite length_take; lia).
    unfold pkflt. rewrite bool_decide_eq_true_2 by (rewrite length_take; lia).
    done.
  - intros ->. done.
  - intros Hl. rewrite bool_decide_eq_false_2
      by (rewrite length_take; lia).
    unfold pkflt. rewrite bool_decide_eq_false_2
      by (rewrite length_take; lia).
    rewrite drop_ge by lia. done.
Qed.

Lemma GetNumber_raw_float_witness :
  ((8 <= length nine_word)%nat ->
   GetNumber (compressed_state [253; 7] nine_word) =
   Ret (PyFloat (take 8 nine_word))
     (set_fin (Some (drop 8 nine_word)) (compressed_state [7] nine_word)))
  ∧ (nine_word = [] ->
     GetNumber (compressed_state [253; 7] nine_word) =
     Ret (PyStr (lit "False"))
       (set_fin (Some []) (compressed_state [7] nine_word)))
  ∧ ((0 < length nine_word < 8)%nat ->
     GetNumber (compressed_state [253; 7] nine_word) =
     Raise TypeError (set_fin (Some []) (compressed_state [7] nine_word))).
Proof.
  apply (GetNumber_raw_float (compressed_state [253; 7] nine_word) 1
           (compressed_state [7] nine_word) nine_word); reflexivity.
Defined.


(** ** Value labels *)

Lemma py_pos_length {A B} (l : list A) (k : list B) i :
  length l = length k -> py_pos l i = py_pos k i.
Proof. intros H. unfold py_pos. by rewrite H. Qed.

Lemma foldl_alter_labels vs fs targets (vl : list variable) :
  foldl (fun vl k => alter (var_set_labels vs fs) k vl) vl targets
  = with_labels vs fs targets vl.
Proof.
  revert vl. induction targets as [|k t IH]; intros vl; simpl.
  - apply list_eq. intros j. unfold with_labels.
    rewrite list_lookup_imap. by destruct (vl !! j).
  - rewrite IH. apply list_eq. intros j. unfold with_labels.
    rewrite !list_lookup_imap.
    destruct (decide (k = j)) as [->|Hne].
    + rewrite list_lookup_alter_eq. destruct (vl !! j) as [x|]; simpl; [|done].
      rewrite (bool_decide_eq_true_2 (j ∈ j :: t)) by apply list_elem_of_here.
      by case_bool_decide.
    + rewrite list_lookup_alter_ne by done.
      destruct (vl !! j) as [x|]; simpl; [|done].
      rewrite (bool_decide_ext (j ∈ k :: t) (j ∈ t)); [done|].
      rewrite elem_of_cons. split; [by intros [->|]|by right].
Qed.

(** On a length that is not a multiple of eight the handler's rounding
    gives the size of the text field. *)
Lemma pair_text_length p :
  pair_ok p -> not_multiple_of_eight p ->
  Z.of_nat (length (pair_text p))
  = ord (pair_length p) + 8 - ord (pair_length p) `mod` 8 - 1.
Proof.
  unfold pair_ok, not_multiple_of_eight. intros (_ & Hl & Hm) Ho.
  revert Hl Hm Ho. generalize (Z.of_nat (length (pair_text p))).
  generalize (ord (pair_length p)). intros o L Hl Hm Ho.
  Z.div_mod_to_equations. lia.
Qed.

Lemma read_pairs_run ps rest s values fields :
  Forall pair_ok ps -> Forall not_multiple_of_eight ps ->
  fin s = Some (concat (map pair_bytes ps) ++ rest) ->
  read_labels (length ps) values fields s =
  Ret (values ++ map (fun p => PyFloat (pair_value p)) ps,
       fields ++ map (fun p => PyStr (pair_text p)) ps)
      (set_fin (Some rest) s).
Proof.
  intros Hok Hodd. revert s values fields.
  induction Hok as [|p ps Hp _ IH];
    intros s values fields Hf; simpl read_labels.
  - rewrite !app_nil_r. unfold ret. f_equal. symmetry. by apply set_fin_id.
  - apply Forall_cons in Hodd as [Ho Hodd].
    pose proof (pair_text_length p Hp Ho) as Ht.
    destruct Hp as (Hv & _ & _). unfold not_multiple_of_eight in Ho.
    specialize (IH Hodd).
    simpl in Hf. unfold pair_bytes in Hf. rewrite <- !app_assoc in Hf.
    assert (Hflt : read_flt s =
              Ret (pair_value p)
                (set_fin (Some ([pair_length p] ++ pair_text p ++
                                concat (map pair_bytes ps) ++ rest)) s)).
    { unfold read_flt. erewrite bind_Ret; [|by eapply read_app].
      unfold pkflt. by rewrite bool_decide_eq_true_2. }
    erewrite bind_Ret; [|exact Hflt].
    erewrite bind_Ret; [|by eapply read_app].
    cbn [ord1 bind ret].
    rewrite bool_decide_eq_true_2 by done.
    pose proof (ord_range (pair_length p)).
    erewrite bind_Ret; [|eapply read_app; [reflexivity|lia|lia]].
    rewrite (IH (set_fin (Some (concat (map pair_bytes ps) ++ rest)) s))
      by done.
    rewrite !set_fin_set_fin, pkstr_id. simpl map.
    by rewrite <- !app_assoc.
Qed.

Lemma read_ints_run ws rest s acc :
  Forall (fun w => length w = 4%nat) ws ->
  fin s = Some (concat ws ++ rest) ->
  read_ints (length ws) acc s =
  Ret (acc ++ map int32_of ws) (set_fin (Some rest) s).
Proof.
  intros Hok. revert s acc.
  induction Hok as [|w ws Hw _ IH]; intros s acc Hf; simpl read_ints.
  - rewrite app_nil_r. unfold ret. f_equal. symmetry. by apply set_fin_id.
  - simpl in Hf. rewrite <- app_assoc in Hf.
    erewrite bind_Ret; [|by eapply read_int_app].
    rewrite (IH (set_fin (Some (concat ws ++ rest)) s)) by done.
    rewrite set_fin_set_fin. simpl map. by rewrite <- app_assoc.
Qed.

Lemma attach_labels_run inds targets vs fs s :
  Forall2 (fun i k =>
    label_target (rawvarlist s) (length (variablelist s)) i = Some k)
    inds targets ->
  attach_labels inds vs fs s =
  Ret tt (set_variablelist (with_labels vs fs targets (variablelist s)) s).
Proof.
  rewrite <- foldl_alter_labels.
  revert targets s. induction inds as [|i inds IH]; intros targets s H.
  - apply Forall2_nil_inv_l in H as ->. simpl. unfold ret.
    by destruct s.
  - apply Forall2_cons_inv_l in H as (k & t & Hik & Ht & ->).
    simpl attach_labels. unfold bind at 1, get.
    unfold label_target in Hik.
    destruct (py_index (rawvarlist s) (i - 1)) as [[ind|]|]; try done.
    unfold bind at 1.
    rewrite (py_pos_length (variablelist s)
               (replicate (length (variablelist s)) tt))
      by by rewrite length_replicate.
    rewrite Hik. unfold bind at 1, modify.
    rewrite (IH t); simpl.
    + done.
    + by rewrite length_alter.
Qed.

(** X23: a type-3 record followed by its type-4 record attaches the
    labels, provided no label has a length that is a multiple of eight.
    When each pair is an 8-byte value, a length byte and the label
    padded so that byte and text fill a multiple of eight bytes, no
    length byte is 0, 8, 16, ..., the tag after the pairs is 4 and every
    raw index of the type-4 record stands for a variable of the
    registry, [GetRecordType3] returns at the byte after the last
    index; exactly the variables the indices stand for have got the
    list of the 8-byte values as [labelvalues] and the list of the text
    fields, padding included, as [labelfields], in the order of the
    file, and every other variable and the raw index list are as they
    were. *)
Theorem GetRecordType3_attaches s countw ps tw nvw ws rest targets :
  length countw = 4%nat -> Z.to_nat (int32_of countw) = length ps ->
  Forall pair_ok ps -> Forall not_multiple_of_eight ps ->
  length tw = 4%nat -> int32_of tw = 4 ->
  length nvw = 4%nat -> Z.to_nat (int32_of nvw) = length ws ->
  Forall (fun w => length w = 4%nat) ws ->
  Forall2 (fun w k =>
    label_target (rawvarlist s) (length (variablelist s)) (int32_of w)
    = Some k) ws targets ->
  fin s = Some (countw ++ concat (map pair_bytes ps) ++ tw ++ nvw ++
                concat ws ++ rest) ->
  ∃ s',
    GetRecordType3 s = Ret tt s'
    ∧ fin s' = Some rest
    ∧ variablelist s' =
        with_labels (map (fun p => PyFloat (pair_value p)) ps)
          (map (fun p => PyStr (pair_text p)) ps) targets (variablelist s)
    ∧ rawvarlist s' = rawvarlist s.
Proof.
  intros Hcw Hn Hok Hodd Htw Ht4 Hnvw Hnv Hws Htg Hf. unfold GetRecordType3.
  erewrite bind_Ret; [|reflexivity].
  erewrite bind_Ret; [|reflexivity].
  erewrite bind_Ret; [|by eapply read_int_app].
  rewrite Hn.
  erewrite bind_Ret; [|by eapply read_pairs_run].
  erewrite bind_Ret; [|by eapply read_int_app].
  rewrite Ht4, bool_decide_eq_true_2 by done.
  erewrite bind_Ret; [|by eapply read_int_app].
  rewrite Hnv.
  erewrite bind_Ret; [|by eapply read_ints_run].
  cbn [fst snd app].
  erewrite attach_labels_run.
  - eexists. split; [reflexivity|]. done.
  - eapply Forall2_fmap_l, Forall2_impl; [exact Htg|]. done.
Qed.

Lemma GetRecordType3_attaches_witness :
  ∃ s',
    GetRecordType3
      (two_var_state (le32 1 ++ concat (map pair_bytes [sample_pair]) ++
                      le32 4 ++ le32 1 ++ concat [le32 2] ++ record999))
    = Ret tt s'
    ∧ fin s' = Some record999
    ∧ variablelist s' =
        with_labels (map (fun p => PyFloat (pair_value p)) [sample_pair])
          (map (fun p => PyStr (pair_text p)) [sample_pair]) [1%nat]
          (variablelist
             (two_var_state
                (le32 1 ++ concat (map pair_bytes [sample_pair]) ++
                 le32 4 ++ le32 1 ++ concat [le32 2] ++ record999)))
    ∧ rawvarlist s' =
        rawvarlist
          (two_var_state
             (le32 1 ++ concat (map pair_bytes [sample_pair]) ++
              le32 4 ++ le32 1 ++ concat [le32 2] ++ record999)).
Proof.
  apply (GetRecordType3_attaches
           (two_var_state (le32 1 ++ concat (map pair_bytes [sample_pair]) ++
                           le32 4 ++ le32 1 ++ concat [le32 2] ++ record999))
           (le32 1) [sample_pair] (le32 4) (le32 1) [le32 2] record999
           [1%nat]).
  - reflexivity.
  - reflexivity.
  - constructor; [|constructor].
    repeat split; vm_compute; first [reflexivity | discriminate].
  - constructor; [|constructor]. vm_compute. discriminate.
  - reflexivity.
  - reflexivity.
  - reflexivity.
  - reflexivity.
  - repeat constructor.
  - repeat constructor.
  - reflexivity.
Defined.


(** ** The registry during the read of the dictionary *)

#[local] Instance registry_extends_refl : Reflexive registry_extends.
Proof. by intros s. Qed.

#[local] Instance registry_extends_trans : Transitive registry_extends.
Proof.
  intros s1 s2 s3 (? & ? & ?) (? & ? & ?).
  split; [by etrans|]. split; [by etrans|]. auto.
Qed.

Lemma relates_impl {A} (R1 R2 : SPSSFile -> SPSSFile -> Prop) (m : M A) :
  (∀ s s', R1 s s' -> R2 s s') -> relates R1 m -> relates R2 m.
Proof.
  intros HR Hm s. specialize (Hm s). destruct (m s); auto.
Qed.

Lemma registry_extends_same s s' :
  variablelist s' = variablelist s -> rawvarlist s' = rawvarlist s ->
  registry_extends s s'.
Proof.
  intros Hv Hr. unfold registry_extends, indices_valid.
  by rewrite Hv, Hr.
Qed.

Lemma var_core_alter f k (vl : list variable) :
  (∀ x, var_core (f x) = var_core x) ->
  map var_core (alter f k vl) = map var_core vl.
Proof.
  intros Hf. apply list_eq. intros j. rewrite !list_lookup_fmap.
  destruct (decide (k = j)) as [->|Hne].
  - rewrite list_lookup_alter_eq. destruct (vl !! j); simpl; [|done].
    by rewrite Hf.
  - by rewrite list_lookup_alter_ne.
Qed.

Lemma registry_extends_alter f k s :
  (∀ x, var_core (f x) = var_core x) ->
  registry_extends s (set_variablelist (alter f k (variablelist s)) s).
Proof.
  intros Hf. unfold registry_extends, indices_valid. simpl.
  by rewrite var_core_alter, length_alter.
Qed.

Lemma registry_extends_columns s s' : columns_grow s s' -> registry_extends s s'.
Proof.
  intros (Hd & Hr & _). unfold registry_extends, indices_valid.
  rewrite Hr, <- (Forall2_length _ _ _ Hd).
  split; [|done].
  assert (map var_core (variablelist s) = map var_core (variablelist s'))
    as ->; [|done].
  induction Hd as [|x y l k [Hy _] _ IH]; [done|].
  simpl. rewrite IH. f_equal. rewrite Hy. by destruct x.
Qed.

Lemma py_index_elem_of {A} (l : list A) i e : py_index l i = Some e -> e ∈ l.
Proof.
  unfold py_index. destruct (py_pos l i); [|done].
  apply list_elem_of_lookup_2.
Qed.

Lemma registry_extends_continuation s :
  registry_extends s
    (set_rawvarlist
       (rawvarlist s ++ [default None (py_index (rawvarlist s) (-1))]) s).
Proof.
  unfold registry_extends, indices_valid. simpl.
  split; [done|]. split; [by apply prefix_app_r|].
  intros Hv. apply Forall_app. split; [done|].
  apply Forall_singleton.
  destruct (py_index (rawvarlist s) (-1)) as [e|] eqn:E; simpl; [|done].
  apply py_index_elem_of in E. by eapply Forall_forall in Hv.
Qed.

(** [self.variablelist.append(x)] and then
    [self.rawvarlist.append(len(self.variablelist))]. *)
Lemma registry_extends_register x :
  relates registry_extends
    (run modify (fun s => set_variablelist (variablelist s ++ [x]) s);
     modify (fun s =>
       set_rawvarlist
         (rawvarlist s ++ [Some (Z.of_nat (length (variablelist s)))]) s)).
Proof.
  intros s. unfold bind, modify. unfold registry_extends, indices_valid.
  simpl. rewrite map_app, length_app. simpl.
  split; [by apply prefix_app_r|]. split; [by apply prefix_app_r|].
  intros Hv. apply Forall_app. split.
  - eapply Forall_impl; [exact Hv|]. intros [ind|]; [lia|done].
  - apply Forall_singleton. lia.
Qed.

Ltac registry_frame :=
  intros;
  first [ apply registry_extends_same; reflexivity
        | apply registry_extends_alter; by intros []
        | apply registry_extends_continuation ].

Ltac registry_step :=
  first [ apply registry_extends_register | relates_step registry_frame ].

Ltac registry := repeat registry_step.

Lemma registry_extends_read_int : relates registry_extends read_int.
Proof. unfold read_int. registry. Qed.

Lemma registry_extends_read_flt : relates registry_extends read_flt.
Proof. unfold read_flt. registry. Qed.

Lemma registry_extends_GetRecordType1 : relates registry_extends GetRecordType1.
Proof. unfold GetRecordType1. registry. Qed.

Lemma registry_extends_skip_words n : relates registry_extends (skip_words n).
Proof. induction n; simpl; registry. Qed.

Lemma registry_extends_read_missing n tmpmiss :
  relates registry_extends (read_missing n tmpmiss).
Proof.
  pose proof registry_extends_read_flt.
  revert tmpmiss. induction n; intros tmpmiss; simpl; registry.
Qed.

Lemma registry_extends_read_missing_values x :
  relates registry_extends (read_missing_values x).
Proof.
  pose proof registry_extends_read_flt.
  pose proof registry_extends_read_missing.
  unfold read_missing_values. registry.
Qed.

Lemma registry_extends_GetRecordType2 : relates registry_extends GetRecordType2.
Proof.
  pose proof registry_extends_read_int.
  pose proof registry_extends_skip_words.
  pose proof registry_extends_read_missing_values.
  unfold GetRecordType2. registry.
Qed.

Lemma registry_extends_read_labels n values fields :
  relates registry_extends (read_labels n values fields).
Proof.
  pose proof registry_extends_read_flt.
  revert values fields. induction n; intros values fields; simpl; registry.
Qed.

Lemma registry_extends_read_ints n acc :
  relates registry_extends (read_ints n acc).
Proof.
  pose proof registry_extends_read_int.
  revert acc. induction n; intros acc; simpl; registry.
Qed.

Lemma registry_extends_attach_labels inds vs fs :
  relates registry_extends (attach_labels inds vs fs).
Proof.
  induction inds as [|i inds IH]; intros s; simpl; [done|].
  unfold bind at 1, get.
  destruct (py_index (rawvarlist s) (i - 1)) as [[ind|]|]; [|done|done].
  unfold bind at 1.
  destruct (py_pos (variablelist s) (ind - 1)) as [k|]; [|done].
  unfold bind at 1, modify.
  specialize (IH (set_variablelist
                    (alter (var_set_labels vs fs) k (variablelist s)) s)).
  assert (registry_extends s
            (set_variablelist
               (alter (var_set_labels vs fs) k (variablelist s)) s))
    by (apply registry_extends_alter; by intros []).
  destruct (attach_labels inds vs fs _); [| |done]; by etrans.
Qed.

Lemma registry_extends_GetRecordType3 : relates registry_extends GetRecordType3.
Proof.
  pose proof registry_extends_read_int.
  pose proof registry_extends_read_labels.
  pose proof registry_extends_read_ints.
  pose proof registry_extends_attach_labels.
  unfold GetRecordType3. registry.
Qed.

Lemma registry_extends_read_datevars n :
  relates registry_extends (read_datevars n).
Proof.
  pose proof registry_extends_read_int.
  induction n; simpl; [registry|].
  unfold GetDateVar. registry.
Qed.

Lemma registry_extends_read_measures n ind datatype :
  relates registry_extends (read_measures n ind datatype).
Proof.
  revert ind. induction n; intros ind; simpl; [registry|].
  unfold var_assign. registry.
Qed.

Lemma registry_extends_GetRecordType7 : relates registry_extends GetRecordType7.
Proof.
  pose proof registry_extends_read_int.
  pose proof registry_extends_read_flt.
  pose proof registry_extends_read_datevars.
  pose proof registry_extends_read_measures.
  unfold GetRecordType7, GetType73, GetType74, GetType75, GetType76,
    GetType711, GetType713, GetType7other, readline_flt.
  registry.
Qed.

Lemma registry_extends_GetData : relates registry_extends GetData.
Proof.
  apply (relates_impl columns_grow); [apply registry_extends_columns|].
  pose proof columns_grow_GetData_cases.
  unfold GetData. relates_with columns_frame.
Qed.

Lemma registry_extends_GetRecords_loop fuel :
  relates registry_extends (GetRecords_loop fuel).
Proof.
  pose proof registry_extends_read_int.
  pose proof registry_extends_GetRecordType2.
  pose proof registry_extends_GetRecordType3.
  pose proof registry_extends_GetRecordType7.
  pose proof registry_extends_GetData.
  induction fuel as [|fuel IH]; simpl; [by intros ?|].
  registry.
Qed.

Lemma registry_extends_GetRecords : relates registry_extends GetRecords.
Proof.
  unfold GetRecords. apply relates_bind; [tc_solve| |intros _].
  - apply registry_extends_GetRecordType1.
  - intros s. apply registry_extends_GetRecords_loop.
Qed.

(** X24: the read of a file only extends the registry.  However
    [GetRecords] ends, by returning or by an exception, and it always
    ends, the variables that were registered before are still there, in
    the same order and with the name, label, type code, markers and
    missing values their records gave them; the raw index list has only
    got longer; and if every integer of the raw index list was the
    1-based position of a registered variable before, as on a new
    object where the list is empty, this is so afterwards. *)
Theorem GetRecords_keeps_registry s :
  indices_valid s ->
  ∃ s',
    final_state (GetRecords s) = Some s'
    ∧ map var_core (variablelist s) `prefix_of` map var_core (variablelist s')
    ∧ rawvarlist s `prefix_of` rawvarlist s'
    ∧ indices_valid s'.
Proof.
  intros Hv.
  pose proof (GetRecords_ends s) as He.
  pose proof (registry_extends_GetRecords s) as Hr.
  destruct (GetRecords s) as [[] s'|e s'|]; [| |done];
    exists s'; destruct Hr as (? & ? & ?); auto.
Qed.

Lemma GetRecords_keeps_registry_witness :
  ∃ s',
    final_state (GetRecords (opened two_by_two_file)) = Some s'
    ∧ map var_core (variablelist (opened two_by_two_file))
        `prefix_of` map var_core (variablelist s')
    ∧ rawvarlist (opened two_by_two_file) `prefix_of` rawvarlist s'
    ∧ indices_valid s'.
Proof.
  apply (GetRecords_keeps_registry (opened two_by_two_file)).
  apply Forall_nil_2.
Defined.

(** ** Labels whose length is a multiple of eight *)

Lemma bind_congr {A B} (m : M A) (k h : A -> M B) s :
  (∀ a s', k a s' = h a s') -> bind m k s = bind m h s.
Proof. intros H. unfold bind. destruct (m s); auto. Qed.

Lemma read_labels_add n m values fields s :
  read_labels (n + m) values fields s =
  bind (read_labels n values fields)
    (fun vf => read_labels m vf.1 vf.2) s.
Proof.
  revert values fields s. induction n as [|n IH]; intros values fields s;
    [reflexivity|].
  cbn [Nat.add read_labels].
  rewrite bind_assoc. apply bind_congr. intros IN s1.
  rewrite bind_assoc. apply bind_congr. intros c s2.
  rewrite bind_assoc. apply bind_congr. intros l s3.
  rewrite bind_assoc. apply bind_congr. intros IN' s4.
  apply IH.
Qed.

Lemma label_end_length p :
  pair_ok p -> 0 < ord (pair_length p) -> ord (pair_length p) `mod` 8 = 0 ->
  length (label_end p) = 8%nat.
Proof.
  unfold pair_ok, label_end. intros (_ & Hl & Hm) Hpos H8.
  rewrite length_drop.
  revert Hl Hm Hpos H8. generalize (length (pair_text p)).
  generalize (ord (pair_length p)). intros o L Hl Hm Hpos H8.
  Z.div_mod_to_equations. lia.
Qed.

(** The round of the loop on a pair whose label has a length that is a
    positive multiple of eight: the text is read one byte short of the
    label, and [label_end] stays in the file. *)
Lemma read_labels_eight p rest s values fields :
  pair_ok p -> 0 < ord (pair_length p) -> ord (pair_length p) `mod` 8 = 0 ->
  fin s = Some (pair_bytes p ++ rest) ->
  read_labels 1 values fields s =
  Ret (values ++ [PyFloat (pair_value p)],
       fields ++ [PyStr (take (Z.to_nat (ord (pair_length p) - 1))
                           (pair_text p))])
      (set_fin (Some (label_end p ++ rest)) s).
Proof.
  intros (Hv & Hl & _) Hpos H8 Hf. cbn [read_labels].
  unfold pair_bytes in Hf. rewrite <- !app_assoc in Hf.
  assert (Hflt : read_flt s =
            Ret (pair_value p)
              (set_fin (Some ([pair_length p] ++ pair_text p ++ rest)) s)).
  { unfold read_flt. erewrite bind_Ret; [|by eapply read_app].
    unfold pkflt. by rewrite bool_decide_eq_true_2. }
  erewrite bind_Ret; [|exact Hflt].
  erewrite bind_Ret; [|by eapply read_app].
  cbn [ord1 bind ret].
  rewrite bool_decide_eq_false_2 by (intros ?; done).
  erewrite bind_Ret; [|eapply read_take; [reflexivity|lia]].
  rewrite take_app_le, drop_app_le by lia.
  by rewrite pkstr_id, !set_fin_set_fin.
Qed.

(** X25: a label whose length is a positive multiple of eight makes
    [GetRecordType3] lose its place.  The handler rounds the length
    itself up to a multiple of eight and reads one byte less, so of the
    text field of such a label, which is eight bytes longer, it leaves
    the last character of the label and the padding unread.  When the
    pair is the last of the record, the tag of the type-4 record is
    taken from that character and three bytes of padding; unless these
    happen to encode 4 the handler prints the message about the
    subtype and returns with no label attached, four bytes of padding
    and the whole type-4 record still unread. *)
Theorem GetRecordType3_label_of_eight s countw ps p rest :
  length countw = 4%nat ->
  Z.to_nat (int32_of countw) = (length ps + 1)%nat ->
  Forall pair_ok ps -> Forall not_multiple_of_eight ps ->
  pair_ok p -> 0 < ord (pair_length p) -> ord (pair_length p) `mod` 8 = 0 ->
  int32_of (take 4 (label_end p)) ≠ 4 ->
  fin s = Some (countw ++ concat (map pair_bytes ps) ++ pair_bytes p ++ rest) ->
  ∃ s',
    GetRecordType3 s = Ret tt s'
    ∧ stdout s' = stdout s ++ [InvalidSubtype (int32_of (take 4 (label_end p)))]
    ∧ variablelist s' = variablelist s
    ∧ fin s' = Some (drop 4 (label_end p) ++ rest).
Proof.
  intros Hcw Hn Hok Hodd Hp Hpos H8 Ht Hf.
  pose proof (label_end_length p Hp Hpos H8) as He.
  unfold GetRecordType3.
  erewrite bind_Ret; [|reflexivity].
  erewrite bind_Ret; [|reflexivity].
  erewrite bind_Ret; [|by eapply read_int_app].
  rewrite Hn.
  erewrite bind_Ret;
    [|rewrite read_labels_add;
      erewrite bind_Ret; [|by eapply read_pairs_run];
      by eapply read_labels_eight].
  erewrite bind_Ret;
    [|eapply (read_int_app _ (take 4 (label_end p))
                (drop 4 (label_end p) ++ rest));
      [cbn [fin set_fin]; by rewrite app_assoc, take_drop
      |rewrite length_take; lia]].
  rewrite bool_decide_eq_false_2 by done.
  eexists. split; [reflexivity|]. done.
Qed.

Lemma GetRecordType3_label_of_eight_witness :
  ∃ s',
    GetRecordType3
      (two_var_state (le32 2 ++ concat (map pair_bytes [sample_pair]) ++
                      pair_bytes eight_pair ++
                      le32 4 ++ le32 1 ++ le32 2 ++ record999))
    = Ret tt s'
    ∧ stdout s' =
        stdout
          (two_var_state (le32 2 ++ concat (map pair_bytes [sample_pair]) ++
                          pair_bytes eight_pair ++
                          le32 4 ++ le32 1 ++ le32 2 ++ record999))
        ++ [InvalidSubtype (int32_of (take 4 (label_end eight_pair)))]
    ∧ variablelist s' =
        variablelist
          (two_var_state (le32 2 ++ concat (map pair_bytes [sample_pair]) ++
                          pair_bytes eight_pair ++
                          le32 4 ++ le32 1 ++ le32 2 ++ record999))
    ∧ fin s' =
        Some (drop 4 (label_end eight_pair) ++
              le32 4 ++ le32 1 ++ le32 2 ++ record999).
Proof.
  apply (GetRecordType3_label_of_eight
           (two_var_state (le32 2 ++ concat (map pair_bytes [sample_pair]) ++
                           pair_bytes eight_pair ++
                           le32 4 ++ le32 1 ++ le32 2 ++ record999))
           (le32 2) [sample_pair] eight_pair
           (le32 4 ++ le32 1 ++ le32 2 ++ record999)).
  - reflexivity.
  - reflexivity.
  - constructor; [|constructor].
    repeat split; vm_compute; first [reflexivity | discriminate].
  - constructor; [|constructor]. vm_compute. discriminate.
  - repeat split; vm_compute; first [reflexivity | discriminate].
  - reflexivity.
  - reflexivity.
  - vm_compute. discriminate.
  - reflexivity.
Defined.

(** ** Empty labels *)

Lemma read_int_short s l :
  fin s = Some l -> (length l < 4)%nat ->
  read_int s = Raise TypeError (set_fin (Some []) s).
Proof.
  intros Hf Hl. unfold read_int.
  erewrite bind_Ret; [|by apply read_take].
  change (Z.to_nat 4) with 4%nat.
  rewrite take_ge, drop_ge by lia.
  unfold pkint. rewrite bool_decide_eq_false_2 by lia. done.
Qed.

Lemma read_all s l n :
  fin s = Some l -> n < 0 -> read n s = Ret l (set_fin (Some []) s).
Proof.
  intros Hf Hn. unfold read. rewrite Hf.
  destruct (Z.ltb_spec n 0); [|lia].
  by rewrite firstn_all, drop_all.
Qed.

(** The round of the loop on a pair with the length byte 0, with [k]
    rounds to follow: [read(-1)] takes all that is left of the file as
    the text, and the next value, if there is one, is read from the
    empty rest. *)
Lemma read_labels_empty_label k v more s values fields :
  length v = 8%nat -> fin s = Some (v ++ [x00] ++ more) ->
  read_labels (S k) values fields s =
  match k with
  | O => Ret (values ++ [PyFloat v], fields ++ [PyStr more])
           (set_fin (Some []) s)
  | S _ => Raise TypeError (set_fin (Some []) s)
  end.
Proof.
  intros Hv Hf. cbn [read_labels].
  assert (Hflt : read_flt s = Ret v (set_fin (Some ([x00] ++ more)) s)).
  { unfold read_flt. erewrite bind_Ret; [|by eapply read_app].
    unfold pkflt. by rewrite bool_decide_eq_true_2. }
  erewrite bind_Ret; [|exact Hflt].
  erewrite bind_Ret; [|by eapply read_app].
  cbn [ord1 bind ret].
  change (ord x00) with 0.
  rewrite bool_decide_eq_false_2 by (intros ?; done).
  erewrite bind_Ret; [|eapply read_all; [reflexivity|lia]].
  rewrite pkstr_id, !set_fin_set_fin.
  destruct k as [|k]; [done|]. cbn [read_labels].
  erewrite bind_Raise;
    [|eapply read_flt_short; [reflexivity|simpl; lia]].
  done.
Qed.

(** X26: an empty label ends the read of the value labels.  On a
    length byte of 0 the handler computes [l - 1 = -1] and [read(-1)]
    takes everything that is left of the file as the text of the label,
    so whatever follows, further pairs or the type-4 record, is read
    from the empty rest: [pkflt] or [pkint] falls back to its bare
    number, the subscript raises [TypeError], the file stands at its
    end and no label has been attached. *)
Theorem GetRecordType3_empty_label s countw ps v more :
  length countw = 4%nat ->
  (length ps < Z.to_nat (int32_of countw))%nat ->
  Forall pair_ok ps -> Forall not_multiple_of_eight ps ->
  length v = 8%nat ->
  fin s = Some (countw ++ concat (map pair_bytes ps) ++ v ++ [x00] ++ more) ->
  ∃ s',
    GetRecordType3 s = Raise TypeError s'
    ∧ fin s' = Some []
    ∧ variablelist s' = variablelist s
    ∧ rawvarlist s' = rawvarlist s.
Proof.
  intros Hcw Hn Hok Hodd Hv Hf.
  assert (∃ k, Z.to_nat (int32_of countw) = (length ps + S k)%nat)
    as [k Hk] by (exists (Z.to_nat (int32_of countw) - S (length ps))%nat; lia).
  unfold GetRecordType3.
  erewrite bind_Ret; [|reflexivity].
  erewrite bind_Ret; [|reflexivity].
  erewrite bind_Ret; [|by eapply read_int_app].
  rewrite Hk. destruct k as [|k].
  - erewrite bind_Ret;
      [|rewrite read_labels_add;
        erewrite bind_Ret; [|by eapply read_pairs_run];
        by eapply (read_labels_empty_label 0)].
    erewrite bind_Raise;
      [|eapply read_int_short; [reflexivity|simpl; lia]].
    eexists. split; [reflexivity|]. done.
  - erewrite bind_Raise;
      [|rewrite read_labels_add;
        erewrite bind_Ret; [|by eapply read_pairs_run];
        by eapply (read_labels_empty_label (S k))].
    eexists. split; [reflexivity|]. done.
Qed.

Lemma GetRecordType3_empty_label_witness :
  ∃ s',
    GetRecordType3
      (two_var_state (le32 2 ++ concat (map pair_bytes [sample_pair]) ++
                      nine_word ++ [x00] ++
                      replicate 7 x20 ++ le32 4 ++ le32 1 ++ le32 2 ++
                      record999))
    = Raise TypeError s'
    ∧ fin s' = Some []
    ∧ variablelist s' =
        variablelist
          (two_var_state (le32 2 ++ concat (map pair_bytes [sample_pair]) ++
                          nine_word ++ [x00] ++
                          replicate 7 x20 ++ le32 4 ++ le32 1 ++ le32 2 ++
                          record999))
    ∧ rawvarlist s' =
        rawvarlist
          (two_var_state (le32 2 ++ concat (map pair_bytes [sample_pair]) ++
                          nine_word ++ [x00] ++
                          replicate 7 x20 ++ le32 4 ++ le32 1 ++ le32 2 ++
                          record999)).
Proof.
  apply (GetRecordType3_empty_label
           (two_var_state (le32 2 ++ concat (map pair_bytes [sample_pair]) ++
                           nine_word ++ [x00] ++
                           replicate 7 x20 ++ le32 4 ++ le32 1 ++ le32 2 ++
                           record999))
           (le32 2) [sample_pair] nine_word
           (replicate 7 x20 ++ le32 4 ++ le32 1 ++ le32 2 ++ record999)).
  - reflexivity.
  - vm_compute. lia.
  - constructor; [|constructor].
    repeat split; vm_compute; first [reflexivity | discriminate].
  - constructor; [|constructor]. vm_compute. discriminate.
  - reflexivity.
  - reflexivity.
Defined.
